(** * The Flutter / PDF.js bridge of Ninja Tutor

    A shallow embedding of [flutter_bridge.js] and the properties of its
    telemetry tracker, messaging gateway, selection handling, annotation
    capture and note re-anchoring.

    The repository holds three revisions of the script:
    - [Bridge]: [pdfjs/web/flutter_bridge.js] (telemetry, commands,
      selection, highlight);
    - [CaptureBridge]: the revision that adds annotation capture
      ([captureAllAnnotations], [captureEditorAnnotations]);
    - [NotesBridge]: the revision that adds note re-anchoring
      ([highlightNotesOnPage], [findRawOffset]).

    Conventions of the embedding.
    - The script's [let] globals are fields of a record; the parts of the
      browser the script reads or writes (parent window, viewer
      application, body class list, selection, DOM layers) are fields of
      the same state.  Handlers are functions from state to state.
    - [Date.now()] is an explicit argument (integer milliseconds).
      [onPageChange] takes its three readings of the clock as three
      arguments; in the other handlers one argument [now] stands for the
      readings of an invocation.
    - A timer set with [setTimeout] is its deadline; the clock is advanced
      explicitly and a due timer runs its callback.
    - Strings are sequences of code units below 256 ([string]); the
      whitespace class of [trim] and of the regular expression [\s] is
      the one JavaScript has in that range.
    - [console.log] lines are kept only where they record an outbound
      message ("Sending to Flutter:"), as the trace [logged]. *)

From Stdlib Require Import ZArith List String Ascii Bool Lia.
Import ListNotations.

Local Open Scope string_scope.
Local Open Scope Z_scope.

(** ** JavaScript values, objects and strings *)

Module Js.

#[local] Set Warnings "-register-all".

Inductive value : Type :=
| VUndefined
| VNull
| VBool (b : bool)
| VNum (n : Z)
| VStr (s : string)
| VObj (fields : list (string * value)).

(** An object literal: own properties in insertion order. *)
Definition object : Type := list (string * value).

(** [o[k]]. *)
Fixpoint get (k : string) (o : object) : value :=
  match o with
  | [] => VUndefined
  | (k', v) :: o' => if String.eqb k' k then v else get k o'
  end.

(** [o[k] = v]: an existing property keeps its place, a new one goes last. *)
Fixpoint put (k : string) (v : value) (o : object) : object :=
  match o with
  | [] => [(k, v)]
  | (k', v') :: o' =>
      if String.eqb k' k then (k, v) :: o' else (k', v') :: put k v o'
  end.

(** [{...o, ...data}]. *)
Definition spread (o data : object) : object :=
  fold_left (fun acc kv => put (fst kv) (snd kv) acc) data o.

(** ToBoolean, for the values the script tests. *)
Definition truthy (v : value) : bool :=
  match v with
  | VUndefined | VNull => false
  | VBool b => b
  | VNum n => negb (n =? 0)
  | VStr s => negb (String.eqb s "")
  | VObj _ => true
  end.

(** [Math.round(ms / 1000)] on an integer [ms]: nearest integer, halves
    towards plus infinity. *)
Definition round_div1000 (ms : Z) : Z := (ms + 500) / 1000.

(** White space of [String.prototype.trim] and of [\s], for code units
    below 256: TAB, LF, VT, FF, CR, SPACE, NBSP. *)
Definition is_space (c : ascii) : bool :=
  let n := nat_of_ascii c in
  (Nat.eqb n 9 || Nat.eqb n 10 || Nat.eqb n 11 || Nat.eqb n 12
   || Nat.eqb n 13 || Nat.eqb n 32 || Nat.eqb n 160)%bool.

Fixpoint trim_start (s : string) : string :=
  match s with
  | EmptyString => EmptyString
  | String c s' => if is_space c then trim_start s' else s
  end.

(** Drops the white space at the end of [s]. *)
Fixpoint trim_end (s : string) : string :=
  match s with
  | EmptyString => EmptyString
  | String c s' =>
      match trim_end s' with
      | EmptyString => if is_space c then EmptyString else String c EmptyString
      | t => String c t
      end
  end.

(** [s.trim()]. *)
Definition trim (s : string) : string := trim_end (trim_start s).

(** [s.replace(/\s+/g, " ")]: every maximal run of white space becomes
    one space. *)
Fixpoint collapse_from (in_run : bool) (s : string) : string :=
  match s with
  | EmptyString => EmptyString
  | String c s' =>
      if is_space c
      then (if in_run then collapse_from true s'
            else String " "%char (collapse_from true s'))
      else String c (collapse_from false s')
  end.

Definition collapse (s : string) : string := collapse_from false s.

End Js.

(** ** [pdfjs/web/flutter_bridge.js] *)

Module Bridge.

Import Js.

(** *** The browser as the script sees it *)

(** [getBoundingClientRect()] of a range.  The script only copies the
    numbers into its messages. *)
Record DOMRect : Type :=
  { rect_left : Z; rect_top : Z; rect_width : Z; rect_height : Z }.

Record Range : Type := { range_text : string; range_rect : DOMRect }.

(** [window.getSelection()]: the ranges of the selection. *)
Definition Selection : Type := list Range.

(** [selection.toString()]. *)
Definition selection_toString (sel : Selection) : string :=
  String.concat "" (map range_text sel).

(** [window.parent]: absent, the window itself (a top-level page), or an
    embedding frame. *)
Inductive ParentWindow : Type := ParentMissing | ParentSelf | ParentFrame.

Record PdfViewer : Type := { currentScale : Z }.

(** [window.PDFViewerApplication].  [app_pageWrites] lists the values
    assigned to its [page] property, newest first. *)
Record Application : Type :=
  { app_page : Z;
    app_pagesCount : Z;
    app_eventBus : bool;
    app_pdfViewer : option PdfViewer;
    app_pageWrites : list Z }.

(** *** State: the script's globals, the browser, the outbound traces *)

Record State : Type :=
  { currentPage : Z;
    pageStartTime : Z;
    totalTimeSpent : Z;
    activeTimeSpent : Z;
    idleTimeout : option Z;          (* deadline of the pending idle timer *)
    isIdle : bool;
    selectedText : string;
    selectedTextPosition : option Js.object;   (* [None] is [null] *)
    parent : ParentWindow;
    PDFViewerApplication : option Application;
    highlightModeClass : bool;       (* body.classList has "highlight-mode" *)
    selection : Selection;
    posted : list Js.object;         (* window.parent.postMessage, newest first *)
    logged : list Js.object }.       (* "Sending to Flutter:", newest first *)

Definition set_currentPage (v : Z) (s : State) : State :=
  {| currentPage := v; pageStartTime := pageStartTime s;
     totalTimeSpent := totalTimeSpent s;
     activeTimeSpent := activeTimeSpent s; idleTimeout := idleTimeout s;
     isIdle := isIdle s; selectedText := selectedText s;
     selectedTextPosition := selectedTextPosition s; parent := parent s;
     PDFViewerApplication := PDFViewerApplication s;
     highlightModeClass := highlightModeClass s; selection := selection s;
     posted := posted s; logged := logged s |}.

Definition set_pageStartTime (v : Z) (s : State) : State :=
  {| currentPage := currentPage s; pageStartTime := v;
     totalTimeSpent := totalTimeSpent s;
     activeTimeSpent := activeTimeSpent s; idleTimeout := idleTimeout s;
     isIdle := isIdle s; selectedText := selectedText s;
     selectedTextPosition := selectedTextPosition s; parent := parent s;
     PDFViewerApplication := PDFViewerApplication s;
     highlightModeClass := highlightModeClass s; selection := selection s;
     posted := posted s; logged := logged s |}.

Definition set_totalTimeSpent (v : Z) (s : State) : State :=
  {| currentPage := currentPage s; pageStartTime := pageStartTime s;
     totalTimeSpent := v; activeTimeSpent := activeTimeSpent s;
     idleTimeout := idleTimeout s; isIdle := isIdle s;
     selectedText := selectedText s;
     selectedTextPosition := selectedTextPosition s; parent := parent s;
     PDFViewerApplication := PDFViewerApplication s;
     highlightModeClass := highlightModeClass s; selection := selection s;
     posted := posted s; logged := logged s |}.

Definition set_activeTimeSpent (v : Z) (s : State) : State :=
  {| currentPage := currentPage s; pageStartTime := pageStartTime s;
     totalTimeSpent := totalTimeSpent s; activeTimeSpent := v;
     idleTimeout := idleTimeout s; isIdle := isIdle s;
     selectedText := selectedText s;
     selectedTextPosition := selectedTextPosition s; parent := parent s;
     PDFViewerApplication := PDFViewerApplication s;
     highlightModeClass := highlightModeClass s; selection := selection s;
     posted := posted s; logged := logged s |}.

Definition set_idleTimeout (v : option Z) (s : State) : State :=
  {| currentPage := currentPage s; pageStartTime := pageStartTime s;
     totalTimeSpent := totalTimeSpent s;
     activeTimeSpent := activeTimeSpent s; idleTimeout := v;
     isIdle := isIdle s; selectedText := selectedText s;
     selectedTextPosition := selectedTextPosition s; parent := parent s;
     PDFViewerApplication := PDFViewerApplication s;
     highlightModeClass := highlightModeClass s; selection := selection s;
     posted := posted s; logged := logged s |}.

Definition set_isIdle (v : bool) (s : State) : State :=
  {| currentPage := currentPage s; pageStartTime := pageStartTime s;
     totalTimeSpent := totalTimeSpent s;
     activeTimeSpent := activeTimeSpent s; idleTimeout := idleTimeout s;
     isIdle := v; selectedText := selectedText s;
     selectedTextPosition := selectedTextPosition s; parent := parent s;
     PDFViewerApplication := PDFViewerApplication s;
     highlightModeClass := highlightModeClass s; selection := selection s;
     posted := posted s; logged := logged s |}.

Definition set_selectedText (v : string) (s : State) : State :=
  {| currentPage := currentPage s; pageStartTime := pageStartTime s;
     totalTimeSpent := totalTimeSpent s;
     activeTimeSpent := activeTimeSpent s; idleTimeout := idleTimeout s;
     isIdle := isIdle s; selectedText := v;
     selectedTextPosition := selectedTextPosition s; parent := parent s;
     PDFViewerApplication := PDFViewerApplication s;
     highlightModeClass := highlightModeClass s; selection := selection s;
     posted := posted s; logged := logged s |}.

Definition set_selectedTextPosition (v : option Js.object) (s : State)
    : State :=
  {| currentPage := currentPage s; pageStartTime := pageStartTime s;
     totalTimeSpent := totalTimeSpent s;
     activeTimeSpent := activeTimeSpent s; idleTimeout := idleTimeout s;
     isIdle := isIdle s; selectedText := selectedText s;
     selectedTextPosition := v; parent := parent s;
     PDFViewerApplication := PDFViewerApplication s;
     highlightModeClass := highlightModeClass s; selection := selection s;
     posted := posted s; logged := logged s |}.

Definition set_PDFViewerApplication (v : option Application) (s : State) : State :=
  {| currentPage := currentPage s; pageStartTime := pageStartTime s;
     totalTimeSpent := totalTimeSpent s;
     activeTimeSpent := activeTimeSpent s; idleTimeout := idleTimeout s;
     isIdle := isIdle s; selectedText := selectedText s;
     selectedTextPosition := selectedTextPosition s; parent := parent s;
     PDFViewerApplication := v; highlightModeClass := highlightModeClass s;
     selection := selection s; posted := posted s; logged := logged s |}.

Definition set_highlightModeClass (v : bool) (s : State) : State :=
  {| currentPage := currentPage s; pageStartTime := pageStartTime s;
     totalTimeSpent := totalTimeSpent s;
     activeTimeSpent := activeTimeSpent s; idleTimeout := idleTimeout s;
     isIdle := isIdle s; selectedText := selectedText s;
     selectedTextPosition := selectedTextPosition s; parent := parent s;
     PDFViewerApplication := PDFViewerApplication s;
     highlightModeClass := v; selection := selection s; posted := posted s;
     logged := logged s |}.

Definition set_selection (v : Selection) (s : State) : State :=
  {| currentPage := currentPage s; pageStartTime := pageStartTime s;
     totalTimeSpent := totalTimeSpent s;
     activeTimeSpent := activeTimeSpent s; idleTimeout := idleTimeout s;
     isIdle := isIdle s; selectedText := selectedText s;
     selectedTextPosition := selectedTextPosition s; parent := parent s;
     PDFViewerApplication := PDFViewerApplication s;
     highlightModeClass := highlightModeClass s; selection := v;
     posted := posted s; logged := logged s |}.

Definition set_posted (v : list Js.object) (s : State) : State :=
  {| currentPage := currentPage s; pageStartTime := pageStartTime s;
     totalTimeSpent := totalTimeSpent s;
     activeTimeSpent := activeTimeSpent s; idleTimeout := idleTimeout s;
     isIdle := isIdle s; selectedText := selectedText s;
     selectedTextPosition := selectedTextPosition s; parent := parent s;
     PDFViewerApplication := PDFViewerApplication s;
     highlightModeClass := highlightModeClass s; selection := selection s;
     posted := v; logged := logged s |}.

Definition set_logged (v : list Js.object) (s : State) : State :=
  {| currentPage := currentPage s; pageStartTime := pageStartTime s;
     totalTimeSpent := totalTimeSpent s;
     activeTimeSpent := activeTimeSpent s; idleTimeout := idleTimeout s;
     isIdle := isIdle s; selectedText := selectedText s;
     selectedTextPosition := selectedTextPosition s; parent := parent s;
     PDFViewerApplication := PDFViewerApplication s;
     highlightModeClass := highlightModeClass s; selection := selection s;
     posted := posted s; logged := v |}.

(** The globals as the script initialises them when it is loaded at [t0]. *)
Definition init (t0 : Z) (par : ParentWindow) (app : option Application)
    (hl : bool) (sel : Selection) : State :=
  {| currentPage := 1; pageStartTime := t0; totalTimeSpent := 0;
     activeTimeSpent := 0; idleTimeout := None; isIdle := false;
     selectedText := ""; selectedTextPosition := None;
     parent := par; PDFViewerApplication := app; highlightModeClass := hl;
     selection := sel; posted := []; logged := [] |}.

(** *** Messaging gateway *)

(** The object [{type, timestamp: Date.now(), ...data}]. *)
Definition message_of (type : string) (data : Js.object) (now : Z) : Js.object :=
  spread [("type", VStr type); ("timestamp", VNum now)] data.

(** [window.parent && window.parent !== window]. *)
Definition parent_reachable (p : ParentWindow) : bool :=
  match p with
  | ParentFrame => true
  | ParentMissing | ParentSelf => false
  end.

Definition sendToFlutter (type : string) (data : Js.object) (now : Z)
    (s : State) : State :=
  let message := message_of type data now in
  let s1 := if parent_reachable (parent s)
            then set_posted (message :: posted s) s
            else s in
  set_logged (message :: logged s1) s1.

(** An inbound command, [event.data]: its [type], and the [page] and
    [zoom] that the cases read. *)
Record Command : Type := { cmd_type : string; cmd_page : Z; cmd_zoom : Z }.

(** The ["message"] listener.  In the [setZoom] case a viewer application
    without [pdfViewer] makes the assignment throw; the listener ends
    there and the state is as before. *)
Definition onMessage (message : Command) (now : Z) (s : State) : State :=
  let type := cmd_type message in
  if String.eqb type "goToPage" then
    match PDFViewerApplication s with
    | Some app =>
        if negb (app_page app =? cmd_page message)
        then set_PDFViewerApplication
               (Some {| app_page := cmd_page message;
                        app_pagesCount := app_pagesCount app;
                        app_eventBus := app_eventBus app;
                        app_pdfViewer := app_pdfViewer app;
                        app_pageWrites := cmd_page message :: app_pageWrites app |})
               s
        else s
    | None => s
    end
  else if String.eqb type "setZoom" then
    match PDFViewerApplication s with
    | Some app =>
        match app_pdfViewer app with
        | Some _ =>
            set_PDFViewerApplication
              (Some {| app_page := app_page app;
                       app_pagesCount := app_pagesCount app;
                       app_eventBus := app_eventBus app;
                       app_pdfViewer := Some {| currentScale := cmd_zoom message |};
                       app_pageWrites := app_pageWrites app |})
              s
        | None => s
        end
    | None => s
    end
  else if String.eqb type "addBookmark" then
    sendToFlutter "bookmarkAdded"
      [("page", VNum (currentPage s)); ("timestamp", VNum now)] now s
  else if String.eqb type "toggleHighlightMode" then
    let highlightMode := negb (highlightModeClass s) in
    sendToFlutter "highlightModeChanged" [("enabled", VBool highlightMode)] now
      (set_highlightModeClass highlightMode s)
  else s.

(** *** Telemetry tracker *)

(** [onPageChange(pageNum)].  The function reads the clock three times:
    [now] is the reading that ends the dwell, [sent] the reading that
    [sendToFlutter] puts into the message, [entered] the reading that
    becomes the entry time of the new page. *)
Definition onPageChange (pageNum : Z) (now sent entered : Z) (s : State)
    : State :=
  let timeSpent := now - pageStartTime s in
  let s1 := set_totalTimeSpent (totalTimeSpent s + timeSpent) s in
  let s2 := if negb (isIdle s1)
            then set_activeTimeSpent (activeTimeSpent s1 + timeSpent) s1
            else s1 in
  let s3 := sendToFlutter "pageChange"
              [("previousPage", VNum (currentPage s2));
               ("newPage", VNum pageNum);
               ("timeSpent", VNum (round_div1000 timeSpent));
               ("totalTimeSpent", VNum (round_div1000 (totalTimeSpent s2)));
               ("activeTimeSpent", VNum (round_div1000 (activeTimeSpent s2)))]
              sent s2 in
  set_pageStartTime entered (set_currentPage pageNum s3).

(** The callback of the idle timer. *)
Definition idleCallback (now : Z) (s : State) : State :=
  sendToFlutter "idleStateChange" [("isIdle", VBool true)] now
    (set_isIdle true s).

(** [clearTimeout] drops the pending timer; the new one is due 10000 ms
    from now. *)
Definition resetIdleTimer (now : Z) (s : State) : State :=
  let s0 := match idleTimeout s with
            | Some _ => set_idleTimeout None s
            | None => s
            end in
  let wasIdle := isIdle s0 in
  let s1 := set_isIdle false s0 in
  let s2 := if wasIdle
            then sendToFlutter "idleStateChange" [("isIdle", VBool false)] now s1
            else s1 in
  set_idleTimeout (Some (now + 10000)) s2.

(** *** Selection and highlight *)

(** The value of the variable [selectedTextPosition]. *)
Definition position_value (p : option Js.object) : Js.value :=
  match p with
  | Some o => VObj o
  | None => VNull
  end.

Definition onTextSelection (now : Z) (s : State) : State :=
  let sel := selection s in
  let s1 := set_selectedText (trim (selection_toString sel)) s in
  if truthy (VStr (selectedText s1)) then
    match sel with
    | range :: _ =>
        let rect := range_rect range in
        let s2 := set_selectedTextPosition
                    (Some [("x", VNum (rect_left rect));
                           ("y", VNum (rect_top rect));
                           ("width", VNum (rect_width rect));
                           ("height", VNum (rect_height rect))]) s1 in
        sendToFlutter "textSelection"
          [("text", VStr (selectedText s2));
           ("page", VNum (currentPage s2));
           ("position", position_value (selectedTextPosition s2))] now s2
    | [] => s1   (* getRangeAt(0) throws; unreachable with a non-empty text *)
    end
  else
    let s2 := set_selectedTextPosition None (set_selectedText "" s1) in
    sendToFlutter "textSelection"
      [("text", VStr ""); ("page", VNum (currentPage s2)); ("position", VNull)]
      now s2.

(** [createHighlight(text, color = "yellow")]; [None] is an omitted
    argument. *)
Definition createHighlight (text : string) (color : option string) (now : Z)
    (s : State) : State :=
  let color := match color with Some c => c | None => "yellow" end in
  if (negb (truthy (VStr (selectedText s)))
      || negb (truthy (position_value (selectedTextPosition s))))%bool
  then s
  else
    let s1 := sendToFlutter "highlight"
                [("text", VStr (selectedText s));
                 ("page", VNum (currentPage s));
                 ("color", VStr color);
                 ("position", position_value (selectedTextPosition s))] now s in
    set_selectedTextPosition None
      (set_selectedText "" (set_selection [] s1)).

(** *** Set-up *)

(** [setupEventListeners()], apart from the registration of the listeners
    themselves. *)
Definition setupEventListeners (now : Z) (s : State) : State :=
  match PDFViewerApplication s with
  | Some app =>
      if app_eventBus app then
        let s1 := set_currentPage
                    (if app_page app =? 0 then 1 else app_page app) s in
        let s2 := set_pageStartTime now s1 in
        let s3 := resetIdleTimer now s2 in
        sendToFlutter "pdfReady"
          [("totalPages", VNum (app_pagesCount app));
           ("currentPage", VNum (currentPage s3))] now s3
      else s
  | None => s
  end.

(** *** The event loop *)

(** What the browser, the viewer and the host can make the script do. *)
Inductive Event : Type :=
| EvMessage (message : Command)        (* "message" from the host *)
| EvPageChanging (pageNumber : Z) (sent entered : Z)
                                       (* event bus: "pagechanging"; the two later readings of the clock *)
| EvInteraction                        (* mousedown, mousemove, keypress, scroll, touchstart *)
| EvMouseUp                            (* "mouseup" *)
| EvSelectionChange (sel : Selection)  (* the selection becomes [sel]: "selectionchange" *)
| EvCreateHighlight (text : string) (color : option string)
| EvSetup.                             (* setupEventListeners *)

Definition handle (e : Event) (now : Z) (s : State) : State :=
  match e with
  | EvMessage m => onMessage m now s
  | EvPageChanging p sent entered => onPageChange p now sent entered s
  | EvInteraction => resetIdleTimer now s
  | EvMouseUp => onTextSelection now s
  | EvSelectionChange sel => onTextSelection now (set_selection sel s)
  | EvCreateHighlight text color => createHighlight text color now s
  | EvSetup => setupEventListeners now s
  end.

(** The clock reaches [now]: an idle timer that is due runs, at its
    deadline, and is no longer pending. *)
Definition advance (now : Z) (s : State) : State :=
  match idleTimeout s with
  | Some deadline =>
      if deadline <=? now
      then idleCallback deadline (set_idleTimeout None s)
      else s
  | None => s
  end.

(** One turn of the event loop at clock reading [now]. *)
Definition step (s : State) (te : Z * Event) : State :=
  handle (snd te) (fst te) (advance (fst te) s).

Definition run (s : State) (evs : list (Z * Event)) : State :=
  fold_left step evs s.

(** *** Observations used in the statements *)

(** What the viewer has been told: the values written to its [page]. *)
Definition navigations (s : State) : list Z :=
  match PDFViewerApplication s with
  | Some app => app_pageWrites app
  | None => []
  end.

Definition viewer_page (s : State) : option Z :=
  option_map app_page (PDFViewerApplication s).

(** Commands of the host. *)
Definition goToPage (page : Z) : Command :=
  {| cmd_type := "goToPage"; cmd_page := page; cmd_zoom := 0 |}.

Definition setZoom (zoom : Z) : Command :=
  {| cmd_type := "setZoom"; cmd_page := 0; cmd_zoom := zoom |}.

(** A command of a type that the listener has no case for. *)
Definition other_command (type : string) : Command :=
  {| cmd_type := type; cmd_page := 0; cmd_zoom := 0 |}.

Definition toggleHighlightMode : Command :=
  {| cmd_type := "toggleHighlightMode"; cmd_page := 0; cmd_zoom := 0 |}.

(** Whether a selection is stored: a text and its position. *)
Definition selection_stored (s : State) : Prop :=
  selectedText s <> "" /\ selectedTextPosition s <> None.

(** [message.type === type]. *)
Definition has_type (type : string) (message : Js.object) : bool :=
  match get "type" message with
  | VStr t => String.eqb t type
  | _ => false
  end.

(** The [idleStateChange] messages of a trace. *)
Definition idle_changes (trace : list Js.object) : list Js.object :=
  filter (has_type "idleStateChange") trace.

Definition idle_message (idle : bool) (now : Z) : Js.object :=
  [("type", VStr "idleStateChange"); ("timestamp", VNum now);
   ("isIdle", VBool idle)].

(** The events that reset the idle timer: the five interaction events,
    and the set-up, which calls [resetIdleTimer] itself. *)
Definition resets_idle_timer (e : Event) : bool :=
  match e with
  | EvInteraction | EvSetup => true
  | _ => false
  end.

(** Interactions at the clock readings [ts], each less than 10 seconds
    after the one before, the first less than 10 seconds after [last]. *)
Fixpoint in_quick_succession (last : Z) (ts : list Z) : Prop :=
  match ts with
  | [] => True
  | t :: ts' => last <= t < last + 10000 /\ in_quick_succession t ts'
  end.

(** A [pageChange] sample reports no more active than total time. *)
Definition sample_ok (message : Js.object) : Prop :=
  if has_type "pageChange" message
  then exists active total,
         get "activeTimeSpent" message = VNum active
         /\ get "totalTimeSpent" message = VNum total
         /\ active <= total
  else True.

(** The last reading of the clock that the handler of an event takes,
    when its first is [t]. *)
Definition last_reading (t : Z) (e : Event) : Z :=
  match e with
  | EvPageChanging _ _ entered => entered
  | _ => t
  end.

(** The readings that the handler of an event takes do not decrease. *)
Definition readings_in_order (t : Z) (e : Event) : Prop :=
  match e with
  | EvPageChanging _ sent entered => t <= sent <= entered
  | _ => True
  end.

(** The clock does not run backwards: the readings of a run, from [lo]. *)
Fixpoint clock_monotone (lo : Z) (evs : list (Z * Event)) : Prop :=
  match evs with
  | [] => True
  | (t, e) :: evs' =>
      lo <= t /\ readings_in_order t e /\ clock_monotone (last_reading t e) evs'
  end.

(** The invariant of a session at a clock reading of [lo] or later. *)
Definition bounded (lo : Z) (s : State) : Prop :=
  activeTimeSpent s <= totalTimeSpent s
  /\ pageStartTime s <= lo
  /\ Forall sample_ok (logged s)
  /\ Forall sample_ok (posted s).

(** A viewer on page 1, inside a frame, with the highlight mode off. *)
Definition viewer_on_page_1 : State :=
  init 0 ParentFrame
    (Some {| app_page := 1; app_pagesCount := 10; app_eventBus := true;
             app_pdfViewer := Some {| currentScale := 1000 |};
             app_pageWrites := [] |})
    false [].

End Bridge.

(** ** The revision with annotation capture *)

Module CaptureBridge.

Import Js.

(** [s.includes(sub)]. *)
Definition includes (sub s : string) : bool :=
  match String.index 0 sub s with
  | Some _ => true
  | None => false
  end.

(** *** The annotation editor layer *)

(** A [canvas] inside an editor; [canvas_dataURL = None] when
    [toDataURL] throws (a tainted canvas). *)
Record Canvas : Type :=
  { canvas_dataURL : option string; canvas_width : Z; canvas_height : Z }.

(** An element below an editor layer's [div], with what the script reads
    from it.  [el_pageCoordinates] is the object that
    [getPdfPageCoordinates(rect)] returns for the element: it is computed
    in floating point from the page's viewport and is taken as given. *)
Record Element : Type :=
  { el_tag : string;
    el_className : string;
    el_attributes : list (string * string);
    el_child_of_layer : bool;            (* its parent is the layer's [div] *)
    el_rect : Bridge.DOMRect;
    el_pageCoordinates : Js.object;
    el_internal : option string;         (* textContent of its ".internal" *)
    el_fontSize : string;                (* computed, of ".internal" or itself *)
    el_color : string;
    el_backgroundColor : string;
    el_canvas : option Canvas }.

(** [element.getAttribute(name)]; [None] is [null]. *)
Fixpoint getAttribute (name : string) (attrs : list (string * string))
    : option string :=
  match attrs with
  | [] => None
  | (k, v) :: attrs' =>
      if String.eqb k name then Some v else getAttribute name attrs'
  end.

Fixpoint put_attribute (name v : string) (attrs : list (string * string))
    : list (string * string) :=
  match attrs with
  | [] => [(name, v)]
  | (k, v') :: attrs' =>
      if String.eqb k name then (k, v) :: attrs'
      else (k, v') :: put_attribute name v attrs'
  end.

(** [element.setAttribute(name, v)]: the element is updated in place. *)
Definition setAttribute (name v : string) (e : Element) : Element :=
  {| el_tag := el_tag e; el_className := el_className e;
     el_attributes := put_attribute name v (el_attributes e);
     el_child_of_layer := el_child_of_layer e; el_rect := el_rect e;
     el_pageCoordinates := el_pageCoordinates e;
     el_internal := el_internal e; el_fontSize := el_fontSize e;
     el_color := el_color e; el_backgroundColor := el_backgroundColor e;
     el_canvas := el_canvas e |}.

(** A non-empty attribute value is truthy; [null] and [""] are not. *)
Definition attr_truthy (a : option string) : bool :=
  match a with
  | Some v => negb (String.eqb v "")
  | None => false
  end.

(** [pageView.annotationEditorLayer]: its [div] ([None]: not there yet)
    with the elements below it in document order. *)
Record EditorLayer : Type := { layer_div : option (list Element) }.

Record PageView : Type := { annotationEditorLayer : option EditorLayer }.

(** [window.PDFViewerApplication.pdfViewer._pages]. *)
Record PdfViewer : Type := { _pages : list (option PageView) }.

Record Application : Type := { pdfViewer : option PdfViewer }.

Record State : Type :=
  { parent : Bridge.ParentWindow;
    PDFViewerApplication : option Application;
    posted : list Js.object;
    logged : list Js.object }.

Definition set_pages (pages : list (option PageView)) (s : State) : State :=
  {| parent := parent s;
     PDFViewerApplication :=
       Some {| pdfViewer := Some {| _pages := pages |} |};
     posted := posted s; logged := logged s |}.

Definition sendToFlutter (type : string) (data : Js.object) (now : Z)
    (s : State) : State :=
  let message := Bridge.message_of type data now in
  {| parent := parent s;
     PDFViewerApplication := PDFViewerApplication s;
     posted := if Bridge.parent_reachable (parent s)
               then message :: posted s else posted s;
     logged := message :: logged s |}.

(** *** Capture *)

(** The selector [".annotationEditorLayer > div"] below the layer's [div]. *)
Definition matches_layer_child (e : Element) : bool :=
  (el_child_of_layer e && String.eqb (el_tag e) "div")%bool.

(** The selector ['section, div[class*="Editor"], *[data-editor-rotation]']. *)
Definition matches_editor (e : Element) : bool :=
  (String.eqb (el_tag e) "section"
   || (String.eqb (el_tag e) "div" && includes "Editor" (el_className e))
   || match getAttribute "data-editor-rotation" (el_attributes e) with
      | Some _ => true
      | None => false
      end)%bool.

(** [captureAnnotationData(element, pageNumber)].  Its body is one [try]
    block: when [toDataURL] throws nothing is sent. *)
Definition captureAnnotationData (element : Element) (pageNumber : Z)
    (now : Z) (s : State) : State :=
  let annotationType :=
    match getAttribute "data-editor-type" (el_attributes element) with
    | Some v => if String.eqb v "" then "unknown" else v
    | None => "unknown"
    end in
  let rect := el_rect element in
  let annotationData : Js.object :=
    [("type", VStr annotationType);
     ("page", VNum pageNumber);
     ("position",
      VObj (spread [("viewportX", VNum (Bridge.rect_left rect));
                    ("viewportY", VNum (Bridge.rect_top rect));
                    ("width", VNum (Bridge.rect_width rect));
                    ("height", VNum (Bridge.rect_height rect))]
              (el_pageCoordinates element)));
     ("timestamp", VNum now)] in
  if String.eqb annotationType "freetext" then
    let text := match el_internal element with Some t => t | None => "" end in
    sendToFlutter "annotation"
      (put "color" (VStr (el_color element))
         (put "fontSize" (VStr (el_fontSize element))
            (put "text" (VStr text) annotationData))) now s
  else if String.eqb annotationType "ink" then
    match el_canvas element with
    | Some canvas =>
        match canvas_dataURL canvas with
        | Some url =>
            sendToFlutter "annotation"
              (put "height" (VNum (canvas_height canvas))
                 (put "width" (VNum (canvas_width canvas))
                    (put "drawingData" (VStr url) annotationData))) now s
        | None => s
        end
    | None => sendToFlutter "annotation" annotationData now s
    end
  else if String.eqb annotationType "highlight" then
    sendToFlutter "annotation"
      (put "color" (VStr (el_backgroundColor element)) annotationData) now s
  else sendToFlutter "annotation" annotationData now s.

(** [editors.forEach((editor) => captureAnnotationData(editor, pageNumber))]
    over the elements that [sel] selects. *)
Fixpoint capture_each (sel : Element -> bool) (els : list Element)
    (pageNumber : Z) (now : Z) (s : State) : State :=
  match els with
  | [] => s
  | e :: els' =>
      capture_each sel els' pageNumber now
        (if sel e then captureAnnotationData e pageNumber now s else s)
  end.

(** [captureEditorAnnotations(pageNumber)], the listener of
    ["annotationeditorlayerrendered"].  Every failure is caught by its
    [try] block. *)
Definition captureEditorAnnotations (pageNumber : Z) (now : Z) (s : State)
    : State :=
  match PDFViewerApplication s with
  | Some app =>
      match pdfViewer app with
      | Some viewer =>
          if pageNumber <? 1 then s else
          match nth_error (_pages viewer) (Z.to_nat (pageNumber - 1)) with
          | Some (Some pageView) =>
              match annotationEditorLayer pageView with
              | Some layer =>
                  match layer_div layer with
                  | Some els =>
                      capture_each matches_layer_child els pageNumber now s
                  | None => s
                  end
              | None => s
              end
          | _ => s
          end
      | None => s
      end
  | None => s
  end.

(** The [forEach] of [captureAllAnnotations] on one layer: an editor
    without the mark ["data-sent-to-flutter"] is marked, gets an id and
    is captured.  [rnd k] is the text of [Math.random()] for the editor
    at index [k].  Returns the editors as they are afterwards. *)
Fixpoint capture_new (els : list Element) (idx : nat) (pageNumber : Z)
    (now : Z) (stamp : string) (rnd : nat -> string) (s : State)
    : list Element * State :=
  match els with
  | [] => ([], s)
  | editor :: els' =>
      if matches_editor editor then
        if attr_truthy (getAttribute "data-sent-to-flutter" (el_attributes editor))
        then
          let (rest, s') := capture_new els' (S idx) pageNumber now stamp rnd s in
          (editor :: rest, s')
        else
          let id :=
            match getAttribute "data-annotation-id" (el_attributes editor) with
            | Some v => if String.eqb v "" then stamp ++ "-" ++ rnd idx else v
            | None => stamp ++ "-" ++ rnd idx
            end in
          let editor1 := setAttribute "data-sent-to-flutter" "true" editor in
          let editor2 := setAttribute "data-annotation-id" id editor1 in
          let s1 := captureAnnotationData editor2 pageNumber now s in
          let (rest, s') := capture_new els' (S idx) pageNumber now stamp rnd s1 in
          (editor2 :: rest, s')
      else
        let (rest, s') := capture_new els' idx pageNumber now stamp rnd s in
        (editor :: rest, s')
  end.

(** The loop of [captureAllAnnotations] over [viewer._pages], from page
    index [i]. *)
Fixpoint capture_pages (pages : list (option PageView)) (i : Z) (now : Z)
    (stamp : string) (rnd : Z -> nat -> string) (s : State)
    : list (option PageView) * State :=
  match pages with
  | [] => ([], s)
  | pv :: pages' =>
      let '(pv', s1) :=
        match pv with
        | Some pageView =>
            match annotationEditorLayer pageView with
            | Some layer =>
                match layer_div layer with
                | Some els =>
                    let (els', s1) :=
                      capture_new els 0 (i + 1) now stamp (rnd i) s in
                    (Some {| annotationEditorLayer :=
                               Some {| layer_div := Some els' |} |}, s1)
                | None => (pv, s)
                end
            | None => (pv, s)
            end
        | None => (pv, s)
        end in
      let (rest, s2) := capture_pages pages' (i + 1) now stamp rnd s1 in
      (pv' :: rest, s2)
  end.

(** [captureAllAnnotations()], the callback of
    [setInterval(captureAllAnnotations, 2000)].  [stamp] is the text of
    [Date.now()]. *)
Definition captureAllAnnotations (now : Z) (stamp : string)
    (rnd : Z -> nat -> string) (s : State) : State :=
  match PDFViewerApplication s with
  | Some app =>
      match pdfViewer app with
      | Some viewer =>
          let (pages', s') := capture_pages (_pages viewer) 0 now stamp rnd s in
          set_pages pages' s'
      | None => s
      end
  | None => s
  end.

(** The two signals that look at the editor layers. *)
Inductive Signal : Type :=
| PollTick (stamp : string) (rnd : Z -> nat -> string)
| EditorLayerRendered (pageNumber : Z).

Definition observe (s : State) (ts : Z * Signal) : State :=
  match snd ts with
  | PollTick stamp rnd => captureAllAnnotations (fst ts) stamp rnd s
  | EditorLayerRendered p => captureEditorAnnotations p (fst ts) s
  end.

Definition run (s : State) (sigs : list (Z * Signal)) : State :=
  fold_left observe sigs s.

(** *** Observations used in the statements *)

(** The editors that the polling selector finds all carry the mark. *)
Definition all_marked (els : list Element) : Prop :=
  Forall (fun e => matches_editor e = true ->
                   attr_truthy (getAttribute "data-sent-to-flutter"
                                  (el_attributes e)) = true) els.

Definition page_marked (pv : option PageView) : Prop :=
  match pv with
  | Some {| annotationEditorLayer := Some {| layer_div := Some els |} |} =>
      all_marked els
  | _ => True
  end.

Definition state_marked (s : State) : Prop :=
  match PDFViewerApplication s with
  | Some {| pdfViewer := Some viewer |} => Forall page_marked (_pages viewer)
  | _ => True
  end.

(** Polling ticks at the clock readings [ts]. *)
Definition poll_ticks (ts : list (Z * string)) (rnd : Z -> nat -> string)
    : list (Z * Signal) :=
  map (fun t => (fst t, PollTick (snd t) rnd)) ts.

(** A free-text editor that the user has just placed on page 1, as the
    viewer builds it. *)
Definition free_text_editor : Element :=
  {| el_tag := "div";
     el_className := "freeTextEditor";
     el_attributes :=
       [("id", "pdfjs_internal_editor_0"); ("data-editor-rotation", "0")];
     el_child_of_layer := true;
     el_rect := {| Bridge.rect_left := 10; Bridge.rect_top := 20;
                   Bridge.rect_width := 100; Bridge.rect_height := 30 |};
     el_pageCoordinates := [];
     el_internal := Some "remember this";
     el_fontSize := "10px";
     el_color := "rgb(0, 0, 0)";
     el_backgroundColor := "rgba(0, 0, 0, 0)";
     el_canvas := None |}.

Definition one_editor : State :=
  {| parent := Bridge.ParentFrame;
     PDFViewerApplication :=
       Some {| pdfViewer :=
                 Some {| _pages :=
                           [Some {| annotationEditorLayer :=
                                      Some {| layer_div :=
                                                Some [free_text_editor] |} |}] |} |};
     posted := [];
     logged := [] |}.

End CaptureBridge.

(** ** The revision with note re-anchoring *)

Module NotesBridge.

Import Js.

Local Open Scope nat_scope.

(** [s.indexOf(sub)]; [None] is [-1]. *)
Definition indexOf (sub s : string) : option nat := String.index 0 sub s.

(** [s.split(" ")]. *)
Fixpoint split_space (s : string) : list string :=
  match s with
  | EmptyString => [EmptyString]
  | String c s' =>
      if Ascii.eqb c " "%char then EmptyString :: split_space s'
      else match split_space s' with
           | w :: ws => String c w :: ws
           | [] => [String c EmptyString]
           end
  end.

Definition findRawOffset (normalizedText : string) (normalizedOffset : nat)
    : nat :=
  if normalizedOffset <? String.length normalizedText
  then normalizedOffset
  else String.length normalizedText.

(** A note as the host pushes it with [displayNotes]. *)
Record Note : Type :=
  { note_id : string;
    note_page : Z;
    note_selectedText : string;     (* [""] also stands for a missing field *)
    note_title : option string;
    note_content : string }.

(** *** The text layer *)

(** A [span.note-highlight]: its [data-note-id], and whether the text it
    wraps was found by the exact search (kept for the proofs; the script
    does not store it). *)
Record Highlight : Type := { data_note_id : string; found_exact : bool }.

(** A text node of the layer, with the highlight span around it if any. *)
Record TextNode : Type :=
  { textContent : string; wrapper : option Highlight }.

(** A [.textLayer] element: its [data-page-number] and its text nodes in
    document order. *)
Record TextLayer : Type :=
  { data_page_number : option Z; text_nodes : list TextNode }.

(** [document.querySelector('.textLayer[data-page-number="N"]') ||
    document.querySelector(".textLayer")] over the layers of the document. *)
Definition find_text_layer (pageNum : Z) (doc : list TextLayer)
    : option TextLayer :=
  match find (fun l => match data_page_number l with
                       | Some p => Z.eqb p pageNum
                       | None => false
                       end) doc with
  | Some l => Some l
  | None => hd_error doc
  end.

(** A node that the tree walker has put in [allTextNodes], as the pass
    sees it later: its text now, and the nodes that [surroundContents]
    has inserted right after it (the span with the extracted text, the
    node with the rest). *)
Record Collected : Type := { node : string; inserted : list TextNode }.

(** The walk over the layer, then the removal of the existing
    [.note-highlight] spans: each text node stays, without a wrapper. *)
Definition collect (nodes : list TextNode) : list Collected :=
  map (fun n => {| node := textContent n; inserted := [] |}) nodes.

(** The text nodes of the layer in document order. *)
Definition layer_nodes (st : list Collected) : list TextNode :=
  flat_map (fun c => {| textContent := node c; wrapper := None |} :: inserted c)
           st.

Fixpoint update_nth {A : Type} (k : nat) (x : A) (l : list A) : list A :=
  match l, k with
  | [], _ => []
  | _ :: l', O => x :: l'
  | y :: l', S k' => y :: update_nth k' x l'
  end.

(** [range.setStart(node, a); range.setEnd(node, b);
    range.surroundContents(span)] on the collected node [k].  An offset
    beyond the node's text makes [setStart] or [setEnd] throw ([None]).
    Otherwise the text from [a] to [b] moves into the span, the node keeps
    what was before [a], and a new node after the span holds the rest. *)
Definition surroundContents (k a b : nat) (span : Highlight)
    (st : list Collected) : option (list Collected) :=
  match nth_error st k with
  | None => None
  | Some c =>
      let len := String.length (node c) in
      if ((a <=? len) && (b <=? len))%bool then
        let a := Nat.min a b in
        Some (update_nth k
                {| node := substring 0 a (node c);
                   inserted :=
                     {| textContent := substring a (b - a) (node c);
                        wrapper := Some span |}
                     :: {| textContent := substring b (len - b) (node c);
                           wrapper := None |}
                     :: inserted c |}
                st)
      else None
  end.

(** *** Search *)

Record NodePosition : Type :=
  { pos_node : nat;                (* which of [allTextNodes] *)
    rawStart : nat; rawEnd : nat;
    normalizedStart : nat; normalizedEnd : nat }.

(** The loop that builds [fullText], [normalizedFullText] and
    [nodePositions], from node [k] on. *)
Fixpoint build_positions (nodes : list Collected) (k : nat)
    (fullText normalizedFullText : string)
    : string * string * list NodePosition :=
  match nodes with
  | [] => (fullText, normalizedFullText, [])
  | textNode :: rest =>
      let rawText := node textNode in
      let normalizedText := collapse rawText in
      let fullText' := (fullText ++ rawText)%string in
      let normalizedFullText' := (normalizedFullText ++ normalizedText)%string in
      let '(f, n, ps) :=
        build_positions rest (S k) fullText' normalizedFullText' in
      (f, n,
       {| pos_node := k;
          rawStart := String.length fullText;
          rawEnd := String.length fullText';
          normalizedStart := String.length normalizedFullText;
          normalizedEnd := String.length normalizedFullText' |} :: ps)
  end.

(** The loop over [nodePositions]: the first node whose normalized span
    holds [matchIndex] gets the span; when wrapping throws, the error is
    caught and the loop goes on. *)
Fixpoint place (positions : list NodePosition) (matchIndex : nat)
    (matchText : string) (span : Highlight) (st : list Collected)
    : list Collected :=
  match positions with
  | [] => st
  | pos :: rest =>
      if ((normalizedStart pos <=? matchIndex)
          && (matchIndex <? normalizedEnd pos))%bool
      then
        let normalizedOffset := matchIndex - normalizedStart pos in
        let rawText :=
          match nth_error st (pos_node pos) with
          | Some c => node c
          | None => EmptyString
          end in
        let normalizedText := collapse rawText in
        let rawOffset := findRawOffset normalizedText normalizedOffset in
        let rawEndOffset :=
          Nat.min (rawOffset + String.length matchText) (String.length rawText) in
        match surroundContents (pos_node pos) rawOffset rawEndOffset span st with
        | Some st' => st'
        | None => place rest matchIndex matchText span st
        end
      else place rest matchIndex matchText span st
  end.

(** The words of the degraded search: the first three of more than three
    characters, joined by a space. *)
Definition fuzzy_search (searchText : string) : option string :=
  let searchWords :=
    filter (fun w => 3 <? String.length w) (split_space searchText) in
  match searchWords with
  | [] => None
  | _ => Some (String.concat " " (firstn 3 searchWords))
  end.

(** The body of [pageNotes.forEach((note, index) => ...)]. *)
Definition processNote (st : list Collected) (note : Note) : list Collected :=
  if String.eqb (note_selectedText note) "" then st else
  let searchText := collapse (trim (note_selectedText note)) in
  if String.eqb searchText "" then st else
  let '(_, normalizedFullText, nodePositions) :=
    build_positions st 0 EmptyString EmptyString in
  match indexOf searchText normalizedFullText with
  | Some textIndex =>
      place nodePositions textIndex searchText
        {| data_note_id := note_id note; found_exact := true |} st
  | None =>
      match fuzzy_search searchText with
      | Some fuzzySearch =>
          match indexOf fuzzySearch normalizedFullText with
          | Some fuzzyIndex =>
              place nodePositions fuzzyIndex fuzzySearch
                {| data_note_id := note_id note; found_exact := false |} st
          | None => st
          end
      | None => st
      end
  end.

(** What one call of [highlightNotesOnPage] does. *)
Inductive Outcome : Type :=
| NoNotes                          (* no note for the page: nothing touched *)
| RetryAfter (ms : Z)              (* [setTimeout] of another call *)
| Rendered (layer : TextLayer).    (* the layer after the pass *)

Definition highlightNotesOnPage (pageNum : Z) (bookNotes : list Note)
    (doc : list TextLayer) : Outcome :=
  let pageNotes := filter (fun note => Z.eqb (note_page note) pageNum) bookNotes in
  match pageNotes with
  | [] => NoNotes
  | _ :: _ =>
      match find_text_layer pageNum doc with
      | None => RetryAfter 1000
      | Some textLayer =>
          match text_nodes textLayer with
          | [] => RetryAfter 500
          | allTextNodes =>
              Rendered
                {| data_page_number := data_page_number textLayer;
                   text_nodes :=
                     layer_nodes
                       (fold_left processNote pageNotes (collect allTextNodes)) |}
          end
      end
  end.

(** *** Observations used in the statements *)

(** The page's normalized text, as the pass builds it: the text nodes of
    the layer in document order, each with its runs of white space
    collapsed. *)
Definition normalized_page_text (layer : TextLayer) : string :=
  String.concat "" (map (fun n => collapse (textContent n)) (text_nodes layer)).

(** The highlight spans of a layer that carry [data-note-id = id]. *)
Definition decorations (id : string) (layer : TextLayer) : list TextNode :=
  filter (fun n => match wrapper n with
                   | Some h => String.eqb (data_note_id h) id
                   | None => false
                   end) (text_nodes layer).

(** [sub] is a verbatim substring of [s]. *)
Definition occurs_in (sub s : string) : Prop :=
  exists before after, s = (before ++ sub ++ after)%string.

(** The text of the pass at the moment it reaches a note: the nodes of
    [allTextNodes] as they read then, normalized and joined. *)
Definition normalized_text (st : list Collected) : string :=
  String.concat "" (map (fun c => collapse (node c)) st).

(** [document.querySelector('.textLayer[data-page-number="N"]')] alone:
    the text layer of the page itself, when the document has one. *)
Definition layer_of_page (pageNum : Z) (doc : list TextLayer)
    : option TextLayer :=
  find (fun l => match data_page_number l with
                 | Some p => Z.eqb p pageNum
                 | None => false
                 end) doc.

(** The normalized text of the layer as the pass reads it when it
    reaches a note, the notes [earlier] having been dealt with: for the
    first note of a pass it is the page's normalized text. *)
Definition text_read_after (earlier : list Note) (layer : TextLayer) : string :=
  normalized_text (fold_left processNote earlier (collect (text_nodes layer))).

(** The highlight spans with [data-note-id = id] among the nodes of the
    layer during the pass. *)
Definition tagged (id : string) (nodes : list TextNode) : list TextNode :=
  filter (fun n => match wrapper n with
                   | Some h => String.eqb (data_note_id h) id
                   | None => false
                   end) nodes.

(** The node [c] after a span has been put around its text from [a] to
    [b]. *)
Definition wrapped (c : Collected) (a b : nat) (span : Highlight) : Collected :=
  {| node := substring 0 a (node c);
     inserted :=
       {| textContent := substring a (b - a) (node c); wrapper := Some span |}
       :: {| textContent := substring b (String.length (node c) - b) (node c);
             wrapper := None |}
       :: inserted c |}.

(** Page 2 of the end-to-end scenario: one text node, with a line break. *)
Definition page_2 : TextLayer :=
  {| data_page_number := Some 2%Z;
     text_nodes :=
       [{| textContent := "say hello" ++ String (ascii_of_nat 10) "world now";
           wrapper := None |}] |}.

Definition note_n1 : Note :=
  {| note_id := "n1"; note_page := 2; note_selectedText := "hello   world";
     note_title := None; note_content := "greeting" |}.

(** A note that was taken without a text selection. *)
Definition note_without_text : Note :=
  {| note_id := "n0"; note_page := 2; note_selectedText := "";
     note_title := Some "General"; note_content := "about this page" |}.

Definition note_now : Note :=
  {| note_id := "n2"; note_page := 2; note_selectedText := "now";
     note_title := None; note_content := "when" |}.

(** Page 3: two text nodes, and a note for a word of each. *)
Definition page_3 : TextLayer :=
  {| data_page_number := Some 3%Z;
     text_nodes :=
       [{| textContent := "alpha beta "; wrapper := None |};
        {| textContent := "gamma delta"; wrapper := None |}] |}.

Definition note_alpha : Note :=
  {| note_id := "a"; note_page := 3; note_selectedText := "alpha";
     note_title := None; note_content := "first" |}.

Definition note_gamma : Note :=
  {| note_id := "g"; note_page := 3; note_selectedText := "gamma";
     note_title := None; note_content := "third" |}.

End NotesBridge.


(** ** Further observations on [pdfjs/web/flutter_bridge.js] *)

Module BridgeObs.

Import Js Bridge.

(** The value that the last property named [k] of [data] has, [default]
    when [data] has none. *)
Fixpoint last_value (k : string) (data : Js.object) (default : Js.value)
    : Js.value :=
  match data with
  | [] => default
  | (k', v) :: data' =>
      last_value k data' (if String.eqb k' k then v else default)
  end.

(** The stored selection is a trimmed text with a position, or nothing. *)
Definition selection_consistent (s : State) : Prop :=
  (selectedText s = "" <-> selectedTextPosition s = None)
  /\ trim (selectedText s) = selectedText s.

(** [message.isIdle] of an [idleStateChange]. *)
Definition idle_flag (message : Js.object) : bool :=
  match get "isIdle" message with
  | VBool b => b
  | _ => false
  end.

(** The flags of the [idleStateChange] messages of a trace, newest first. *)
Definition idle_flags (trace : list Js.object) : list bool :=
  map idle_flag (idle_changes trace).

(** The flags, newest first, tell a history that ends in the state
    [idle]: the newest is [idle], each one before it is the opposite of
    the next, and the oldest is [true]; no flag at all means never idle. *)
Fixpoint alternates (idle : bool) (flags : list bool) : Prop :=
  match flags with
  | [] => idle = false
  | flag :: older => flag = idle /\ alternates (negb idle) older
  end.

(** The history and the timer agree with the idle flag. *)
Definition idle_history (s : State) : Prop :=
  alternates (isIdle s) (idle_flags (logged s))
  /\ (isIdle s = true -> idleTimeout s = None).

Definition is_setup (e : Event) : bool :=
  match e with
  | EvSetup => true
  | _ => false
  end.

(** The time that the page changes of a run take between their first
    reading of the clock, which ends the dwell, and their last, which
    becomes the entry time of the new page. *)
Definition unaccounted (evs : list (Z * Event)) : Z :=
  fold_right (fun te rest => last_reading (fst te) (snd te) - fst te + rest)
             0 evs.

(** A [pageChange] sample. *)
Definition sample (now previousPage newPage timeSpent total active : Z)
    : Js.object :=
  [("type", VStr "pageChange"); ("timestamp", VNum now);
   ("previousPage", VNum previousPage); ("newPage", VNum newPage);
   ("timeSpent", VNum timeSpent); ("totalTimeSpent", VNum total);
   ("activeTimeSpent", VNum active)].

End BridgeObs.

(** ** The start of [pdfjs/web/flutter_bridge.js] *)

Module Startup.

Import Js Bridge.

(** The page that runs the script: the bridge, and what the script has
    registered with the browser and the viewer. *)
Record Page : Type :=
  { bridge : State;
    pageChangingListeners : nat;   (* closures given to eventBus.on("pagechanging") *)
    documentListeners : bool;      (* resetIdleTimer, onTextSelection on document *)
    checkInterval : option nat;    (* the running interval: its [attempts] *)
    loadTimeout : option Z }.      (* setTimeout(setupEventListeners, 500): deadline *)

(** [window.PDFViewerApplication && window.PDFViewerApplication.eventBus]. *)
Definition ready (s : State) : bool :=
  match PDFViewerApplication s with
  | Some app => app_eventBus app
  | None => false
  end.

(** [setupEventListeners()] with its registrations.  The listeners on
    [document] are named functions, which the browser registers once;
    the listener on the event bus is a new closure each time. *)
Definition setupEventListeners (now : Z) (pg : Page) : Page :=
  if ready (bridge pg) then
    {| bridge := Bridge.setupEventListeners now (bridge pg);
       pageChangingListeners := S (pageChangingListeners pg);
       documentListeners := true;
       checkInterval := checkInterval pg;
       loadTimeout := loadTimeout pg |}
  else pg.

Definition set_checkInterval (v : option nat) (pg : Page) : Page :=
  {| bridge := bridge pg;
     pageChangingListeners := pageChangingListeners pg;
     documentListeners := documentListeners pg;
     checkInterval := v;
     loadTimeout := loadTimeout pg |}.

Definition set_bridge (v : State) (pg : Page) : Page :=
  {| bridge := v;
     pageChangingListeners := pageChangingListeners pg;
     documentListeners := documentListeners pg;
     checkInterval := checkInterval pg;
     loadTimeout := loadTimeout pg |}.

Definition set_loadTimeout (v : option Z) (pg : Page) : Page :=
  {| bridge := bridge pg;
     pageChangingListeners := pageChangingListeners pg;
     documentListeners := documentListeners pg;
     checkInterval := checkInterval pg;
     loadTimeout := v |}.

Definition initializeFlutterBridge (now : Z) (pg : Page) : Page :=
  if ready (bridge pg) then setupEventListeners now pg
  else set_checkInterval (Some 0%nat) pg.

(** The callback of [setInterval(..., 500)]; a cleared interval has no
    callback any more. *)
Definition checkIntervalCallback (now : Z) (pg : Page) : Page :=
  match checkInterval pg with
  | None => pg
  | Some attempts =>
      let attempts := S attempts in
      if ready (bridge pg) then
        setupEventListeners now (set_checkInterval None pg)
      else if (20 <=? attempts)%nat then set_checkInterval None pg
      else set_checkInterval (Some attempts) pg
  end.

(** The script has run at [t0]: the globals are set, the bridge is
    initialized, the ["load"] listener waits. *)
Definition loaded (t0 : Z) (par : ParentWindow) (app : option Application)
    (hl : bool) (sel : Selection) : Page :=
  initializeFlutterBridge t0
    {| bridge := init t0 par app hl sel;
       pageChangingListeners := 0;
       documentListeners := false;
       checkInterval := None;
       loadTimeout := None |}.

(** The three readings of the clock that one call of [onPageChange]
    takes. *)
Record Readings : Type := { read_now : Z; read_sent : Z; read_entered : Z }.

(** The event bus calls every registered listener in turn, each of
    which calls [onPageChange(evt.pageNumber)] and reads the clock anew:
    [readings i] are the readings of listener [i]. *)
Definition dispatchPageChanging (pageNumber : Z) (readings : nat -> Readings)
    (pg : Page) : Page :=
  set_bridge
    (fold_left
       (fun b i =>
          onPageChange pageNumber (read_now (readings i))
            (read_sent (readings i)) (read_entered (readings i)) b)
       (seq 0 (pageChangingListeners pg)) (bridge pg))
    pg.

(** What happens to the page. *)
Inductive PageEvent : Type :=
| ViewerBecomes (app : option Application)  (* the viewer script sets or fills window.PDFViewerApplication *)
| IntervalFires
| WindowLoads                               (* "load": setTimeout(setupEventListeners, 500) *)
| LoadTimeoutFires
| PageChanging (pageNumber : Z) (readings : nat -> Readings)
| Interaction.

Definition handle (e : PageEvent) (now : Z) (pg : Page) : Page :=
  match e with
  | ViewerBecomes app => set_bridge (set_PDFViewerApplication app (bridge pg)) pg
  | IntervalFires => checkIntervalCallback now pg
  | WindowLoads => set_loadTimeout (Some (now + 500)) pg
  | LoadTimeoutFires =>
      match loadTimeout pg with
      | Some _ => setupEventListeners now (set_loadTimeout None pg)
      | None => pg
      end
  | PageChanging p readings => dispatchPageChanging p readings pg
  | Interaction =>
      if documentListeners pg
      then set_bridge (resetIdleTimer now (bridge pg)) pg
      else pg
  end.

(** One turn of the event loop: a due idle timer of the bridge runs
    first. *)
Definition step (pg : Page) (te : Z * PageEvent) : Page :=
  handle (snd te) (fst te) (set_bridge (advance (fst te) (bridge pg)) pg).

Definition run (pg : Page) (evs : list (Z * PageEvent)) : Page :=
  fold_left step evs pg.

(** The messages of a trace that have the type [type]. *)
Definition of_type (type : string) (trace : list Js.object) : list Js.object :=
  filter (has_type type) trace.

(** [n] callbacks of the interval while the viewer is not there. *)
Definition waiting (n : nat) (t0 : Z) : list (Z * PageEvent) :=
  map (fun k => (t0 + 500 * Z.of_nat (S k), IntervalFires)) (seq 0 n).

(** The time between the first [n] + 1 listeners of a dispatch: from the
    last reading of each of the first [n] to the first reading of the
    next. *)
Fixpoint between (readings : nat -> Readings) (n : nat) : Z :=
  match n with
  | O => 0
  | S k =>
      between readings k
      + (read_now (readings (S k)) - read_entered (readings k))
  end.

(** The sample that listener [i] + 1 sends, when the first listener has
    left the sums [total] and [active]: from the new page to itself. *)
Definition echo (pageNumber : Z) (readings : nat -> Readings) (idle : bool)
    (total active : Z) (i : nat) : Js.object :=
  BridgeObs.sample (read_sent (readings (S i))) pageNumber pageNumber
    (round_div1000 (read_now (readings (S i)) - read_entered (readings i)))
    (round_div1000 (total + between readings (S i)))
    (round_div1000 (active + (if idle then 0 else between readings (S i)))).

(** Listener [i] reads the clock at [t] + [i], and only once. *)
Definition one_ms_apart (t : Z) (i : nat) : Readings :=
  {| read_now := t + Z.of_nat i; read_sent := t + Z.of_nat i;
     read_entered := t + Z.of_nat i |}.

End Startup.

(** ** Further observations on the revision with annotation capture *)

Module CaptureObs.

Import Js CaptureBridge.

(** The type that [captureAnnotationData] gives an element. *)
Definition annotation_type (e : Element) : string :=
  match getAttribute "data-editor-type" (el_attributes e) with
  | Some v => if String.eqb v "" then "unknown" else v
  | None => "unknown"
  end.

(** An ink editor whose canvas cannot be exported. *)
Definition tainted_ink (e : Element) : bool :=
  (String.eqb (annotation_type e) "ink"
   && match el_canvas e with
      | Some canvas =>
          match canvas_dataURL canvas with
          | Some _ => false
          | None => true
          end
      | None => false
      end)%bool.

Definition marked (e : Element) : bool :=
  attr_truthy (getAttribute "data-sent-to-flutter" (el_attributes e)).

(** The editors of a layer that a polling tick has yet to capture. *)
Definition unmarked (els : list Element) : list Element :=
  filter (fun e => (matches_editor e && negb (marked e))%bool) els.

Definition unmarked_of_page (pv : option PageView) : list Element :=
  match pv with
  | Some {| annotationEditorLayer := Some {| layer_div := Some els |} |} =>
      unmarked els
  | _ => []
  end.

Definition unmarked_of_state (s : State) : list Element :=
  match PDFViewerApplication s with
  | Some {| pdfViewer := Some viewer |} =>
      flat_map unmarked_of_page (_pages viewer)
  | _ => []
  end.

(** The elements below the editor layer of page [pageNumber], when the
    viewer has that page and the page has the layer. *)
Definition editors_of_page (pageNumber : Z) (s : State) : list Element :=
  match PDFViewerApplication s with
  | Some {| pdfViewer := Some viewer |} =>
      if pageNumber <? 1 then [] else
      match nth_error (_pages viewer) (Z.to_nat (pageNumber - 1)) with
      | Some (Some {| annotationEditorLayer :=
                        Some {| layer_div := Some els |} |}) => els
      | _ => []
      end
  | _ => []
  end.

(** A drawing whose canvas holds an image from another origin. *)
Definition drawing_over_foreign_image : Element :=
  {| el_tag := "div";
     el_className := "inkEditor";
     el_attributes := [("data-editor-type", "ink")];
     el_child_of_layer := true;
     el_rect := {| Bridge.rect_left := 0; Bridge.rect_top := 0;
                   Bridge.rect_width := 200; Bridge.rect_height := 100 |};
     el_pageCoordinates := [];
     el_internal := None;
     el_fontSize := "10px";
     el_color := "rgb(0, 0, 0)";
     el_backgroundColor := "rgba(0, 0, 0, 0)";
     el_canvas := Some {| canvas_dataURL := None;
                          canvas_width := 200; canvas_height := 100 |} |}.

End CaptureObs.

(** ** Further observations on the revision with note re-anchoring *)

Module NotesObs.

Import Js NotesBridge.

(** The text of a layer as it reads: its text nodes joined. *)
Definition raw_text (nodes : list TextNode) : string :=
  String.concat "" (map textContent nodes).

(** The note finds no place in the normalized text [text]: it has no
    text to look for, or neither its normalized text nor the words of
    its degraded search occur. *)
Definition finds_no_place (text : string) (note : Note) : Prop :=
  let searchText := collapse (trim (note_selectedText note)) in
  searchText = ""
  \/ (~ occurs_in searchText text
      /\ match fuzzy_search searchText with
         | Some fuzzySearch => ~ occurs_in fuzzySearch text
         | None => True
         end).

(** The notes of the cached list that are on the page and have the id. *)
Definition notes_with_id (id : string) (pageNum : Z) (bookNotes : list Note)
    : list Note :=
  filter (fun note => String.eqb (note_id note) id)
    (filter (fun note => Z.eqb (note_page note) pageNum) bookNotes).

(** A note whose text is not on the page as it stands, but whose first
    long words are. *)
Definition note_quick : Note :=
  {| note_id := "n3"; note_page := 2;
     note_selectedText := "hello world is big";
     note_title := None; note_content := "edited since" |}.

(** A note whose words are not on the page. *)
Definition note_zebra : Note :=
  {| note_id := "n4"; note_page := 2;
     note_selectedText := "zebra crossing";
     note_title := None; note_content := "from another edition" |}.

End NotesObs.

(** ** The tooltip of a highlight *)

Module NotesTooltip.

Import Js NotesBridge.

(** [s.replace(/c/g, by)] for a single character [c]. *)
Fixpoint replace_char (c : ascii) (by_ : string) (s : string) : string :=
  match s with
  | EmptyString => EmptyString
  | String d s' =>
      if Ascii.eqb d c then (by_ ++ replace_char c by_ s')%string
      else String d (replace_char c by_ s')
  end.

(** [s.replace(/</g, "&lt;").replace(/>/g, "&gt;")]. *)
Definition escape (s : string) : string :=
  replace_char ">"%char "&gt;" (replace_char "<"%char "&lt;" s).

(** The two texts that [showNoteTooltip] puts into the [innerHTML] of
    the tooltip: the title, and the start of the content. *)
Definition tooltip_title (note : Note) : string :=
  escape (match note_title note with
          | Some title => if String.eqb title "" then "Untitled Note" else title
          | None => "Untitled Note"
          end).

Definition tooltip_content (note : Note) : string :=
  (escape (substring 0 100 (note_content note))
   ++ (if (100 <? String.length (note_content note))%nat then "..." else ""))%string.

(** The tooltip element: its two texts and where it is put. *)
Record Tooltip : Type :=
  { tip_title : string; tip_content : string; tip_left : Z; tip_top : Z }.

(** [getBoundingClientRect()] of the highlight span, read when the timer
    runs. *)
Record SpanRect : Type := { span_right : Z; span_top : Z }.

(** The tooltip that the timer of [showNoteTooltip(note, element)] puts
    into the document. *)
Definition tooltip_of (note : Note) (element : SpanRect) : Tooltip :=
  {| tip_title := tooltip_title note;
     tip_content := tooltip_content note;
     tip_left := span_right element + 10;
     tip_top := span_top element |}.

(** The variable [tooltipTimeout] with what its callback holds, and the
    [.note-tooltip] elements of the document in document order. *)
Record State : Type :=
  { tooltipTimeout : option (Z * Note * SpanRect);
    tooltips : list Tooltip }.

(** [showNoteTooltip(note, element)]: the pending timer is cleared, a new
    one is due in 500 ms. *)
Definition showNoteTooltip (note : Note) (element : SpanRect) (now : Z)
    (s : State) : State :=
  {| tooltipTimeout := Some (now + 500, note, element);
     tooltips := tooltips s |}.

(** The callback of that timer: the tooltip is appended to the body. *)
Definition tooltipCallback (note : Note) (element : SpanRect) (s : State)
    : State :=
  {| tooltipTimeout := None;
     tooltips := (tooltips s ++ [tooltip_of note element])%list |}.

(** [hideNoteTooltip()]: the pending timer is cleared and the first
    tooltip of the document is removed. *)
Definition hideNoteTooltip (s : State) : State :=
  {| tooltipTimeout := None; tooltips := tl (tooltips s) |}.

Definition advance (now : Z) (s : State) : State :=
  match tooltipTimeout s with
  | Some (deadline, note, element) =>
      if deadline <=? now then tooltipCallback note element s else s
  | None => s
  end.

(** The mouse over a highlight. *)
Inductive Hover : Type :=
| MouseEnter (note : Note) (element : SpanRect)
| MouseLeave.

Definition step (s : State) (te : Z * Hover) : State :=
  let s' := advance (fst te) s in
  match snd te with
  | MouseEnter note element => showNoteTooltip note element (fst te) s'
  | MouseLeave => hideNoteTooltip s'
  end.

Definition run (s : State) (evs : list (Z * Hover)) : State :=
  fold_left step evs s.

(** Every [mouseenter] is followed by its [mouseleave]. *)
Fixpoint paired (evs : list (Z * Hover)) : Prop :=
  match evs with
  | [] => True
  | (_, MouseEnter _ _) :: (_, MouseLeave) :: evs' => paired evs'
  | _ => False
  end.

(** No character of [s] is [c]. *)
Fixpoint lacks (c : ascii) (s : string) : Prop :=
  match s with
  | EmptyString => True
  | String d s' => d <> c /\ lacks c s'
  end.

(** No character of [s] is [<] or [>]. *)
Definition no_angle (s : string) : Prop :=
  lacks "<"%char s /\ lacks ">"%char s.

Definition nothing_shown : State := {| tooltipTimeout := None; tooltips := [] |}.

End NotesTooltip.

(** ** The session of the note-anchoring revision

    The revision of the bridge that anchors notes keeps the globals of
    the first one and adds the cached notes and two timers.  Its
    [sendToFlutter], [onTextSelection], the idle callback and the four
    commands of the first revision are the same code, and are taken
    from [Bridge]; what differs is modelled here. *)

Module NotesSession.

Import Js Bridge NotesBridge.

(** The globals, and what the script has registered with the browser
    and the viewer.  The listeners on [document] are named functions,
    registered by the first call of [initializeFlutterBridge], which
    runs when the script is loaded; the browser keeps one registration
    of each. *)
Record State : Type :=
  { globals : Bridge.State;
    bookNotes : list Note;
    highlightTimeout : option (Z * option Z);
        (* deadline, and the page its callback holds; [None]: the
           callback reads [currentPage] when it runs *)
    pdfEventListenersSetup : bool;
    pageChangingListeners : nat;     (* closures given to eventBus.on("pagechanging") *)
    retryTimers : list Z;            (* setTimeout(initializeFlutterBridge, 500): deadlines, oldest first *)
    highlightCalls : list Z }.       (* highlightNotesOnPage(p) called by a timer, newest first *)

Definition set_globals (v : Bridge.State) (s : State) : State :=
  {| globals := v; bookNotes := bookNotes s;
     highlightTimeout := highlightTimeout s;
     pdfEventListenersSetup := pdfEventListenersSetup s;
     pageChangingListeners := pageChangingListeners s;
     retryTimers := retryTimers s; highlightCalls := highlightCalls s |}.

Definition set_highlightTimeout (v : option (Z * option Z)) (s : State)
    : State :=
  {| globals := globals s; bookNotes := bookNotes s;
     highlightTimeout := v;
     pdfEventListenersSetup := pdfEventListenersSetup s;
     pageChangingListeners := pageChangingListeners s;
     retryTimers := retryTimers s; highlightCalls := highlightCalls s |}.

Definition set_bookNotes (v : list Note) (s : State) : State :=
  {| globals := globals s; bookNotes := v;
     highlightTimeout := highlightTimeout s;
     pdfEventListenersSetup := pdfEventListenersSetup s;
     pageChangingListeners := pageChangingListeners s;
     retryTimers := retryTimers s; highlightCalls := highlightCalls s |}.

Definition set_retryTimers (v : list Z) (s : State) : State :=
  {| globals := globals s; bookNotes := bookNotes s;
     highlightTimeout := highlightTimeout s;
     pdfEventListenersSetup := pdfEventListenersSetup s;
     pageChangingListeners := pageChangingListeners s;
     retryTimers := v; highlightCalls := highlightCalls s |}.

(** An inbound command: the fields of the first revision, and the [url]
    and [notes] of the two new cases.  [cmd_url] is [None] for a missing
    or empty [url]; [cmd_notes] is [None] for [notes] that are missing
    or not an array. *)
Record Command : Type :=
  { cmd_base : Bridge.Command;
    cmd_url : option string;
    cmd_notes : option (list Note) }.

(** The ["message"] listener.  [PDFViewerApplication.open] of the
    [loadPDF] case belongs to the viewer; the script only logs its
    outcome. *)
Definition onMessage (message : Command) (now : Z) (s : State) : State :=
  let type := cmd_type (cmd_base message) in
  if String.eqb type "loadPDF" then s
  else if String.eqb type "displayNotes" then
    match cmd_notes message with
    | Some notes =>
        set_highlightTimeout (Some (now + 2000, None)) (set_bookNotes notes s)
    | None => s
    end
  else set_globals (Bridge.onMessage (cmd_base message) now (globals s)) s.

(** [onPageChange(pageNum)], with its three readings of the clock as in
    [Bridge.onPageChange]; the timer is armed after the last of them. *)
Definition onPageChange (pageNum : Z) (now sent entered : Z) (s : State)
    : State :=
  let g := globals s in
  let timeSpent := now - pageStartTime g in
  let g1 := set_totalTimeSpent (totalTimeSpent g + timeSpent) g in
  let g2 := set_activeTimeSpent
              (activeTimeSpent g1 + (if isIdle g1 then timeSpent else timeSpent))
              g1 in
  let pageChangeData :=
    [("previousPage", VNum (currentPage g2));
     ("newPage", VNum pageNum);
     ("timeSpent", VNum (round_div1000 timeSpent));
     ("totalTimeSpent", VNum (round_div1000 (totalTimeSpent g2)));
     ("activeTimeSpent", VNum (round_div1000 (activeTimeSpent g2)))] in
  let g3 := sendToFlutter "pageChange" pageChangeData sent g2 in
  let s1 := set_globals (set_pageStartTime entered (set_currentPage pageNum g3)) s in
  if (0 <? List.length (bookNotes s1))%nat
  then set_highlightTimeout (Some (entered + 1000, Some pageNum)) s1
  else s1.

(** [resetIdleTimer()] of this revision: nothing is sent. *)
Definition resetIdleTimer (now : Z) (g : Bridge.State) : Bridge.State :=
  let g0 := match idleTimeout g with
            | Some _ => set_idleTimeout None g
            | None => g
            end in
  set_idleTimeout (Some (now + 10000)) (set_isIdle false g0).

(** [createHighlight(text, color = "yellow")] of this revision: the
    message carries a [timestamp] of its own, and the selection stays. *)
Definition createHighlight (text : string) (color : option string) (now : Z)
    (g : Bridge.State) : Bridge.State :=
  let color := match color with Some c => c | None => "yellow" end in
  if (negb (truthy (VStr (selectedText g)))
      || negb (truthy (position_value (selectedTextPosition g))))%bool
  then g
  else
    sendToFlutter "highlight"
      [("text", VStr (selectedText g));
       ("page", VNum (currentPage g));
       ("color", VStr color);
       ("position", position_value (selectedTextPosition g));
       ("timestamp", VNum now)] now g.

(** [window.PDFViewerApplication && window.PDFViewerApplication.eventBus]. *)
Definition ready (g : Bridge.State) : bool :=
  match PDFViewerApplication g with
  | Some app => app_eventBus app
  | None => false
  end.

Definition initializeFlutterBridge (now : Z) (s : State) : State :=
  let g := globals s in
  let s1 :=
    if (ready g && negb (pdfEventListenersSetup s))%bool then
      let page := match PDFViewerApplication g with
                  | Some app => if app_page app =? 0 then 1 else app_page app
                  | None => 1
                  end in
      {| globals := set_pageStartTime now (set_currentPage page g);
         bookNotes := bookNotes s;
         highlightTimeout := highlightTimeout s;
         pdfEventListenersSetup := true;
         pageChangingListeners := S (pageChangingListeners s);
         retryTimers := retryTimers s;
         highlightCalls := highlightCalls s |}
    else if negb (pdfEventListenersSetup s) then
      set_retryTimers (retryTimers s ++ [now + 500]) s
    else s in
  let g2 := resetIdleTimer now (globals s1) in
  let totalPages := match PDFViewerApplication g2 with
                    | Some app => app_pagesCount app
                    | None => 0
                    end in
  set_globals
    (sendToFlutter "pdfReady"
       [("totalPages", VNum totalPages);
        ("currentPage", VNum (currentPage g2))] now g2)
    s1.

(** The script has run at [t0]. *)
Definition loaded (t0 : Z) (par : ParentWindow) (app : option Application)
    (hl : bool) (sel : Selection) : State :=
  initializeFlutterBridge t0
    {| globals := init t0 par app hl sel;
       bookNotes := [];
       highlightTimeout := None;
       pdfEventListenersSetup := false;
       pageChangingListeners := 0;
       retryTimers := [];
       highlightCalls := [] |}.

(** What happens to the page.  A timer event is the browser running the
    callback of a timer; it does nothing unless that timer is pending
    and due. *)
Inductive Event : Type :=
| EvViewerBecomes (app : option Application)  (* the viewer script sets or fills window.PDFViewerApplication *)
| EvMessage (message : Command)
| EvPageChanging (pageNumber : Z) (readings : nat -> Startup.Readings)
                                              (* the readings of the clock by each listener *)
| EvInteraction
| EvMouseUp
| EvSelectionChange (sel : Selection)
| EvCreateHighlight (text : string) (color : option string)
| EvInitialize                                (* "load", "webviewerloaded" *)
| EvIdleTimer
| EvHighlightTimer
| EvRetryTimer.

Definition handle (e : Event) (now : Z) (s : State) : State :=
  let g := globals s in
  match e with
  | EvViewerBecomes app => set_globals (set_PDFViewerApplication app g) s
  | EvMessage m => onMessage m now s
  | EvPageChanging p readings =>
      fold_left
        (fun s i =>
           onPageChange p (Startup.read_now (readings i))
             (Startup.read_sent (readings i))
             (Startup.read_entered (readings i)) s)
        (seq 0 (pageChangingListeners s)) s
  | EvInteraction => set_globals (resetIdleTimer now g) s
  | EvMouseUp => set_globals (onTextSelection now g) s
  | EvSelectionChange sel =>
      set_globals (onTextSelection now (set_selection sel g)) s
  | EvCreateHighlight text color => set_globals (createHighlight text color now g) s
  | EvInitialize => initializeFlutterBridge now s
  | EvIdleTimer =>
      match idleTimeout g with
      | Some deadline =>
          if deadline <=? now
          then set_globals (idleCallback now (set_idleTimeout None g)) s
          else s
      | None => s
      end
  | EvHighlightTimer =>
      match highlightTimeout s with
      | Some (deadline, held) =>
          if deadline <=? now then
            let pageNum := match held with
                           | Some p => p
                           | None => currentPage g
                           end in
            {| globals := g; bookNotes := bookNotes s;
               highlightTimeout := None;
               pdfEventListenersSetup := pdfEventListenersSetup s;
               pageChangingListeners := pageChangingListeners s;
               retryTimers := retryTimers s;
               highlightCalls := pageNum :: highlightCalls s |}
          else s
      | None => s
      end
  | EvRetryTimer =>
      match retryTimers s with
      | deadline :: rest =>
          if deadline <=? now
          then initializeFlutterBridge now (set_retryTimers rest s)
          else s
      | [] => s
      end
  end.

Definition step (s : State) (te : Z * Event) : State :=
  handle (snd te) (fst te) s.

Definition run (s : State) (evs : list (Z * Event)) : State :=
  fold_left step evs s.

(** Every message sent so far, as logged and as posted, is as [P] says. *)
Definition sent (P : Js.object -> Prop) (g : Bridge.State) : Prop :=
  Forall P (logged g) /\ Forall P (posted g).

(** The two times of a message agree. *)
Definition times_agree (message : Js.object) : Prop :=
  get "activeTimeSpent" message = get "totalTimeSpent" message.

(** An [idleStateChange] message says that the reader has become idle. *)
Definition reports_idle (message : Js.object) : Prop :=
  if has_type "idleStateChange" message
  then get "isIdle" message = VBool true
  else True.

(** The [highlight] message of [createHighlight]. *)
Definition highlight_message (color : option string) (now : Z)
    (g : Bridge.State) : Js.object :=
  [("type", VStr "highlight"); ("timestamp", VNum now);
   ("text", VStr (selectedText g));
   ("page", VNum (currentPage g));
   ("color", VStr (match color with Some c => c | None => "yellow" end));
   ("position", position_value (selectedTextPosition g))].

(** The messages of a trace that have the type [type]. *)
Definition of_type (type : string) (trace : list Js.object) : list Js.object :=
  filter (has_type type) trace.

(** [n] retries, each at its deadline, after a start at [t0]. *)
Definition retries (n : nat) (t0 : Z) : list (Z * Event) :=
  map (fun k => (t0 + 500 * Z.of_nat (S k), EvRetryTimer)) (seq 0 n).

End NotesSession.
(** * Properties *)

Section BridgeProperties.

Import Js Bridge.

(** ** Messaging gateway *)

#[local] Arguments sendToFlutter : simpl never.

Lemma sendToFlutter_logged type data now s :
  logged (sendToFlutter type data now s) = message_of type data now :: logged s.
Proof. unfold sendToFlutter. destruct (parent_reachable (parent s)); reflexivity. Qed.

Lemma sendToFlutter_posted type data now s :
  posted (sendToFlutter type data now s) =
  if parent_reachable (parent s)
  then message_of type data now :: posted s
  else posted s.
Proof. unfold sendToFlutter. destruct (parent_reachable (parent s)); reflexivity. Qed.

(** A send touches the two traces and nothing else. *)
Lemma sendToFlutter_currentPage type data now s :
  currentPage (sendToFlutter type data now s) = currentPage s.
Proof. unfold sendToFlutter. destruct (parent_reachable (parent s)); reflexivity. Qed.

Lemma sendToFlutter_pageStartTime type data now s :
  pageStartTime (sendToFlutter type data now s) = pageStartTime s.
Proof. unfold sendToFlutter. destruct (parent_reachable (parent s)); reflexivity. Qed.

Lemma sendToFlutter_totalTimeSpent type data now s :
  totalTimeSpent (sendToFlutter type data now s) = totalTimeSpent s.
Proof. unfold sendToFlutter. destruct (parent_reachable (parent s)); reflexivity. Qed.

Lemma sendToFlutter_activeTimeSpent type data now s :
  activeTimeSpent (sendToFlutter type data now s) = activeTimeSpent s.
Proof. unfold sendToFlutter. destruct (parent_reachable (parent s)); reflexivity. Qed.

Lemma sendToFlutter_idleTimeout type data now s :
  idleTimeout (sendToFlutter type data now s) = idleTimeout s.
Proof. unfold sendToFlutter. destruct (parent_reachable (parent s)); reflexivity. Qed.

Lemma sendToFlutter_isIdle type data now s :
  isIdle (sendToFlutter type data now s) = isIdle s.
Proof. unfold sendToFlutter. destruct (parent_reachable (parent s)); reflexivity. Qed.

Lemma sendToFlutter_selectedText type data now s :
  selectedText (sendToFlutter type data now s) = selectedText s.
Proof. unfold sendToFlutter. destruct (parent_reachable (parent s)); reflexivity. Qed.

Lemma sendToFlutter_selectedTextPosition type data now s :
  selectedTextPosition (sendToFlutter type data now s) = selectedTextPosition s.
Proof. unfold sendToFlutter. destruct (parent_reachable (parent s)); reflexivity. Qed.

Lemma sendToFlutter_parent type data now s :
  parent (sendToFlutter type data now s) = parent s.
Proof. unfold sendToFlutter. destruct (parent_reachable (parent s)); reflexivity. Qed.

Lemma sendToFlutter_PDFViewerApplication type data now s :
  PDFViewerApplication (sendToFlutter type data now s) = PDFViewerApplication s.
Proof. unfold sendToFlutter. destruct (parent_reachable (parent s)); reflexivity. Qed.

Lemma sendToFlutter_highlightModeClass type data now s :
  highlightModeClass (sendToFlutter type data now s) = highlightModeClass s.
Proof. unfold sendToFlutter. destruct (parent_reachable (parent s)); reflexivity. Qed.

Lemma sendToFlutter_selection type data now s :
  selection (sendToFlutter type data now s) = selection s.
Proof. unfold sendToFlutter. destruct (parent_reachable (parent s)); reflexivity. Qed.

Create Rewrite HintDb send.

Hint Rewrite sendToFlutter_logged sendToFlutter_posted
  sendToFlutter_currentPage
  sendToFlutter_pageStartTime
  sendToFlutter_totalTimeSpent
  sendToFlutter_activeTimeSpent
  sendToFlutter_idleTimeout
  sendToFlutter_isIdle
  sendToFlutter_selectedText
  sendToFlutter_selectedTextPosition
  sendToFlutter_parent
  sendToFlutter_PDFViewerApplication
  sendToFlutter_highlightModeClass
  sendToFlutter_selection : send.

(** C7.  A send hands the message to [window.parent.postMessage] exactly
    once when the parent is an embedding frame, and not at all when
    there is no parent object or the window is its own parent; in each
    case the call returns, with the message on the diagnostic log and
    every variable of the script as it was. *)
Theorem send_delivers_once_or_drops (type : string) (data : Js.object)
    (now : Z) (s : State) :
  let s' := sendToFlutter type data now s in
  posted s' =
    match parent s with
    | ParentFrame => message_of type data now :: posted s
    | ParentMissing | ParentSelf => posted s
    end
  /\ logged s' = message_of type data now :: logged s
  /\ set_logged (logged s) (set_posted (posted s) s') = s.
Proof.
  destruct s as [cp pst tt at_ it ii st sp par app hl sel po lo].
  destruct par; repeat split.
Qed.

(** C8.  A [goToPage] command writes the viewer's page only when the
    requested page differs from the current one: on an equal page, and
    when there is no viewer application, the state is left as it was;
    otherwise the requested page is written once and becomes the
    viewer's page, and nothing is sent. *)
Theorem goToPage_navigates_only_when_different (page now : Z) (s : State) :
  let s' := onMessage (goToPage page) now s in
  match PDFViewerApplication s with
  | None => s' = s
  | Some app =>
      if app_page app =? page
      then s' = s
      else navigations s' = page :: navigations s
           /\ viewer_page s' = Some page
           /\ logged s' = logged s /\ posted s' = posted s
  end.
Proof.
  unfold onMessage, navigations, viewer_page; simpl.
  destruct (PDFViewerApplication s) as [app|] eqn:E; [|reflexivity].
  destruct (app_page app =? page) eqn:P; simpl; [reflexivity|].
  repeat split.
Qed.


(** ** Selection and highlight *)


(** C9.  When the selection is empty or only white space, the selection
    handler sends one [textSelection] message whose text is the empty
    string and whose position is [null], for the current page, and
    leaves the stored selection empty: no text, no position.  The
    message reaches the host when the parent is reachable. *)
Theorem empty_selection_is_reported (now : Z) (s : State) :
  trim (selection_toString (selection s)) = "" ->
  let s' := onTextSelection now s in
  let cleared :=
    [("type", VStr "textSelection"); ("timestamp", VNum now);
     ("text", VStr ""); ("page", VNum (currentPage s)); ("position", VNull)] in
  logged s' = cleared :: logged s
  /\ posted s' = (if parent_reachable (parent s)
                  then cleared :: posted s else posted s)
  /\ selectedText s' = ""
  /\ selectedTextPosition s' = None.
Proof.
  intros H. unfold onTextSelection. simpl. rewrite H. simpl.
  destruct (parent_reachable (parent s)); repeat split.
Qed.

(** A selection of three spaces and a line feed. *)
Lemma empty_selection_is_reported_witness :
  let blank := {| range_text := "   "; range_rect :=
                    {| rect_left := 10; rect_top := 20;
                       rect_width := 30; rect_height := 5 |} |} in
  let s := set_selectedText "stale"
             (init 0 ParentFrame None false [blank]) in
  posted (onTextSelection 7 s) =
    [[("type", VStr "textSelection"); ("timestamp", VNum 7);
      ("text", VStr ""); ("page", VNum 1); ("position", VNull)]]
  /\ selectedText (onTextSelection 7 s) = "".
Proof.
  intros blank s.
  destruct (empty_selection_is_reported 7 s) as (_ & Hp & Ht & _).
  - reflexivity.
  - split; [exact Hp | exact Ht].
Defined.



(** ** Commands of the host *)


(** C4, as stated, fails: [toggleHighlightMode] processed twice does not
    leave what processing it once leaves.  The second message turns the
    mode off again and sends a second [highlightModeChanged]. *)
Lemma toggleHighlightMode_is_not_idempotent :
  let once := onMessage toggleHighlightMode 0 viewer_on_page_1 in
  let twice := onMessage toggleHighlightMode 1 once in
  highlightModeClass once = true
  /\ highlightModeClass twice = false
  /\ posted once =
       [[("type", VStr "highlightModeChanged"); ("timestamp", VNum 0);
         ("enabled", VBool true)]]
  /\ posted twice =
       [[("type", VStr "highlightModeChanged"); ("timestamp", VNum 1);
         ("enabled", VBool false)];
        [("type", VStr "highlightModeChanged"); ("timestamp", VNum 0);
         ("enabled", VBool true)]]
  /\ twice <> once.
Proof.
  cbv zeta. repeat split. intros H.
  apply (f_equal highlightModeClass) in H. discriminate H.
Qed.

(** The other commands on the same viewer: a second [goToPage] or
    [setZoom] changes nothing, and [loadDocument] and [displayNotes] are
    not known to this listener. *)
Example other_commands_twice :
  let twice m := onMessage m 1 (onMessage m 0 viewer_on_page_1) in
  twice (goToPage 5) = onMessage (goToPage 5) 0 viewer_on_page_1
  /\ navigations (twice (goToPage 5)) = [5]
  /\ twice (setZoom 1500) = onMessage (setZoom 1500) 0 viewer_on_page_1
  /\ twice (other_command "loadDocument") = viewer_on_page_1
  /\ twice (other_command "displayNotes") = viewer_on_page_1.
Proof. cbv zeta. repeat split. Qed.

(** C4, amended.  Processing a command a second time changes nothing
    for every command type other than [addBookmark] and
    [toggleHighlightMode]: for [goToPage] and [setZoom], and for the
    types the listener has no case for, which it ignores.  [addBookmark]
    sends a [bookmarkAdded] with the current page each time;
    [toggleHighlightMode] flips the mode each time and sends the new
    mode, so that two of them restore the mode and send both modes. *)
Theorem commands_twice (message : Command) (now now2 : Z) (s : State) :
  let once := onMessage message now s in
  let twice := onMessage message now2 once in
  if String.eqb (cmd_type message) "addBookmark" then
    logged twice =
      [("type", VStr "bookmarkAdded"); ("timestamp", VNum now2);
       ("page", VNum (currentPage s))]
      :: [("type", VStr "bookmarkAdded"); ("timestamp", VNum now);
          ("page", VNum (currentPage s))]
      :: logged s
  else if String.eqb (cmd_type message) "toggleHighlightMode" then
    highlightModeClass once = negb (highlightModeClass s)
    /\ highlightModeClass twice = highlightModeClass s
    /\ logged twice =
         [("type", VStr "highlightModeChanged"); ("timestamp", VNum now2);
          ("enabled", VBool (highlightModeClass s))]
         :: [("type", VStr "highlightModeChanged"); ("timestamp", VNum now);
             ("enabled", VBool (negb (highlightModeClass s)))]
         :: logged s
  else twice = once.
Proof.
  cbv zeta. unfold onMessage.
  destruct (cmd_type message =? "goToPage")%string eqn:G.
  - apply String.eqb_eq in G. rewrite G. simpl.
    destruct (PDFViewerApplication s) as [app|] eqn:A; simpl; [|rewrite A; reflexivity].
    destruct (app_page app =? cmd_page message) eqn:P; simpl.
    + rewrite A, P. reflexivity.
    + rewrite Z.eqb_refl. reflexivity.
  - destruct (cmd_type message =? "setZoom")%string eqn:Zm.
    + apply String.eqb_eq in Zm. rewrite Zm. simpl.
      destruct (PDFViewerApplication s) as [app|] eqn:A; simpl; [|rewrite A; reflexivity].
      destruct (app_pdfViewer app) eqn:V; simpl; [reflexivity|].
      rewrite A, V. reflexivity.
    + destruct (cmd_type message =? "addBookmark")%string eqn:B.
      * autorewrite with send. reflexivity.
      * destruct (cmd_type message =? "toggleHighlightMode")%string eqn:T;
          [|reflexivity].
        autorewrite with send. cbn. autorewrite with send. cbn.
        rewrite Bool.negb_involutive. repeat split.
Qed.


(** ** Telemetry tracker: dwell time *)

(** C2, as stated, fails.  With fresh accumulators and a page left 12
    seconds after it was entered, the sample reports 12 seconds of
    total time and either 0 or 12 seconds of active time, by the idle
    flag at the transition; it never reports 9.  In the first session
    below page 2 is shown from 1000 to 13000 and the user is idle from
    10000 on: the 12 seconds add nothing to the active time.  In the
    second the user moves at 13000, just before the page changes: the 3
    idle seconds are counted as active. *)
Lemma idle_portion_is_not_subtracted :
  let left_after_12s idle :=
    logged (onPageChange 2 12000 12000 12000
              (set_isIdle idle viewer_on_page_1)) in
  let sample ts previous new spent total active :=
    [("type", VStr "pageChange"); ("timestamp", VNum ts);
     ("previousPage", VNum previous); ("newPage", VNum new);
     ("timeSpent", VNum spent); ("totalTimeSpent", VNum total);
     ("activeTimeSpent", VNum active)] in
  left_after_12s true = [sample 12000 1 2 12 12 0]
  /\ left_after_12s false = [sample 12000 1 2 12 12 12]
  /\ posted (run viewer_on_page_1
               [(0, EvSetup); (1000, EvPageChanging 2 1000 1000);
                (13000, EvPageChanging 3 13000 13000)]) =
       [sample 13000 2 3 12 13 1;
        [("type", VStr "idleStateChange"); ("timestamp", VNum 10000);
         ("isIdle", VBool true)];
        sample 1000 1 2 1 1 1;
        [("type", VStr "pdfReady"); ("timestamp", VNum 0);
         ("totalPages", VNum 10); ("currentPage", VNum 1)]]
  /\ posted (run viewer_on_page_1
               [(0, EvSetup); (1000, EvPageChanging 2 1000 1000);
                (13000, EvInteraction);
                (13000, EvPageChanging 3 13000 13000)]) =
       [sample 13000 2 3 12 13 13;
        [("type", VStr "idleStateChange"); ("timestamp", VNum 13000);
         ("isIdle", VBool false)];
        [("type", VStr "idleStateChange"); ("timestamp", VNum 10000);
         ("isIdle", VBool true)];
        sample 1000 1 2 1 1 1;
        [("type", VStr "pdfReady"); ("timestamp", VNum 0);
         ("totalPages", VNum 10); ("currentPage", VNum 1)]].
Proof. cbv zeta. repeat split; vm_compute; reflexivity. Qed.

(** C2, amended.  On a page change the dwell time, the first reading
    of the clock minus the time the page was entered, is added to the
    total time in every case, and to the active time when the idle flag
    is clear at that moment and not at all when it is set.  The sample
    carries the dwell and both sums rounded to seconds, with the second
    reading as its timestamp; the page and its entry time, the third
    reading, are then updated. *)
Theorem page_change_accounting (pageNum now sent entered : Z) (s : State) :
  let dwell := now - pageStartTime s in
  let s' := onPageChange pageNum now sent entered s in
  totalTimeSpent s' = totalTimeSpent s + dwell
  /\ activeTimeSpent s' =
       (if isIdle s then activeTimeSpent s else activeTimeSpent s + dwell)
  /\ logged s' =
       [("type", VStr "pageChange"); ("timestamp", VNum sent);
        ("previousPage", VNum (currentPage s)); ("newPage", VNum pageNum);
        ("timeSpent", VNum (round_div1000 dwell));
        ("totalTimeSpent", VNum (round_div1000 (totalTimeSpent s')));
        ("activeTimeSpent", VNum (round_div1000 (activeTimeSpent s')))]
       :: logged s
  /\ currentPage s' = pageNum
  /\ pageStartTime s' = entered.
Proof.
  cbv zeta. unfold onPageChange. cbn. autorewrite with send.
  destruct (isIdle s); cbn; repeat split.
Qed.

(** ** Telemetry tracker: idle state *)

Lemma onTextSelection_keeps_idle_state (now : Z) (s : State) :
  isIdle (onTextSelection now s) = isIdle s
  /\ idleTimeout (onTextSelection now s) = idleTimeout s
  /\ idle_changes (logged (onTextSelection now s)) = idle_changes (logged s).
Proof.
  unfold onTextSelection. cbv zeta.
  remember (trim (selection_toString (selection s))) as txt.
  cbn. destruct (negb (txt =? "")%string).
  - destruct (selection s); cbn; autorewrite with send; cbn; repeat split.
  - cbn. autorewrite with send. cbn. repeat split.
Qed.

(** An event that does not reset the idle timer leaves the idle flag and
    the timer alone and sends no [idleStateChange]. *)
Lemma handle_keeps_idle_state (e : Event) (now : Z) (s : State) :
  resets_idle_timer e = false ->
  isIdle (handle e now s) = isIdle s
  /\ idleTimeout (handle e now s) = idleTimeout s
  /\ idle_changes (logged (handle e now s)) = idle_changes (logged s).
Proof.
  destruct e as [m|p| | |sel|text color| ]; cbn [resets_idle_timer handle];
    try discriminate; intros _.
  - unfold onMessage.
    repeat match goal with
           | |- context [if ?b then _ else _] => destruct b
           | |- context [match ?x with Some _ => _ | None => _ end] =>
               destruct x
           end; cbn; autorewrite with send; cbn; repeat split.
  - unfold onPageChange. cbn. autorewrite with send.
    destruct (isIdle s) eqn:E; cbn; repeat split; auto.
  - apply onTextSelection_keeps_idle_state.
  - apply (onTextSelection_keeps_idle_state now (set_selection sel s)).
  - unfold createHighlight.
    destruct (negb (truthy (VStr (selectedText s)))
              || negb (truthy (position_value (selectedTextPosition s))))%bool;
      cbn; autorewrite with send; cbn; repeat split.
Qed.

(** Once idle, with no timer pending, the bridge stays so over such
    events. *)
Lemma idle_run (quiet : list (Z * Event)) (s : State) :
  Forall (fun te => resets_idle_timer (snd te) = false) quiet ->
  isIdle s = true ->
  idleTimeout s = None ->
  isIdle (run s quiet) = true
  /\ idleTimeout (run s quiet) = None
  /\ idle_changes (logged (run s quiet)) = idle_changes (logged s).
Proof.
  intros Hq. revert s.
  induction Hq as [|[t e] evs He Hq IH]; intros s Hi Ht; [auto|].
  cbn in He. cbn [run fold_left]. fold (run (step s (t, e)) evs).
  assert (Hs : step s (t, e) = handle e t s).
  { unfold step, advance. rewrite Ht. reflexivity. }
  rewrite Hs.
  destruct (handle_keeps_idle_state e t s He) as (A & B & C).
  destruct (IH (handle e t s)) as (A' & B' & C'); try congruence.
  repeat split; congruence.
Qed.

Lemma idleCallback_state (deadline : Z) (s : State) :
  let s' := idleCallback deadline (set_idleTimeout None s) in
  isIdle s' = true /\ idleTimeout s' = None
  /\ logged s' = idle_message true deadline :: logged s.
Proof. unfold idleCallback. autorewrite with send. cbn. auto. Qed.

(** The timer that is pending stays pending, unfired, over such events
    until its deadline; from the deadline on it has fired exactly once. *)
Lemma quiet_run (quiet : list (Z * Event)) (s : State) (deadline : Z) :
  Forall (fun te => resets_idle_timer (snd te) = false) quiet ->
  isIdle s = false ->
  idleTimeout s = Some deadline ->
  let s' := run s quiet in
  (isIdle s' = false /\ idleTimeout s' = Some deadline
   /\ idle_changes (logged s') = idle_changes (logged s))
  \/ (isIdle s' = true /\ idleTimeout s' = None
      /\ idle_changes (logged s') =
           idle_message true deadline :: idle_changes (logged s)).
Proof.
  cbv zeta. intros Hq. revert s.
  induction Hq as [|[t e] evs He Hq IH]; intros s Hi Ht; [left; auto|].
  cbn in He. cbn [run fold_left]. fold (run (step s (t, e)) evs).
  unfold step, advance. cbn [fst snd]. rewrite Ht.
  destruct (deadline <=? t) eqn:D.
  - right.
    destruct (idleCallback_state deadline s) as (A0 & B0 & C0).
    set (s1 := idleCallback deadline (set_idleTimeout None s)) in *.
    destruct (handle_keeps_idle_state e t s1 He) as (A & B & C).
    destruct (idle_run evs (handle e t s1) Hq) as (A' & B' & C');
      try congruence.
    repeat split; auto. rewrite C', C, C0. reflexivity.
  - destruct (handle_keeps_idle_state e t s He) as (A & B & C).
    rewrite <- C. apply IH; congruence.
Qed.

(** An interaction restarts the timer; it sends the change to active
    when the bridge was idle and nothing otherwise. *)
Lemma resetIdleTimer_state (now : Z) (s : State) :
  let s' := resetIdleTimer now s in
  isIdle s' = false
  /\ idleTimeout s' = Some (now + 10000)
  /\ logged s' = (if isIdle s then idle_message false now :: logged s
                  else logged s).
Proof.
  unfold resetIdleTimer.
  destruct (idleTimeout s); cbn; destruct (isIdle s); cbn;
    autorewrite with send; cbn; auto.
Qed.

(** Interactions in quick succession on an active bridge send nothing. *)
Lemma busy_run (ts : list Z) (s : State) (last : Z) :
  isIdle s = false ->
  idleTimeout s = Some (last + 10000) ->
  in_quick_succession last ts ->
  logged (run s (map (fun t => (t, EvInteraction)) ts)) = logged s.
Proof.
  revert s last. induction ts as [|t ts IH]; intros s last Hi Ht Hq; [reflexivity|].
  destruct Hq as [Hw Hq]. cbn [map run fold_left].
  fold (run (step s (t, EvInteraction)) (map (fun t => (t, EvInteraction)) ts)).
  assert (Hs : step s (t, EvInteraction) = resetIdleTimer t s).
  { unfold step, advance. cbn [fst snd handle]. rewrite Ht.
    destruct (last + 10000 <=? t) eqn:D; [apply Z.leb_le in D; lia | reflexivity]. }
  rewrite Hs.
  destruct (resetIdleTimer_state t s) as (A & B & C).
  rewrite (IH (resetIdleTimer t s) t A B Hq), C, Hi. reflexivity.
Qed.



(** ** Telemetry tracker: active time is bounded by total time *)

Lemma round_div1000_monotone (a b : Z) :
  a <= b -> round_div1000 a <= round_div1000 b.
Proof. intros H. unfold round_div1000. apply Z.div_le_mono; lia. Qed.

Lemma send_keeps_bounded type data now lo (s : State) :
  sample_ok (message_of type data now) ->
  bounded lo s -> bounded lo (sendToFlutter type data now s).
Proof.
  intros Hm (A & B & C & D). unfold bounded. autorewrite with send.
  repeat split; auto.
  destruct (parent_reachable (parent s)); auto.
Qed.

(** Every page change keeps active time within total time and reports a
    sample that does, when the clock has not run backwards since the
    page was entered. *)
Lemma onPageChange_keeps_bounded (pageNum now sent entered lo : Z)
    (s : State) :
  lo <= now ->
  bounded lo s -> bounded entered (onPageChange pageNum now sent entered s).
Proof.
  intros Hlo (A & B & C & D). unfold onPageChange. cbv zeta.
  set (dwell := now - pageStartTime s).
  assert (Hd : 0 <= dwell) by (unfold dwell; lia).
  unfold bounded. cbn. autorewrite with send.
  assert (Hs : forall active,
             active <= totalTimeSpent s + dwell ->
             sample_ok
               (message_of "pageChange"
                  [("previousPage", VNum (currentPage s));
                   ("newPage", VNum pageNum);
                   ("timeSpent", VNum (round_div1000 dwell));
                   ("totalTimeSpent",
                    VNum (round_div1000 (totalTimeSpent s + dwell)));
                   ("activeTimeSpent", VNum (round_div1000 active))] sent)).
  { intros active Ha. unfold sample_ok. cbn.
    exists (round_div1000 active), (round_div1000 (totalTimeSpent s + dwell)).
    repeat split. apply round_div1000_monotone. exact Ha. }
  destruct (isIdle s) eqn:E; cbn; autorewrite with send; cbn.
  - repeat split; try lia.
    + constructor; auto. apply Hs. lia.
    + destruct (parent_reachable (parent s)); auto.
      constructor; auto. apply Hs. lia.
  - repeat split; try lia.
    + constructor; auto. apply Hs. lia.
    + destruct (parent_reachable (parent s)); auto.
      constructor; auto. apply Hs. lia.
Qed.

Lemma bounded_later (lo now : Z) (s : State) :
  lo <= now -> bounded lo s -> bounded now s.
Proof. intros H (A & B & C & D). unfold bounded. repeat split; auto; lia. Qed.

Lemma resetIdleTimer_keeps_bounded (now lo : Z) (s : State) :
  bounded lo s -> bounded lo (resetIdleTimer now s).
Proof.
  intros (A & B & C & D). unfold resetIdleTimer, bounded.
  destruct (idleTimeout s); cbn; destruct (isIdle s); cbn;
    autorewrite with send; cbn; repeat split; auto;
    try (destruct (parent_reachable (parent s)); auto);
    constructor; auto; exact I.
Qed.

Lemma advance_keeps_bounded (now lo : Z) (s : State) :
  bounded lo s -> bounded lo (advance now s).
Proof.
  intros (A & B & C & D). unfold advance.
  destruct (idleTimeout s) as [deadline|]; [|repeat split; auto].
  destruct (deadline <=? now); [|repeat split; auto].
  unfold idleCallback. apply send_keeps_bounded; [exact I|].
  repeat split; auto.
Qed.

Lemma handle_keeps_bounded (e : Event) (now lo : Z) (s : State) :
  lo <= now -> bounded lo s -> bounded (last_reading now e) (handle e now s).
Proof.
  intros Hlo Hb.
  destruct e as [m|p sent entered| | |sel|text color| ];
    cbn [handle last_reading].
  - apply bounded_later with (lo := lo); auto.
    unfold onMessage.
    repeat match goal with
           | |- context [if ?b then _ else _] => destruct b
           | |- context [match ?x with Some _ => _ | None => _ end] =>
               destruct x
           end; auto; try (apply send_keeps_bounded; [exact I|]);
      destruct Hb as (A & B & C & D); repeat split; auto.
  - apply onPageChange_keeps_bounded with (lo := lo); auto.
  - apply bounded_later with (lo := lo); auto.
    apply resetIdleTimer_keeps_bounded; auto.
  - apply bounded_later with (lo := lo); auto.
    unfold onTextSelection. cbv zeta.
    remember (trim (selection_toString (selection s))) as txt.
    cbn. destruct (negb (txt =? "")%string).
    + destruct (selection s); cbn;
        try (apply send_keeps_bounded; [exact I|]);
        destruct Hb as (A & B & C & D); repeat split; auto.
    + cbn. apply send_keeps_bounded; [exact I|].
      destruct Hb as (A & B & C & D); repeat split; auto.
  - apply bounded_later with (lo := lo); auto.
    unfold onTextSelection. cbv zeta.
    remember (trim (selection_toString (selection (set_selection sel s)))) as txt.
    cbn. destruct (negb (txt =? "")%string).
    + destruct sel; cbn;
        try (apply send_keeps_bounded; [exact I|]);
        destruct Hb as (A & B & C & D); repeat split; auto.
    + cbn. apply send_keeps_bounded; [exact I|].
      destruct Hb as (A & B & C & D); repeat split; auto.
  - apply bounded_later with (lo := lo); auto.
    unfold createHighlight.
    destruct (negb (truthy (VStr (selectedText s)))
              || negb (truthy (position_value (selectedTextPosition s))))%bool;
      auto.
    destruct Hb as (A & B & C & D).
    unfold bounded. cbn. autorewrite with send. repeat split; auto.
    + constructor; auto. exact I.
    + destruct (parent_reachable (parent s)); auto. constructor; auto. exact I.
  - unfold setupEventListeners.
    destruct (PDFViewerApplication s) as [app|];
      [|apply bounded_later with (lo := lo); auto].
    destruct (app_eventBus app);
      [|apply bounded_later with (lo := lo); auto].
    apply send_keeps_bounded; [exact I|].
    apply resetIdleTimer_keeps_bounded.
    destruct Hb as (A & B & C & D). unfold bounded. cbn.
    repeat split; auto. lia.
Qed.

Lemma run_keeps_bounded (evs : list (Z * Event)) (lo : Z) (s : State) :
  clock_monotone lo evs -> bounded lo s ->
  exists hi, bounded hi (run s evs).
Proof.
  revert lo s. induction evs as [|[t e] evs IH]; intros lo s Hc Hb.
  - exists lo. exact Hb.
  - destruct Hc as (Ht & _ & Hc). cbn [run fold_left].
    apply (IH (last_reading t e)); auto. unfold step. cbn [fst snd].
    apply handle_keeps_bounded with (lo := lo); auto.
    apply advance_keeps_bounded. exact Hb.
Qed.

(** C6, as stated, fails.  The script reads the wall clock, which can
    be set back.  Page 2 is entered at 3000 after 3 seconds of reading,
    the reader goes idle at 13000, and the clock is set back to 0 before
    page 3 is entered: the dwell of page 2 is -3 seconds, the total time
    falls to 0 while the active time stays at 3 seconds, and the sample
    of that page change says so. *)
Lemma active_time_exceeds_total_time_after_the_clock_is_set_back :
  let s := run viewer_on_page_1
             [(0, EvSetup); (3000, EvPageChanging 2 3000 3000);
              (13000, EvMouseUp); (0, EvPageChanging 3 0 0)] in
  let sample :=
    [("type", VStr "pageChange"); ("timestamp", VNum 0);
     ("previousPage", VNum 2); ("newPage", VNum 3);
     ("timeSpent", VNum (-3)); ("totalTimeSpent", VNum 0);
     ("activeTimeSpent", VNum 3)] in
  totalTimeSpent s = 0
  /\ activeTimeSpent s = 3000
  /\ ~ (activeTimeSpent s <= totalTimeSpent s)
  /\ hd_error (logged s) = Some sample
  /\ hd_error (posted s) = Some sample
  /\ ~ sample_ok sample.
Proof.
  cbv zeta. split; [reflexivity|]. split; [reflexivity|].
  split; [vm_compute; intros H; apply H; reflexivity|].
  split; [reflexivity|]. split; [reflexivity|].
  unfold sample_ok. cbn. intros (active & total & Ha & Ht & Hle).
  injection Ha as <-. injection Ht as <-. lia.
Qed.

(** C6, amended.  In every state that a session reaches, from the
    loading of the script and over any events whose clock readings do
    not decrease, the accumulated active time is at most the accumulated
    total time, and so it is in every [pageChange] sample sent, as
    logged and as posted to the host; and a page change whose first
    clock reading is not before the entry time of the page keeps it
    so. *)
Theorem active_time_within_total_time (t0 : Z) (par : ParentWindow)
    (app : option Application) (hl : bool) (sel : Selection)
    (evs : list (Z * Event)) :
  clock_monotone t0 evs ->
  let s := run (init t0 par app hl sel) evs in
  activeTimeSpent s <= totalTimeSpent s
  /\ Forall sample_ok (logged s)
  /\ Forall sample_ok (posted s)
  /\ (forall pageNum now sent entered,
      pageStartTime s <= now ->
      let s' := onPageChange pageNum now sent entered s in
      activeTimeSpent s' <= totalTimeSpent s'
      /\ Forall sample_ok (logged s')
      /\ Forall sample_ok (posted s')).
Proof.
  intros Hc. cbv zeta.
  destruct (run_keeps_bounded evs t0 (init t0 par app hl sel) Hc)
    as (hi & A & B & C & D).
  - unfold bounded. cbn. repeat split; auto; lia.
  - repeat split; auto;
      destruct (onPageChange_keeps_bounded pageNum now sent entered
                  (pageStartTime (run (init t0 par app hl sel) evs))
                  (run (init t0 par app hl sel) evs))
        as (A' & _ & C' & D'); auto;
      unfold bounded; repeat split; auto; lia.
Qed.

(** A session with two page changes, the second while idle; each page
    change takes a few milliseconds between its readings of the clock. *)
Lemma active_time_within_total_time_witness :
  let s := run viewer_on_page_1
             [(0, EvSetup); (1000, EvPageChanging 2 1001 1002);
              (13000, EvPageChanging 3 13000 13004)] in
  activeTimeSpent s <= totalTimeSpent s
  /\ Forall sample_ok (logged s)
  /\ Forall sample_ok (posted s).
Proof.
  destruct (active_time_within_total_time 0 ParentFrame
              (PDFViewerApplication viewer_on_page_1) false []
              [(0, EvSetup); (1000, EvPageChanging 2 1001 1002);
               (13000, EvPageChanging 3 13000 13004)])
    as (A & B & C & _).
  - cbn. lia.
  - split; [exact A | split; [exact B | exact C]].
Defined.

(** ** Further properties of the bridge *)

Import BridgeObs.

(** *** The envelope of a message *)

Lemma get_put_same (k : string) (v : Js.value) (o : Js.object) :
  get k (put k v o) = v.
Proof.
  induction o as [|[k' v'] o IH]; cbn.
  - rewrite String.eqb_refl. reflexivity.
  - destruct (String.eqb k' k) eqn:E; cbn.
    + rewrite String.eqb_refl. reflexivity.
    + rewrite E. exact IH.
Qed.

Lemma get_put_other (k k' : string) (v : Js.value) (o : Js.object) :
  k <> k' -> get k (put k' v o) = get k o.
Proof.
  intros Hn. induction o as [|[k2 v2] o IH]; cbn.
  - destruct (String.eqb_spec k' k); [congruence | reflexivity].
  - destruct (String.eqb_spec k2 k'); cbn.
    + subst k2. destruct (String.eqb_spec k' k); [congruence | reflexivity].
    + destruct (String.eqb k2 k); auto.
Qed.

Lemma get_spread (k : string) (data o : Js.object) :
  get k (spread o data) = last_value k data (get k o).
Proof.
  unfold spread. revert o.
  induction data as [|[k' v] data IH]; intros o; cbn; [reflexivity|].
  rewrite IH. destruct (String.eqb_spec k' k) as [->|Hn].
  - rewrite get_put_same. reflexivity.
  - rewrite get_put_other by congruence. reflexivity.
Qed.

(** X1.  In the message that [sendToFlutter] builds, a property of the
    payload replaces the property of the envelope with the same name:
    the message has the payload's [type] when the payload has one and
    the type of the call otherwise, the payload's [timestamp] when it
    has one and the clock reading otherwise, and every other property
    as the payload has it last. *)
Theorem payload_overrides_envelope (type : string) (data : Js.object)
    (now : Z) (k : string) :
  get k (message_of type data now) =
  last_value k data
    (if String.eqb k "type" then VStr type
     else if String.eqb k "timestamp" then VNum now
     else VUndefined).
Proof.
  unfold message_of. rewrite get_spread. cbn [get].
  rewrite (String.eqb_sym "type" k), (String.eqb_sym "timestamp" k).
  reflexivity.
Qed.

(** *** The stored selection *)

Lemma trim_end_cons (c : ascii) (s : string) :
  trim_end (String c s) =
  match trim_end s with
  | EmptyString => if is_space c then EmptyString else String c EmptyString
  | t => String c t
  end.
Proof. reflexivity. Qed.

Lemma trim_end_idempotent (s : string) : trim_end (trim_end s) = trim_end s.
Proof.
  induction s as [|c s IH]; [reflexivity|].
  rewrite trim_end_cons. destruct (trim_end s) as [|d t] eqn:E.
  - destruct (is_space c) eqn:C; [reflexivity|].
    rewrite trim_end_cons. cbn. rewrite C. reflexivity.
  - rewrite trim_end_cons, IH. reflexivity.
Qed.

Lemma trim_start_head (s : string) :
  trim_start s = ""
  \/ exists c t, trim_start s = String c t /\ is_space c = false.
Proof.
  induction s as [|c s IH]; cbn; [auto|].
  destruct (is_space c) eqn:C; [exact IH|]. right. eauto.
Qed.

Lemma trim_end_head (c : ascii) (t : string) :
  is_space c = false -> exists t', trim_end (String c t) = String c t'.
Proof.
  intros C. rewrite trim_end_cons. destruct (trim_end t); [rewrite C|]; eauto.
Qed.

Lemma trim_idempotent (s : string) : trim (trim s) = trim s.
Proof.
  unfold trim. destruct (trim_start_head s) as [E|(c & t & E & C)]; rewrite E.
  - reflexivity.
  - destruct (trim_end_head c t C) as (t' & E'). rewrite E'.
    cbn [trim_start]. rewrite C, <- E'. apply trim_end_idempotent.
Qed.

Lemma onTextSelection_consistent (now : Z) (s : State) :
  selection_consistent (onTextSelection now s).
Proof.
  unfold onTextSelection, selection_consistent. cbv zeta.
  pose proof (trim_idempotent (selection_toString (selection s))) as Ht.
  remember (trim (selection_toString (selection s))) as txt.
  cbn. destruct (String.eqb_spec txt "") as [E|E]; cbn.
  - autorewrite with send. cbn. tauto.
  - destruct (selection s) as [|range rest] eqn:S.
    + cbn in Heqtxt. congruence.
    + autorewrite with send. cbn. split; [|exact Ht].
      split; [congruence | discriminate].
Qed.

Lemma createHighlight_consistent text color (now : Z) (s : State) :
  selection_consistent s ->
  selection_consistent (createHighlight text color now s).
Proof.
  intros H. unfold createHighlight.
  destruct (negb (truthy (VStr (selectedText s)))
            || negb (truthy (position_value (selectedTextPosition s))))%bool;
    [exact H|].
  unfold selection_consistent. cbn. tauto.
Qed.

Lemma advance_selection (now : Z) (s : State) :
  selectedText (advance now s) = selectedText s
  /\ selectedTextPosition (advance now s) = selectedTextPosition s.
Proof.
  unfold advance. destruct (idleTimeout s) as [d|]; [|auto].
  destruct (d <=? now); [|auto].
  unfold idleCallback. autorewrite with send. cbn. auto.
Qed.

(** X2.  In every state that a session reaches, whatever the events, the
    stored selection is either empty, with no position, or a text
    without white space at its ends, with a position. *)
Theorem stored_selection_is_consistent (t0 : Z) (par : ParentWindow)
    (app : option Application) (hl : bool) (sel : Selection)
    (evs : list (Z * Event)) :
  selection_consistent (run (init t0 par app hl sel) evs).
Proof.
  assert (H0 : selection_consistent (init t0 par app hl sel)).
  { unfold selection_consistent. cbn. tauto. }
  generalize dependent (init t0 par app hl sel). intros s.
  revert s. induction evs as [|[t e] evs IH]; intros s Hs; [exact Hs|].
  cbn [run fold_left]. apply IH. unfold step. cbn [fst snd].
  assert (Ha : selection_consistent (advance t s)).
  { destruct (advance_selection t s) as (A & B).
    unfold selection_consistent. rewrite A, B. exact Hs. }
  generalize dependent (advance t s). clear s Hs. intros s Hs.
  assert (Hkeep : forall s', selectedText s' = selectedText s ->
                             selectedTextPosition s' = selectedTextPosition s ->
                             selection_consistent s').
  { intros s' A B. unfold selection_consistent. rewrite A, B. exact Hs. }
  destruct e as [m|p| | |sel'|text color| ]; cbn [handle].
  - apply Hkeep; unfold onMessage;
      repeat match goal with
             | |- context [if ?b then _ else _] => destruct b
             | |- context [match ?x with Some _ => _ | None => _ end] =>
                 destruct x
             end; cbn; autorewrite with send; reflexivity.
  - apply Hkeep; unfold onPageChange; cbn; autorewrite with send;
      destruct (isIdle s); reflexivity.
  - apply Hkeep; unfold resetIdleTimer;
      destruct (idleTimeout s); cbn; destruct (isIdle s); cbn;
      autorewrite with send; reflexivity.
  - apply onTextSelection_consistent.
  - apply onTextSelection_consistent.
  - apply createHighlight_consistent. exact Hs.
  - apply Hkeep; unfold setupEventListeners;
      destruct (PDFViewerApplication s) as [a|]; try reflexivity;
      destruct (app_eventBus a); try reflexivity;
      autorewrite with send; unfold resetIdleTimer;
      destruct (idleTimeout _); cbn; destruct (isIdle s); cbn;
      autorewrite with send; reflexivity.
Qed.

(** X3.  Selecting a text and then creating a highlight sends the
    selection and then a [highlight] with the same trimmed text, the
    same page and the same position, the rectangle of the first range;
    afterwards nothing is stored, the browser's selection is empty, and
    the [selectionchange] that follows reports the cleared selection. *)
Theorem select_then_highlight (now now2 now3 : Z) (s : State)
    (range : Range) (rest : list Range) (text : string)
    (color : option string) :
  selection s = range :: rest ->
  trim (selection_toString (selection s)) <> "" ->
  let selected := trim (selection_toString (selection s)) in
  let position :=
    VObj [("x", VNum (rect_left (range_rect range)));
          ("y", VNum (rect_top (range_rect range)));
          ("width", VNum (rect_width (range_rect range)));
          ("height", VNum (rect_height (range_rect range)))] in
  let s1 := onTextSelection now s in
  let s2 := createHighlight text color now2 s1 in
  let s3 := onTextSelection now3 s2 in
  logged s2 =
    [("type", VStr "highlight"); ("timestamp", VNum now2);
     ("text", VStr selected); ("page", VNum (currentPage s));
     ("color", VStr (match color with Some c => c | None => "yellow" end));
     ("position", position)]
    :: [("type", VStr "textSelection"); ("timestamp", VNum now);
        ("text", VStr selected); ("page", VNum (currentPage s));
        ("position", position)]
    :: logged s
  /\ selectedText s2 = "" /\ selectedTextPosition s2 = None
  /\ selection s2 = []
  /\ logged s3 =
       [("type", VStr "textSelection"); ("timestamp", VNum now3);
        ("text", VStr ""); ("page", VNum (currentPage s));
        ("position", VNull)] :: logged s2.
Proof.
  intros Hsel Hne. cbv zeta.
  assert (H1 : onTextSelection now s =
               sendToFlutter "textSelection"
                 [("text", VStr (trim (selection_toString (selection s))));
                  ("page", VNum (currentPage s));
                  ("position",
                   VObj [("x", VNum (rect_left (range_rect range)));
                         ("y", VNum (rect_top (range_rect range)));
                         ("width", VNum (rect_width (range_rect range)));
                         ("height", VNum (rect_height (range_rect range)))])]
                 now
                 (set_selectedTextPosition
                    (Some [("x", VNum (rect_left (range_rect range)));
                           ("y", VNum (rect_top (range_rect range)));
                           ("width", VNum (rect_width (range_rect range)));
                           ("height", VNum (rect_height (range_rect range)))])
                    (set_selectedText
                       (trim (selection_toString (selection s))) s))).
  { unfold onTextSelection. cbv zeta.
    remember (trim (selection_toString (selection s))) as txt.
    cbn. destruct (String.eqb_spec txt "") as [E|E]; [congruence|].
    cbn. rewrite Hsel. reflexivity. }
  rewrite H1. clear H1.
  remember (trim (selection_toString (selection s))) as txt.
  unfold createHighlight. autorewrite with send. cbn.
  destruct (String.eqb_spec txt "") as [E|_]; [congruence|]. cbn.
  autorewrite with send. cbn.
  repeat split.
  unfold onTextSelection. cbn. autorewrite with send. cbn. reflexivity.
Qed.

(** The words "Dwell time" selected on page 1, with a blank around them. *)
Lemma select_then_highlight_witness :
  let range := {| range_text := " Dwell time ";
                  range_rect := {| rect_left := 10; rect_top := 20;
                                   rect_width := 80; rect_height := 12 |} |} in
  let s := set_selection [range] viewer_on_page_1 in
  let s2 := createHighlight "" None 2
              (onTextSelection 1 s) in
  posted s2 =
    [[("type", VStr "highlight"); ("timestamp", VNum 2);
      ("text", VStr "Dwell time"); ("page", VNum 1);
      ("color", VStr "yellow");
      ("position", VObj [("x", VNum 10); ("y", VNum 20);
                         ("width", VNum 80); ("height", VNum 12)])];
     [("type", VStr "textSelection"); ("timestamp", VNum 1);
      ("text", VStr "Dwell time"); ("page", VNum 1);
      ("position", VObj [("x", VNum 10); ("y", VNum 20);
                         ("width", VNum 80); ("height", VNum 12)])]]
  /\ selectedText s2 = "".
Proof.
  intros range s s2.
  destruct (select_then_highlight 1 2 3 s range [] "" None)
    as (_ & Ht & _).
  - reflexivity.
  - cbn. discriminate.
  - split; [reflexivity | exact Ht].
Defined.

(** *** The history of the idle state *)

Lemma resetIdleTimer_history (now : Z) (s : State) :
  idle_history s -> idle_history (resetIdleTimer now s).
Proof.
  intros (Ha & Ht). destruct (resetIdleTimer_state now s) as (A & B & C).
  unfold idle_history. rewrite A, B, C. split; [|discriminate].
  destruct (isIdle s); [|exact Ha].
  unfold idle_flags, idle_changes in *. cbn. auto.
Qed.

Lemma advance_history (now : Z) (s : State) :
  idle_history s -> idle_history (advance now s).
Proof.
  intros (Ha & Ht). unfold advance.
  destruct (idleTimeout s) as [d|] eqn:E; [|split; auto].
  destruct (d <=? now); [|split; auto; rewrite E; exact Ht].
  destruct (idleCallback_state d s) as (A & B & C).
  unfold idle_history. rewrite A, B, C. split; [|auto].
  destruct (isIdle s); [specialize (Ht eq_refl); discriminate|].
  unfold idle_flags, idle_changes in *. cbn. auto.
Qed.

Lemma handle_history (e : Event) (now : Z) (s : State) :
  idle_history s -> idle_history (handle e now s).
Proof.
  intros Hs. destruct (resets_idle_timer e) eqn:R.
  - destruct e; try discriminate; cbn [handle].
    + apply resetIdleTimer_history. exact Hs.
    + unfold setupEventListeners.
      destruct (PDFViewerApplication s) as [a|]; [|exact Hs].
      destruct (app_eventBus a); [|exact Hs].
      match goal with
      | |- idle_history (sendToFlutter ?t ?d ?n (resetIdleTimer ?n' ?x)) =>
          assert (Hx : idle_history (resetIdleTimer n' x))
            by (apply resetIdleTimer_history; exact Hs);
          destruct Hx as (Ha & Ht)
      end.
      unfold idle_history. autorewrite with send.
      split; [|exact Ht].
      unfold idle_flags, idle_changes in *. exact Ha.
  - destruct (handle_keeps_idle_state e now s R) as (A & B & C).
    destruct Hs as (Ha & Ht). unfold idle_history, idle_flags.
    rewrite A, B, C. auto.
Qed.

(** X4.  In every state that a session reaches, the [idleStateChange]
    messages sent so far alternate: the first says idle, each later one
    says the opposite of the one before, and the last one says what the
    idle flag is now; before the first, the flag is clear.  When the
    flag is set no idle timer is pending. *)
Theorem idle_changes_alternate (t0 : Z) (par : ParentWindow)
    (app : option Application) (hl : bool) (sel : Selection)
    (evs : list (Z * Event)) :
  let s := run (init t0 par app hl sel) evs in
  alternates (isIdle s) (idle_flags (logged s))
  /\ (isIdle s = true -> idleTimeout s = None).
Proof.
  cbv zeta.
  assert (H0 : idle_history (init t0 par app hl sel)).
  { split; [reflexivity | discriminate]. }
  generalize dependent (init t0 par app hl sel).
  induction evs as [|[t e] evs IH]; intros s Hs; [exact Hs|].
  cbn [run fold_left]. apply IH. unfold step. cbn [fst snd].
  apply handle_history, advance_history, Hs.
Qed.

(** *** Dwell time over a session *)

Lemma handle_keeps_balance (e : Event) (now : Z) (s : State) :
  is_setup e = false ->
  totalTimeSpent (handle e now s) - pageStartTime (handle e now s)
  = totalTimeSpent s - pageStartTime s - (last_reading now e - now).
Proof.
  destruct e as [m|p sent entered| | |sel'|text color| ];
    cbn [is_setup handle last_reading];
    try discriminate; intros _; rewrite ?Z.sub_diag, ?Z.sub_0_r.
  - unfold onMessage;
      repeat match goal with
             | |- context [if ?b then _ else _] => destruct b
             | |- context [match ?x with Some _ => _ | None => _ end] =>
                 destruct x
             end; cbn; autorewrite with send; reflexivity.
  - unfold onPageChange. cbn. autorewrite with send.
    destruct (isIdle s); cbn; lia.
  - unfold resetIdleTimer.
    destruct (idleTimeout s); cbn; destruct (isIdle s); cbn;
      autorewrite with send; reflexivity.
  - unfold onTextSelection. cbv zeta.
    remember (trim (selection_toString (selection s))) as txt.
    cbn. destruct (negb (txt =? "")%string).
    + destruct (selection s); cbn; autorewrite with send; reflexivity.
    + cbn. autorewrite with send. reflexivity.
  - unfold onTextSelection. cbv zeta.
    remember (trim (selection_toString (selection (set_selection sel' s)))) as txt.
    cbn. destruct (negb (txt =? "")%string).
    + destruct sel'; cbn; autorewrite with send; reflexivity.
    + cbn. autorewrite with send. reflexivity.
  - unfold createHighlight.
    destruct (negb (truthy (VStr (selectedText s)))
              || negb (truthy (position_value (selectedTextPosition s))))%bool;
      cbn; autorewrite with send; reflexivity.
Qed.

Lemma advance_keeps_balance (now : Z) (s : State) :
  totalTimeSpent (advance now s) = totalTimeSpent s
  /\ pageStartTime (advance now s) = pageStartTime s.
Proof.
  unfold advance. destruct (idleTimeout s) as [d|]; [|auto].
  destruct (d <=? now); [|auto].
  unfold idleCallback. autorewrite with send. cbn. auto.
Qed.

Lemma unaccounted_on_a_monotone_clock (evs : list (Z * Event)) (lo : Z) :
  clock_monotone lo evs -> 0 <= unaccounted evs.
Proof.
  unfold unaccounted. revert lo.
  induction evs as [|[t e] evs IH]; intros lo;
    cbn [clock_monotone fold_right fst snd].
  - lia.
  - intros (_ & Hr & Hc). specialize (IH _ Hc).
    destruct e; cbn [last_reading readings_in_order] in *; lia.
Qed.

(** X5.  Over any events other than the set-up, the total time grows by
    the time between the entry to the page shown first and the entry to
    the page shown last, less the time that the page changes themselves
    take between their first reading of the clock and their last: every
    millisecond on a page is counted once, whatever else happens in
    between, and the milliseconds inside a page change are counted for
    no page.  On a clock that does not run backwards that loss is not
    negative, so the total time never runs ahead of the clock. *)
Theorem total_time_telescopes (s : State) (evs : list (Z * Event)) :
  Forall (fun te => is_setup (snd te) = false) evs ->
  totalTimeSpent (run s evs) - totalTimeSpent s
  = pageStartTime (run s evs) - pageStartTime s - unaccounted evs
  /\ (forall lo, clock_monotone lo evs ->
      totalTimeSpent (run s evs) - totalTimeSpent s
      <= pageStartTime (run s evs) - pageStartTime s).
Proof.
  intros H.
  assert (E : totalTimeSpent (run s evs) - totalTimeSpent s
              = pageStartTime (run s evs) - pageStartTime s - unaccounted evs).
  { revert s. induction H as [|[t e] evs He H IH]; intros s.
    - cbn. lia.
    - cbn [run fold_left]. fold (run (step s (t, e)) evs).
      specialize (IH (step s (t, e))). cbn in He.
      unfold step in *. cbn [fst snd] in *.
      pose proof (handle_keeps_balance e t (advance t s) He) as Hb.
      destruct (advance_keeps_balance t s) as (A & B).
      unfold unaccounted in *. cbn [fold_right fst snd]. lia. }
  split; [exact E|].
  intros lo Hc. pose proof (unaccounted_on_a_monotone_clock evs lo Hc). lia.
Qed.

(** Three page changes, an interaction and an idle period; two of the
    page changes take a millisecond or two. *)
Lemma total_time_telescopes_witness :
  let evs := [(2000, EvPageChanging 2 2000 2001); (3000, EvInteraction);
              (15000, EvPageChanging 3 15001 15002);
              (15500, EvPageChanging 4 15500 15500)] in
  let s := run viewer_on_page_1 evs in
  totalTimeSpent s - 0 = pageStartTime s - 0 - unaccounted evs
  /\ totalTimeSpent s = 15497
  /\ pageStartTime s = 15500.
Proof.
  intros evs s. split.
  - apply (total_time_telescopes viewer_on_page_1 evs).
    repeat constructor.
  - split; reflexivity.
Defined.

(** *** The start of the script *)

Lemma advance_without_timer (now : Z) (s : State) :
  idleTimeout s = None -> advance now s = s.
Proof. intros H. unfold advance. rewrite H. reflexivity. Qed.

Lemma set_bridge_same (pg : Startup.Page) :
  Startup.set_bridge (Startup.bridge pg) pg = pg.
Proof. destruct pg; reflexivity. Qed.

Lemma set_checkInterval_same (pg : Startup.Page) (v : option nat) :
  Startup.checkInterval pg = v -> Startup.set_checkInterval v pg = pg.
Proof. intros <-. destruct pg; reflexivity. Qed.

Lemma set_checkInterval_twice (pg : Startup.Page) (v w : option nat) :
  Startup.set_checkInterval v (Startup.set_checkInterval w pg)
  = Startup.set_checkInterval v pg.
Proof. reflexivity. Qed.

(** A stopped interval has no callbacks. *)
Lemma stopped_interval (ts : list Z) (pg : Startup.Page) :
  Startup.checkInterval pg = None ->
  idleTimeout (Startup.bridge pg) = None ->
  Startup.run pg (map (fun t => (t, Startup.IntervalFires)) ts) = pg.
Proof.
  intros Hc Hi. induction ts as [|t ts IH]; [reflexivity|].
  cbn [map Startup.run fold_left]. unfold Startup.step at 2.
  cbn [fst snd]. rewrite advance_without_timer by exact Hi.
  rewrite set_bridge_same. cbn [Startup.handle].
  unfold Startup.checkIntervalCallback. rewrite Hc. exact IH.
Qed.

(** While the viewer is not there, the callbacks of the interval count
    their attempts and the one that makes 20 stops the interval; the
    bridge is not touched. *)
Lemma waiting_counts (ts : list Z) (pg : Startup.Page) (a : nat) :
  Startup.checkInterval pg = Some a ->
  (a < 20)%nat ->
  Startup.ready (Startup.bridge pg) = false ->
  idleTimeout (Startup.bridge pg) = None ->
  Startup.run pg (map (fun t => (t, Startup.IntervalFires)) ts) =
  Startup.set_checkInterval
    (if (a + List.length ts <? 20)%nat then Some (a + List.length ts)%nat
     else None)
    pg.
Proof.
  revert pg a. induction ts as [|t ts IH]; intros pg a Hc Ha Hr Hi.
  - cbn [List.length map Startup.run fold_left]. rewrite Nat.add_0_r.
    apply Nat.ltb_lt in Ha. rewrite Ha.
    symmetry. apply set_checkInterval_same. exact Hc.
  - cbn [map Startup.run fold_left].
    fold (Startup.run (Startup.step pg (t, Startup.IntervalFires))
            (map (fun t => (t, Startup.IntervalFires)) ts)).
    unfold Startup.step. cbn [fst snd].
    rewrite advance_without_timer by exact Hi. rewrite set_bridge_same.
    cbn [Startup.handle]. unfold Startup.checkIntervalCallback.
    rewrite Hc, Hr. cbn [List.length]. rewrite Nat.add_succ_r.
    destruct (20 <=? S a)%nat eqn:E.
    + apply Nat.leb_le in E.
      assert (E1 : (S (a + List.length ts) <? 20)%nat = false)
        by (apply Nat.ltb_ge; lia).
      rewrite E1. apply stopped_interval; [reflexivity | exact Hi].
    + apply Nat.leb_gt in E.
      rewrite (IH _ (S a)); try assumption; reflexivity.
Qed.

(** X6.  The script loaded before the viewer is there polls for it
    every 500 ms.  When the viewer appears after [n] fruitless
    callbacks, the next callback sets the bridge up, once, if [n] is
    below 20: one [pdfReady] with the viewer's page count and page
    (page 1 for a viewer without a page), one listener on the event
    bus.  After 20 fruitless callbacks the interval is stopped and a
    viewer that appears later is not noticed by it.  In both cases no
    interval is left running. *)
Theorem polling_gives_up_after_20_attempts (t0 t : Z) (par : ParentWindow)
    (hl : bool) (sel : Selection) (n : nat) (app : Application) :
  app_eventBus app = true ->
  let pg :=
    Startup.run (Startup.loaded t0 par None hl sel)
      (Startup.waiting n t0
       ++ [(t, Startup.ViewerBecomes (Some app));
           (t, Startup.IntervalFires)])%list in
  Startup.checkInterval pg = None
  /\ Startup.pageChangingListeners pg = (if (n <? 20)%nat then 1 else 0)%nat
  /\ logged (Startup.bridge pg) =
       (if (n <? 20)%nat
        then [[("type", VStr "pdfReady"); ("timestamp", VNum t);
               ("totalPages", VNum (app_pagesCount app));
               ("currentPage",
                VNum (if app_page app =? 0 then 1 else app_page app))]]
        else []).
Proof.
  intros Hbus. cbv zeta. unfold Startup.run.
  rewrite fold_left_app. fold (Startup.run (Startup.loaded t0 par None hl sel)
                                 (Startup.waiting n t0)).
  unfold Startup.waiting. rewrite <- (map_map _ (fun t => (t, Startup.IntervalFires))).
  rewrite (waiting_counts _ _ 0%nat); try reflexivity; [|lia].
  rewrite length_map, length_seq. cbn [Nat.add].
  destruct (n <? 20)%nat; cbn; rewrite ?Hbus; cbn.
  - unfold Startup.setupEventListeners, Startup.ready. cbn. rewrite Hbus. cbn.
    unfold Bridge.setupEventListeners. cbn. rewrite ?Hbus.
    autorewrite with send. cbn. repeat split.
  - repeat split.
Qed.

(** The viewer appears after 3 callbacks, and after 25. *)
Lemma polling_gives_up_after_20_attempts_witness :
  let app := {| app_page := 0; app_pagesCount := 12; app_eventBus := true;
                app_pdfViewer := None; app_pageWrites := [] |} in
  let started n :=
    Startup.run (Startup.loaded 0 ParentFrame None false [])
      (Startup.waiting n 0
       ++ [(20000, Startup.ViewerBecomes (Some app));
           (20000, Startup.IntervalFires)])%list in
  logged (Startup.bridge (started 3%nat)) =
    [[("type", VStr "pdfReady"); ("timestamp", VNum 20000);
      ("totalPages", VNum 12); ("currentPage", VNum 1)]]
  /\ logged (Startup.bridge (started 25%nat)) = [].
Proof.
  intros app started. split.
  - apply (polling_gives_up_after_20_attempts 0 20000 ParentFrame false []
             3 app eq_refl).
  - apply (polling_gives_up_after_20_attempts 0 20000 ParentFrame false []
             25 app eq_refl).
Defined.

(** One call of [onPageChange]: what it adds to the sums, and its
    sample. *)
Lemma onPageChange_sums (p now sent entered : Z) (s : State) :
  let s' := onPageChange p now sent entered s in
  totalTimeSpent s' = totalTimeSpent s + (now - pageStartTime s)
  /\ activeTimeSpent s' =
       activeTimeSpent s + (if isIdle s then 0 else now - pageStartTime s)
  /\ isIdle s' = isIdle s
  /\ currentPage s' = p /\ pageStartTime s' = entered
  /\ logged s' =
       sample sent (currentPage s) p (round_div1000 (now - pageStartTime s))
         (round_div1000 (totalTimeSpent s'))
         (round_div1000 (activeTimeSpent s')) :: logged s.
Proof.
  cbv zeta. unfold onPageChange, sample. cbn. autorewrite with send.
  destruct (isIdle s) eqn:E; cbn; autorewrite with send; cbn; rewrite ?E;
    repeat split; lia.
Qed.

(** The listeners after the first: each finds the new page entered by
    the one before it. *)
Lemma later_listeners (p : Z) (readings : nat -> Startup.Readings) (n : nat)
    (b : State) :
  let call b i :=
    onPageChange p (Startup.read_now (readings i))
      (Startup.read_sent (readings i)) (Startup.read_entered (readings i)) b in
  let once := call b 0%nat in
  let all := fold_left call (seq 1 n) once in
  totalTimeSpent all = totalTimeSpent once + Startup.between readings n
  /\ activeTimeSpent all =
       activeTimeSpent once
       + (if isIdle b then 0 else Startup.between readings n)
  /\ isIdle all = isIdle b
  /\ currentPage all = p
  /\ pageStartTime all = Startup.read_entered (readings n)
  /\ logged all =
       (rev (map (Startup.echo p readings (isIdle b) (totalTimeSpent once)
                    (activeTimeSpent once)) (seq 0 n))
        ++ logged once)%list.
Proof.
  intros call once. cbv zeta. induction n as [|n IH].
  - cbn [seq fold_left map rev app Startup.between].
    destruct (onPageChange_sums p (Startup.read_now (readings 0%nat))
                (Startup.read_sent (readings 0%nat))
                (Startup.read_entered (readings 0%nat)) b)
      as (_ & _ & I & C & D & _).
    fold (call b 0%nat) in I, C, D. fold once in I, C, D.
    rewrite I, C, D. destruct (isIdle b); repeat split; lia.
  - destruct IH as (A & B & I & C & D & E).
    rewrite !seq_S, fold_left_app, map_app, rev_app_distr.
    cbn [fold_left map rev app Nat.add].
    remember (fold_left call (seq 1 n) once) as prev.
    unfold call at 1 2 3 4 5 6.
    destruct (onPageChange_sums p (Startup.read_now (readings (S n)))
                (Startup.read_sent (readings (S n)))
                (Startup.read_entered (readings (S n))) prev)
      as (A' & B' & I' & C' & D' & E').
    cbv zeta in A', B', I', C', D', E'.
    rewrite E'. rewrite A', B', I', C', D'. rewrite A, B, I, C, D, E.
    unfold Startup.echo. cbn [Startup.between].
    destruct (isIdle b); rewrite ?Z.add_assoc, ?Z.add_0_r; repeat split.
Qed.

(** X7.  Every set-up registers one more listener for page changes.
    With [n] + 1 listeners a page change sends [n] + 1 samples.  The
    first listener does what a single one does.  Each of the others
    finds the new page just entered: it sends a sample from the new
    page to itself and adds to the total time, and to the active time
    unless the reader is idle, only the time between the last reading
    of the clock by the listener before it and its own first reading. *)
Theorem page_change_listeners_count_once (pageNumber : Z)
    (readings : nat -> Startup.Readings) (n : nat) (pg : Startup.Page) :
  Startup.pageChangingListeners pg = S n ->
  let b := Startup.bridge pg in
  let once :=
    onPageChange pageNumber (Startup.read_now (readings 0%nat))
      (Startup.read_sent (readings 0%nat))
      (Startup.read_entered (readings 0%nat)) b in
  let all :=
    Startup.bridge (Startup.dispatchPageChanging pageNumber readings pg) in
  totalTimeSpent all = totalTimeSpent once + Startup.between readings n
  /\ activeTimeSpent all =
       activeTimeSpent once
       + (if isIdle b then 0 else Startup.between readings n)
  /\ currentPage all = pageNumber
  /\ pageStartTime all = Startup.read_entered (readings n)
  /\ logged all =
       (rev (map (Startup.echo pageNumber readings (isIdle b)
                    (totalTimeSpent once) (activeTimeSpent once)) (seq 0 n))
        ++ logged once)%list.
Proof.
  intros Hn. cbv zeta. unfold Startup.dispatchPageChanging.
  cbn [Startup.bridge Startup.set_bridge]. rewrite Hn.
  cbn [seq fold_left].
  destruct (later_listeners pageNumber readings n (Startup.bridge pg))
    as (A & B & _ & C & D & E).
  cbv zeta in A, B, C, D, E. repeat split; assumption.
Qed.

Lemma setup_when_ready (now : Z) (s : State) :
  Startup.ready s = true ->
  let s' := Bridge.setupEventListeners now s in
  Startup.ready s' = true
  /\ List.length (Startup.of_type "pdfReady" (logged s'))
     = S (List.length (Startup.of_type "pdfReady" (logged s))).
Proof.
  unfold Startup.ready, Bridge.setupEventListeners. cbv zeta.
  destruct (PDFViewerApplication s) as [app|] eqn:A; [|discriminate].
  intros Hbus. rewrite Hbus. autorewrite with send.
  match goal with
  | |- context [resetIdleTimer now ?x] =>
      destruct (resetIdleTimer_state now x) as (_ & _ & Hl);
      assert (Hv : PDFViewerApplication (resetIdleTimer now x) = Some app)
  end.
  { unfold resetIdleTimer. destruct (idleTimeout _); cbn;
      destruct (isIdle s); cbn; autorewrite with send; exact A. }
  rewrite Hv, Hl. split; [exact Hbus|].
  unfold Startup.of_type. cbn. destruct (isIdle s); reflexivity.
Qed.

Lemma advance_keeps_ready (now : Z) (s : State) :
  Startup.ready (advance now s) = Startup.ready s
  /\ Startup.of_type "pdfReady" (logged (advance now s))
     = Startup.of_type "pdfReady" (logged s).
Proof.
  unfold advance, Startup.ready. destruct (idleTimeout s) as [d|]; [|auto].
  destruct (d <=? now); [|auto].
  unfold idleCallback. autorewrite with send. cbn. auto.
Qed.

(** X8.  When the viewer is ready as the script starts, the bridge is
    set up twice: by the script itself, and again 500 ms after the
    window has loaded.  The host gets [pdfReady] twice and the event
    bus has two listeners for page changes. *)
Theorem setup_runs_twice (t0 tl : Z) (par : ParentWindow) (app : Application)
    (hl : bool) (sel : Selection) :
  app_eventBus app = true ->
  let pg :=
    Startup.run (Startup.loaded t0 par (Some app) hl sel)
      [(tl, Startup.WindowLoads); (tl + 500, Startup.LoadTimeoutFires)] in
  Startup.pageChangingListeners pg = 2%nat
  /\ List.length (Startup.of_type "pdfReady" (logged (Startup.bridge pg)))
     = 2%nat.
Proof.
  intros Hbus. cbv zeta.
  assert (Hr : Startup.ready (init t0 par (Some app) hl sel) = true)
    by exact Hbus.
  destruct (setup_when_ready t0 _ Hr) as (R1 & L1).
  unfold Startup.loaded, Startup.initializeFlutterBridge,
    Startup.setupEventListeners.
  cbn [Startup.bridge]. rewrite Hr.
  cbn [Startup.run fold_left Startup.step fst snd Startup.handle
       Startup.bridge Startup.set_bridge Startup.set_loadTimeout
       Startup.loadTimeout Startup.pageChangingListeners].
  remember (Bridge.setupEventListeners t0 (init t0 par (Some app) hl sel)) as b1.
  destruct (advance_keeps_ready tl b1) as (R2 & L2).
  destruct (advance_keeps_ready (tl + 500) (advance tl b1)) as (R3 & L3).
  unfold Startup.setupEventListeners.
  cbn [Startup.bridge Startup.set_bridge Startup.set_loadTimeout
       Startup.pageChangingListeners].
  rewrite R3, R2, R1.
  cbn [Startup.bridge Startup.pageChangingListeners].
  split; [reflexivity|].
  destruct (setup_when_ready (tl + 500) (advance (tl + 500) (advance tl b1)))
    as (_ & L4); [congruence|].
  rewrite L4, L3, L2, L1. reflexivity.
Qed.

(** A viewer on page 1; the window has loaded one second after the
    script. *)
Lemma setup_runs_twice_witness :
  let pg :=
    Startup.run
      (Startup.loaded 0 ParentFrame (PDFViewerApplication viewer_on_page_1)
         false [])
      [(1000, Startup.WindowLoads); (1000 + 500, Startup.LoadTimeoutFires)] in
  Startup.pageChangingListeners pg = 2%nat
  /\ List.length (Startup.of_type "pdfReady" (logged (Startup.bridge pg)))
     = 2%nat.
Proof.
  apply (setup_runs_twice 0 1000 ParentFrame
           {| app_page := 1; app_pagesCount := 10; app_eventBus := true;
              app_pdfViewer := Some {| currentScale := 1000 |};
              app_pageWrites := [] |} false []).
  reflexivity.
Defined.

(** Two listeners, as after that start, the second reading the clock a
    millisecond after the first: its sample is empty, and the
    millisecond is added to the sums. *)
Lemma page_change_listeners_count_once_witness :
  let pg :=
    Startup.run
      (Startup.loaded 0 ParentFrame (PDFViewerApplication viewer_on_page_1)
         false [])
      [(1000, Startup.WindowLoads); (1500, Startup.LoadTimeoutFires)] in
  let all :=
    Startup.bridge
      (Startup.dispatchPageChanging 2 (Startup.one_ms_apart 4500) pg) in
  totalTimeSpent all = 3001
  /\ firstn 2 (logged all) =
       [sample 4501 2 2 0 3 3; sample 4500 1 2 3 3 3].
Proof.
  intros pg all.
  destruct (page_change_listeners_count_once 2 (Startup.one_ms_apart 4500)
              1 pg eq_refl)
    as (Ht & _ & _ & _ & Hl).
  unfold all. split.
  - rewrite Ht. reflexivity.
  - rewrite Hl. reflexivity.
Defined.

End BridgeProperties.

(** ** Annotation capture *)

Section CaptureProperties.

Import Js CaptureBridge.

Lemma getAttribute_put_same name v attrs :
  getAttribute name (put_attribute name v attrs) = Some v.
Proof.
  induction attrs as [|[k v'] attrs IH]; cbn.
  - rewrite String.eqb_refl. reflexivity.
  - destruct (String.eqb k name) eqn:E; cbn; rewrite E; auto.
Qed.

Lemma getAttribute_put_other name name' v attrs :
  name <> name' ->
  getAttribute name (put_attribute name' v attrs) = getAttribute name attrs.
Proof.
  intros Hn. induction attrs as [|[k v'] attrs IH]; cbn.
  - destruct (String.eqb_spec name' name); [congruence | reflexivity].
  - destruct (String.eqb_spec k name'); cbn.
    + subst k. destruct (String.eqb_spec name' name); [congruence | reflexivity].
    + destruct (String.eqb k name); auto.
Qed.

(** A polling pass over a layer leaves every editor it selects marked. *)
Lemma capture_new_marks els idx pageNumber now stamp rnd s :
  all_marked (fst (capture_new els idx pageNumber now stamp rnd s)).
Proof.
  revert idx s. induction els as [|e els IH]; intros idx s; cbn.
  - constructor.
  - destruct (matches_editor e) eqn:M.
    + destruct (attr_truthy (getAttribute "data-sent-to-flutter" (el_attributes e)))
        eqn:T.
      * destruct (capture_new els (S idx) pageNumber now stamp rnd s) as [rest s']
          eqn:R.
        cbn. constructor; auto.
        specialize (IH (S idx) s). rewrite R in IH. exact IH.
      * match goal with
        | |- context [capture_new els (S idx) pageNumber now stamp rnd ?x] =>
            destruct (capture_new els (S idx) pageNumber now stamp rnd x)
              as [rest s'] eqn:R; specialize (IH (S idx) x)
        end.
        rewrite R in IH. cbn. constructor; auto. intros _. cbn.
        rewrite getAttribute_put_other by discriminate.
        rewrite getAttribute_put_same. reflexivity.
    + destruct (capture_new els idx pageNumber now stamp rnd s) as [rest s'] eqn:R.
      cbn. constructor; [congruence|].
      specialize (IH idx s). rewrite R in IH. exact IH.
Qed.

(** A polling pass over a layer whose editors are marked does nothing. *)
Lemma capture_new_silent els idx pageNumber now stamp rnd s :
  all_marked els ->
  capture_new els idx pageNumber now stamp rnd s = (els, s).
Proof.
  intros H. revert idx. induction H as [|e els He H IH]; intros idx; cbn.
  - reflexivity.
  - destruct (matches_editor e) eqn:M.
    + rewrite (He eq_refl), IH. reflexivity.
    + rewrite IH. reflexivity.
Qed.

Lemma capture_pages_marks pages i now stamp rnd s :
  Forall page_marked (fst (capture_pages pages i now stamp rnd s)).
Proof.
  revert i s. induction pages as [|pv pages IH]; intros i s; cbn.
  - constructor.
  - destruct pv as [[[[[els|]]|]]|]; cbn.
    + pose proof (capture_new_marks els 0 (i + 1) now stamp (rnd i) s) as Hm.
      destruct (capture_new els 0 (i + 1) now stamp (rnd i) s) as [els' s1].
      specialize (IH (i + 1) s1).
      destruct (capture_pages pages (i + 1) now stamp rnd s1) as [rest s2].
      cbn in *. constructor; auto.
    + specialize (IH (i + 1) s).
      destruct (capture_pages pages (i + 1) now stamp rnd s) as [rest s2].
      cbn in *. constructor; auto. exact I.
    + specialize (IH (i + 1) s).
      destruct (capture_pages pages (i + 1) now stamp rnd s) as [rest s2].
      cbn in *. constructor; auto. exact I.
    + specialize (IH (i + 1) s).
      destruct (capture_pages pages (i + 1) now stamp rnd s) as [rest s2].
      cbn in *. constructor; auto. exact I.
Qed.

Lemma capture_pages_silent pages i now stamp rnd s :
  Forall page_marked pages ->
  capture_pages pages i now stamp rnd s = (pages, s).
Proof.
  intros H. revert i. induction H as [|pv pages Hp H IH]; intros i; cbn.
  - reflexivity.
  - destruct pv as [[[[[els|]]|]]|]; cbn in *; rewrite ?IH; auto.
    rewrite capture_new_silent by exact Hp. rewrite IH. reflexivity.
Qed.

Lemma captureAllAnnotations_marks now stamp rnd (s : State) :
  state_marked (captureAllAnnotations now stamp rnd s).
Proof.
  unfold captureAllAnnotations, state_marked.
  destruct (PDFViewerApplication s) as [[[viewer|]]|] eqn:A; cbn;
    rewrite ?A; auto.
  pose proof (capture_pages_marks (_pages viewer) 0 now stamp rnd s) as Hm.
  destruct (capture_pages (_pages viewer) 0 now stamp rnd s) as [pages' s'].
  cbn in *. exact Hm.
Qed.

Lemma captureAllAnnotations_silent now stamp rnd (s : State) :
  state_marked s ->
  let s' := captureAllAnnotations now stamp rnd s in
  logged s' = logged s /\ posted s' = posted s /\ state_marked s'.
Proof.
  intros Hm. cbv zeta. split; [|split];
    [| |apply captureAllAnnotations_marks];
    unfold captureAllAnnotations, state_marked in *;
    destruct (PDFViewerApplication s) as [[[viewer|]]|]; cbn; auto;
    rewrite capture_pages_silent by exact Hm; reflexivity.
Qed.

(** On the polling path the capture is idempotent: after one tick, any
    number of further ticks over the same layers sends nothing. *)
Lemma poll_after_poll_is_silent now stamp rnd (ts : list (Z * string)) rnd2
    (s : State) :
  let s1 := captureAllAnnotations now stamp rnd s in
  let s2 := run s1 (poll_ticks ts rnd2) in
  logged s2 = logged s1 /\ posted s2 = posted s1.
Proof.
  cbv zeta.
  pose proof (captureAllAnnotations_marks now stamp rnd s) as Hm.
  generalize dependent (captureAllAnnotations now stamp rnd s).
  induction ts as [|[t st] ts IH]; intros s1 Hm; cbn; [auto|].
  destruct (captureAllAnnotations_silent t st rnd2 s1 Hm) as (Hl & Hp & Hm').
  destruct (IH _ Hm') as (Hl' & Hp').
  unfold run, poll_ticks in *. split; congruence.
Qed.

(** C5 does not hold of the script.  The listener of
    ["annotationeditorlayerrendered"] captures every editor of the layer
    without looking at the mark, and sets none.  An editor that a
    polling tick has captured and marked is captured again when its
    layer renders; an editor first seen when its layer renders is
    captured again by the next tick.  Only ticks after that are silent.
    (The editor has no [data-editor-type], so its payload has the type
    ["unknown"]; the [type] of the payload replaces the ["annotation"]
    of the envelope, as the spread in [sendToFlutter] has it.) *)
Theorem capture_is_repeated_when_the_layer_renders :
  let rnd := fun (_ : Z) (_ : nat) => "0.5" in
  let capture ts :=
    [("type", VStr "unknown"); ("timestamp", VNum ts); ("page", VNum 1);
     ("position",
      VObj [("viewportX", VNum 10); ("viewportY", VNum 20);
            ("width", VNum 100); ("height", VNum 30)])] in
  posted (run one_editor [(2000, PollTick "2000" rnd)]) = [capture 2000]
  /\ posted (run one_editor
               [(2000, PollTick "2000" rnd); (2500, EditorLayerRendered 1)]) =
       [capture 2500; capture 2000]
  /\ posted (run one_editor
               [(100, EditorLayerRendered 1); (2000, PollTick "2000" rnd);
                (4000, PollTick "4000" rnd)]) =
       [capture 2000; capture 100].
Proof. cbv zeta. repeat split; vm_compute; reflexivity. Qed.

End CaptureProperties.

(** ** Further properties of the annotation capture *)

Section CaptureExtras.

Import Js CaptureBridge CaptureObs.

(** X9.  [captureAnnotationData] sends one message for an element, or
    none: none exactly for an ink editor whose canvas cannot be
    exported.  The message carries the page number and the clock
    reading it was given, and its [type] is the element's
    [data-editor-type], or ["unknown"] without one: the ["annotation"]
    that the call names is replaced by the type in the payload. *)
Theorem capture_sends_the_editor_type (element : Element) (pageNumber now : Z)
    (s : State) :
  let s' := captureAnnotationData element pageNumber now s in
  if tainted_ink element then s' = s
  else exists message,
      logged s' = message :: logged s
      /\ get "type" message = VStr (annotation_type element)
      /\ get "page" message = VNum pageNumber
      /\ get "timestamp" message = VNum now
      /\ PDFViewerApplication s' = PDFViewerApplication s
      /\ parent s' = parent s.
Proof.
  cbv zeta. unfold captureAnnotationData, tainted_ink.
  fold (annotation_type element).
  destruct (String.eqb (annotation_type element) "freetext") eqn:F.
  { apply String.eqb_eq in F. rewrite F. cbn.
    eexists. cbn. repeat split. }
  destruct (String.eqb (annotation_type element) "ink") eqn:I.
  { apply String.eqb_eq in I. rewrite I. cbn.
    destruct (el_canvas element) as [canvas|]; cbn.
    - destruct (canvas_dataURL canvas); cbn; [|reflexivity].
      eexists. cbn. repeat split.
    - eexists. cbn. repeat split. }
  cbn. destruct (String.eqb (annotation_type element) "highlight") eqn:H.
  { apply String.eqb_eq in H. rewrite H.
    eexists. cbn. repeat split. }
  eexists. cbn. repeat split.
Qed.

Lemma captureAnnotationData_effect (element : Element) (pageNumber now : Z)
    (s : State) :
  let s' := captureAnnotationData element pageNumber now s in
  PDFViewerApplication s' = PDFViewerApplication s
  /\ parent s' = parent s
  /\ (List.length (logged s') <= S (List.length (logged s)))%nat
  /\ (List.length (logged s) <= List.length (logged s'))%nat.
Proof.
  pose proof (capture_sends_the_editor_type element pageNumber now s) as H.
  cbv zeta in *. destruct (tainted_ink element).
  - rewrite H. repeat split; lia.
  - destruct H as (m & Hl & _ & _ & _ & Ha & Hp).
    rewrite Hl, Ha, Hp. cbn. repeat split; lia.
Qed.

Lemma capture_each_effect (sel : Element -> bool) (els : list Element)
    (pageNumber now : Z) (s : State) :
  let s' := capture_each sel els pageNumber now s in
  PDFViewerApplication s' = PDFViewerApplication s
  /\ parent s' = parent s
  /\ (List.length (logged s')
      <= List.length (logged s) + List.length (filter sel els))%nat.
Proof.
  cbv zeta. revert s. induction els as [|e els IH]; intros s; cbn.
  - repeat split. lia.
  - destruct (sel e); cbn.
    + destruct (captureAnnotationData_effect e pageNumber now s)
        as (A & B & C & _).
      destruct (IH (captureAnnotationData e pageNumber now s)) as (A' & B' & C').
      rewrite A', B', A, B. repeat split. lia.
    + apply IH.
Qed.

(** X10.  The listener of ["annotationeditorlayerrendered"] reads the
    layer and writes nothing to it: no element gets a mark or an id.
    It sends at most one message for each [div] directly below the
    layer of the page, and none when the viewer has no such page or
    the page has no layer. *)
Theorem layer_rendered_writes_no_mark (pageNumber now : Z) (s : State) :
  let s' := captureEditorAnnotations pageNumber now s in
  PDFViewerApplication s' = PDFViewerApplication s
  /\ parent s' = parent s
  /\ (List.length (logged s')
      <= List.length (logged s)
         + List.length (filter matches_layer_child
                          (editors_of_page pageNumber s)))%nat.
Proof.
  cbv zeta. unfold captureEditorAnnotations, editors_of_page.
  destruct (PDFViewerApplication s) as [[[viewer|]]|] eqn:A;
    try (cbn; repeat split; solve [exact A | lia]).
  cbn. destruct (pageNumber <? 1);
    [cbn; repeat split; solve [exact A | lia]|].
  destruct (nth_error (_pages viewer) (Z.to_nat (pageNumber - 1)))
    as [[[[[[els|]]|]]|]|]; try (cbn; repeat split; solve [exact A | lia]).
  rewrite <- A. apply capture_each_effect.
Qed.

(** A marked editor keeps what the selectors and the capture read. *)
Lemma setAttribute_keeps (name v : string) (e : Element) :
  name <> "data-editor-rotation" -> name <> "data-editor-type" ->
  matches_editor (setAttribute name v e) = matches_editor e
  /\ annotation_type (setAttribute name v e) = annotation_type e
  /\ tainted_ink (setAttribute name v e) = tainted_ink e.
Proof.
  intros H1 H2. unfold tainted_ink, annotation_type, matches_editor,
    setAttribute. cbn.
  rewrite !getAttribute_put_other by congruence. auto.
Qed.

(** One polling pass over a layer sends at most one message for each
    editor it had yet to capture. *)
Lemma capture_new_bound els idx pageNumber now stamp rnd (s : State) :
  (List.length (logged (snd (capture_new els idx pageNumber now stamp rnd s)))
   <= List.length (logged s) + List.length (unmarked els))%nat.
Proof.
  unfold unmarked, marked.
  revert idx s. induction els as [|e els IH]; intros idx s; cbn.
  - lia.
  - destruct (matches_editor e); cbn.
    + destruct (attr_truthy _); cbn.
      * specialize (IH (S idx) s).
        destruct (capture_new els (S idx) pageNumber now stamp rnd s).
        exact IH.
      * match goal with
        | |- context [capture_new els (S idx) pageNumber now stamp rnd
                        (captureAnnotationData ?e2 ?p ?n ?x)] =>
            destruct (captureAnnotationData_effect e2 p n x) as (_ & _ & C & _);
            specialize (IH (S idx) (captureAnnotationData e2 p n x));
            destruct (capture_new els (S idx) pageNumber now stamp rnd
                        (captureAnnotationData e2 p n x))
        end.
        cbn [snd List.length] in *. lia.
    + specialize (IH idx s).
      destruct (capture_new els idx pageNumber now stamp rnd s). exact IH.
Qed.

Lemma capture_pages_bound pages i now stamp rnd (s : State) :
  (List.length (logged (snd (capture_pages pages i now stamp rnd s)))
   <= List.length (logged s)
      + List.length (flat_map unmarked_of_page pages))%nat.
Proof.
  revert i s. induction pages as [|pv pages IH]; intros i s; cbn.
  - lia.
  - rewrite length_app.
    destruct pv as [[[[[els|]]|]]|]; cbn.
    + pose proof (capture_new_bound els 0 (i + 1) now stamp (rnd i) s) as Hn.
      destruct (capture_new els 0 (i + 1) now stamp (rnd i) s) as [els' s1].
      specialize (IH (i + 1) s1).
      destruct (capture_pages pages (i + 1) now stamp rnd s1). cbn in *. lia.
    + specialize (IH (i + 1) s).
      destruct (capture_pages pages (i + 1) now stamp rnd s). cbn in *. lia.
    + specialize (IH (i + 1) s).
      destruct (capture_pages pages (i + 1) now stamp rnd s). cbn in *. lia.
    + specialize (IH (i + 1) s).
      destruct (capture_pages pages (i + 1) now stamp rnd s). cbn in *. lia.
Qed.

(** X11.  A polling tick sends at most one message for each editor that
    its selector finds without the mark, none for a marked one, and
    leaves every editor it finds marked: whatever the viewer has added
    to the layers since the tick before, nothing is left to capture
    after the tick. *)
Theorem polling_tick_marks_what_it_sends (now : Z) (stamp : string)
    (rnd : Z -> nat -> string) (s : State) :
  let s' := captureAllAnnotations now stamp rnd s in
  (List.length (logged s')
   <= List.length (logged s) + List.length (unmarked_of_state s))%nat
  /\ state_marked s'
  /\ unmarked_of_state s' = [].
Proof.
  cbv zeta. split; [|split].
  - unfold captureAllAnnotations, unmarked_of_state.
    destruct (PDFViewerApplication s) as [[[viewer|]]|]; cbn; try lia.
    pose proof (capture_pages_bound (_pages viewer) 0 now stamp rnd s) as Hb.
    destruct (capture_pages (_pages viewer) 0 now stamp rnd s). exact Hb.
  - apply captureAllAnnotations_marks.
  - pose proof (captureAllAnnotations_marks now stamp rnd s) as Hm.
    unfold state_marked, unmarked_of_state in *.
    destruct (PDFViewerApplication (captureAllAnnotations now stamp rnd s))
      as [[[viewer|]]|]; try reflexivity.
    induction Hm as [|pv pages Hp Hm IH]; [reflexivity|].
    cbn. rewrite IH, app_nil_r.
    destruct pv as [[[[[els|]]|]]|]; try reflexivity.
    cbn in *. unfold unmarked, marked.
    induction Hp as [|e els He Hp IHe]; [reflexivity|].
    cbn. rewrite IHe.
    destruct (matches_editor e); [|reflexivity].
    rewrite (He eq_refl). reflexivity.
Qed.

(** X12.  An ink editor whose canvas cannot be exported is marked by
    the polling tick that finds it, and gets its id, although nothing
    is sent for it: the tick goes on with the next editor as if it
    had been sent, and no later tick looks at it again. *)
Theorem tainted_ink_is_marked_unsent (editor : Element) (els : list Element)
    (idx : nat) (pageNumber now : Z) (stamp : string) (rnd : nat -> string)
    (s : State) :
  matches_editor editor = true ->
  marked editor = false ->
  tainted_ink editor = true ->
  exists editor',
    capture_new (editor :: els) idx pageNumber now stamp rnd s
    = (editor' :: fst (capture_new els (S idx) pageNumber now stamp rnd s),
       snd (capture_new els (S idx) pageNumber now stamp rnd s))
    /\ marked editor' = true
    /\ matches_editor editor' = true.
Proof.
  intros Hm Hu Ht. cbn [capture_new]. unfold marked in Hu.
  rewrite Hm, Hu.
  match goal with
  | |- context [captureAnnotationData ?e2 pageNumber now s] =>
      exists e2;
      pose proof (capture_sends_the_editor_type e2 pageNumber now s) as Hc;
      assert (Ht2 : tainted_ink e2 = true)
  end.
  { destruct (setAttribute_keeps "data-sent-to-flutter" "true" editor)
      as (_ & _ & K1); try discriminate.
    match goal with
    | |- tainted_ink (setAttribute _ ?id _) = true =>
        destruct (setAttribute_keeps "data-annotation-id" id
                    (setAttribute "data-sent-to-flutter" "true" editor))
          as (_ & _ & K2); try discriminate
    end.
    rewrite K2, K1. exact Ht. }
  cbv zeta in Hc. rewrite Ht2 in Hc. rewrite Hc.
  destruct (capture_new els (S idx) pageNumber now stamp rnd s) as [rest s'].
  split; [reflexivity|]. split.
  - unfold marked. cbn.
    rewrite getAttribute_put_other by discriminate.
    rewrite getAttribute_put_same. reflexivity.
  - match goal with
    | |- matches_editor (setAttribute _ ?id _) = true =>
        destruct (setAttribute_keeps "data-annotation-id" id
                    (setAttribute "data-sent-to-flutter" "true" editor))
          as (K2 & _); try discriminate
    end.
    destruct (setAttribute_keeps "data-sent-to-flutter" "true" editor)
      as (K1 & _); try discriminate.
    rewrite K2, K1. exact Hm.
Qed.

(** The drawing alone in the layer of page 1: the tick sends nothing. *)
Lemma tainted_ink_is_marked_unsent_witness :
  exists editor',
    capture_new [drawing_over_foreign_image] 0 1 2000 "2000"
      (fun _ => "0.5") one_editor
    = ([editor'], one_editor)
    /\ marked editor' = true
    /\ matches_editor editor' = true.
Proof.
  destruct (tainted_ink_is_marked_unsent drawing_over_foreign_image [] 0 1
              2000 "2000" (fun _ => "0.5") one_editor)
    as (editor' & H1 & H2 & H3); try reflexivity.
  exists editor'. split; [exact H1 | split; [exact H2 | exact H3]].
Defined.

End CaptureExtras.

(** ** Note re-anchoring *)

Section NotesProperties.

Import Js NotesBridge.

Local Open Scope nat_scope.

(** *** Strings *)

Lemma length_append (s t : string) :
  String.length (s ++ t) = String.length s + String.length t.
Proof. induction s as [|c s IH]; cbn; auto. Qed.

Lemma append_empty_r (s : string) : (s ++ "")%string = s.
Proof. induction s as [|c s IH]; cbn; congruence. Qed.

Lemma append_assoc (s t u : string) :
  ((s ++ t) ++ u)%string = (s ++ t ++ u)%string.
Proof. induction s as [|c s IH]; cbn; congruence. Qed.

Lemma length_substring (n m : nat) (s : string) :
  String.length (substring n m s) = Nat.min m (String.length s - n).
Proof.
  revert n m. induction s as [|c s IH]; intros [|n] [|m]; cbn; auto;
    rewrite IH; rewrite ?Nat.sub_0_r; reflexivity.
Qed.

Lemma substring_of_occurrence (before sub after : string) :
  substring (String.length before) (String.length sub)
    (before ++ sub ++ after) = sub.
Proof.
  induction before as [|c before IH]; cbn; [|exact IH].
  induction sub as [|c sub IH]; cbn.
  - destruct after; reflexivity.
  - rewrite IH. reflexivity.
Qed.

(** [indexOf] finds what occurs, and what it finds lies within the text. *)
Lemma indexOf_finds (sub s : string) :
  sub <> "" -> occurs_in sub s ->
  exists i, indexOf sub s = Some i /\ i < String.length s.
Proof.
  intros Hne (before & after & Hs). unfold indexOf.
  destruct (String.index 0 sub s) as [i|] eqn:E.
  - exists i. split; [reflexivity|].
    apply String.index_correct1 in E.
    apply (f_equal String.length) in E. rewrite length_substring in E.
    assert (Hl : 0 < String.length sub)
      by (destruct sub; [congruence | cbn; lia]).
    lia.
  - exfalso.
    apply (String.index_correct3 0 (String.length before) sub s E Hne);
      [lia|].
    rewrite Hs. apply substring_of_occurrence.
Qed.

Lemma length_collapse_from (in_run : bool) (s : string) :
  String.length (collapse_from in_run s) <= String.length s.
Proof.
  revert in_run. induction s as [|c s IH]; intros in_run; cbn; [lia|].
  destruct (is_space c).
  - destruct in_run; cbn; specialize (IH true); lia.
  - cbn. specialize (IH false). lia.
Qed.

Lemma length_collapse (s : string) :
  String.length (collapse s) <= String.length s.
Proof. apply length_collapse_from. Qed.

(** *** The text and the positions that a note's search is run on *)

Lemma concat_cons (x : string) (l : list string) :
  String.concat "" (x :: l) = (x ++ String.concat "" l)%string.
Proof. destruct l; cbn; [rewrite append_empty_r|]; reflexivity. Qed.

Lemma normalized_text_cons (c : Collected) (st : list Collected) :
  normalized_text (c :: st) = (collapse (node c) ++ normalized_text st)%string.
Proof. unfold normalized_text. cbn [map]. apply concat_cons. Qed.

Lemma build_positions_text (st : list Collected) (k : nat) (f n : string) :
  snd (fst (build_positions st k f n)) = (n ++ normalized_text st)%string.
Proof.
  revert k f n. induction st as [|c st IH]; intros k f n;
    cbn [build_positions].
  - cbn. rewrite append_empty_r. reflexivity.
  - specialize (IH (S k) (f ++ node c)%string (n ++ collapse (node c))%string).
    destruct (build_positions st (S k) (f ++ node c) (n ++ collapse (node c)))
      as [[f' n'] ps].
    cbn [fst snd] in *. rewrite IH, append_assoc, normalized_text_cons.
    reflexivity.
Qed.

Lemma update_nth_app {A : Type} (pre post : list A) (x y : A) :
  update_nth (List.length pre) y (pre ++ x :: post)%list
  = (pre ++ y :: post)%list.
Proof. induction pre as [|z pre IH]; cbn; congruence. Qed.

Lemma nth_error_middle {A : Type} (pre post : list A) (x : A) :
  nth_error (pre ++ x :: post)%list (List.length pre) = Some x.
Proof. induction pre as [|z pre IH]; cbn; auto. Qed.

(** The loop over the positions wraps a non-empty part of the node whose
    normalized span holds the match index. *)
Lemma place_wraps (rest pre : list Collected) (f n : string) (m : nat)
    (text : string) (span : Highlight) :
  text <> "" ->
  String.length n <= m < String.length n + String.length (normalized_text rest) ->
  let st := (pre ++ rest)%list in
  exists j c a b,
    nth_error st j = Some c /\ a < b <= String.length (node c)
    /\ place (snd (build_positions rest (List.length pre) f n)) m text span st
       = update_nth j (wrapped c a b span) st.
Proof.
  intros Ht. cbv zeta. revert pre f n.
  induction rest as [|c rest IH]; intros pre f n Hm.
  - cbn in Hm. lia.
  - rewrite normalized_text_cons, length_append in Hm. cbn [build_positions].
    pose proof (length_collapse (node c)) as Hc.
    destruct (build_positions rest (S (List.length pre)) (f ++ node c)
                (n ++ collapse (node c))) as [[f' n'] ps] eqn:B.
    cbn [snd place normalizedStart normalizedEnd pos_node].
    rewrite length_append.
    destruct (m <? String.length n + String.length (collapse (node c))) eqn:L.
    + apply Nat.ltb_lt in L.
      assert (Hs : (String.length n <=? m) = true) by (apply Nat.leb_le; lia).
      rewrite Hs. cbn [andb].
      rewrite nth_error_middle. unfold findRawOffset.
      assert (Ho : (m - String.length n <? String.length (collapse (node c))) = true)
        by (apply Nat.ltb_lt; lia).
      rewrite Ho. unfold surroundContents. rewrite nth_error_middle.
      assert (Hl : 0 < String.length text)
        by (destruct text; [congruence | cbn; lia]).
      set (a := m - String.length n).
      set (b := Nat.min (a + String.length text) (String.length (node c))).
      assert (Ha : (a <=? String.length (node c)) = true)
        by (apply Nat.leb_le; unfold a; lia).
      assert (Hb : (b <=? String.length (node c)) = true)
        by (apply Nat.leb_le; unfold b; lia).
      rewrite Ha, Hb. cbn [andb].
      assert (Hab : Nat.min a b = a) by (unfold b, a; lia).
      rewrite Hab.
      exists (List.length pre), c, a, b. rewrite nth_error_middle.
      repeat split; unfold b, a; try lia.
    + apply Nat.ltb_ge in L.
      rewrite Bool.andb_false_r.
      specialize (IH (pre ++ [c])%list (f ++ node c)%string
                    (n ++ collapse (node c))%string).
      rewrite length_append, <- app_assoc in IH. cbn [app] in IH.
      rewrite length_app in IH. cbn [List.length] in IH.
      rewrite Nat.add_1_r, B in IH. cbn [snd] in IH.
      apply IH. lia.
Qed.

(** A note whose normalized text is not empty and occurs in the text of
    the pass gets a span around a non-empty part of one node, marked as
    found by the exact search. *)
Lemma processNote_exact (st : list Collected) (note : Note) :
  collapse (trim (note_selectedText note)) <> "" ->
  occurs_in (collapse (trim (note_selectedText note))) (normalized_text st) ->
  exists j c a b,
    nth_error st j = Some c /\ a < b <= String.length (node c)
    /\ processNote st note =
         update_nth j
           (wrapped c a b {| data_note_id := note_id note; found_exact := true |})
           st.
Proof.
  intros Hne Hocc. unfold processNote.
  destruct (String.eqb_spec (note_selectedText note) "") as [E|E].
  { rewrite E in Hne. cbn in Hne. congruence. }
  destruct (String.eqb_spec (collapse (trim (note_selectedText note))) "")
    as [E'|_]; [congruence|].
  pose proof (build_positions_text st 0 "" "") as Ht.
  destruct (build_positions st 0 "" "") as [[f n] ps] eqn:B.
  cbn in Ht. subst n.
  destruct (indexOf_finds _ _ Hne Hocc) as (i & Hi & Hlt).
  rewrite Hi.
  destruct (place_wraps st [] "" "" i
              (collapse (trim (note_selectedText note)))
              {| data_note_id := note_id note; found_exact := true |} Hne)
    as (j & c & a & b & Hj & Hab & Hp).
  - cbn. lia.
  - cbn in Hp, Hj. rewrite B in Hp. cbn in Hp.
    exists j, c, a, b. auto.
Qed.

(** *** The spans of a layer *)

Lemma tagged_app (id : string) (l l' : list TextNode) :
  tagged id (l ++ l')%list = (tagged id l ++ tagged id l')%list.
Proof. apply filter_app. Qed.

Lemma layer_nodes_app (st st' : list Collected) :
  layer_nodes (st ++ st')%list = (layer_nodes st ++ layer_nodes st')%list.
Proof. apply flat_map_app. Qed.

(** After the walk and the removal of the old spans the layer has none. *)
Lemma tagged_collect (id : string) (nodes : list TextNode) :
  tagged id (layer_nodes (collect nodes)) = [].
Proof. induction nodes as [|n nodes IH]; cbn; auto. Qed.

Lemma nth_error_decompose {A : Type} (l : list A) (j : nat) (x : A) :
  nth_error l j = Some x ->
  exists pre post, l = (pre ++ x :: post)%list /\ List.length pre = j.
Proof. intros H. apply nth_error_split in H. exact H. Qed.

(** Wrapping a node adds the span and keeps the spans there were. *)
Lemma tagged_wrapped (id : string) (st : list Collected) (j : nat)
    (c : Collected) (a b : nat) (span : Highlight) :
  nth_error st j = Some c ->
  exists before after,
    tagged id (layer_nodes st) = (before ++ after)%list
    /\ tagged id (layer_nodes (update_nth j (wrapped c a b span) st)) =
         (before
          ++ tagged id [{| textContent := substring a (b - a) (node c);
                           wrapper := Some span |}]
          ++ after)%list.
Proof.
  intros Hj. destruct (nth_error_decompose st j c Hj) as (pre & post & Hs & Hl).
  subst st j. rewrite update_nth_app, !layer_nodes_app, !tagged_app.
  exists (tagged id (layer_nodes pre)),
    (tagged id (inserted c) ++ tagged id (layer_nodes post))%list.
  cbn [layer_nodes flat_map wrapped node inserted].
  rewrite !tagged_app. cbn. split; [reflexivity|].
  destruct (data_note_id span =? id)%string; reflexivity.
Qed.

Lemma surroundContents_tagged (id : string) (k a b : nat) (span : Highlight)
    (st st' : list Collected) :
  data_note_id span <> id ->
  surroundContents k a b span st = Some st' ->
  tagged id (layer_nodes st') = tagged id (layer_nodes st).
Proof.
  intros Hid. unfold surroundContents.
  destruct (nth_error st k) as [c|] eqn:Hk; [|discriminate].
  destruct ((a <=? String.length (node c)) && (b <=? String.length (node c)))%bool;
    [|discriminate].
  intros H. injection H as <-.
  destruct (tagged_wrapped id st k c (Nat.min a b) b span Hk)
    as (before & after & H1 & H2).
  unfold wrapped in H2. rewrite H2, H1. cbn.
  destruct (String.eqb_spec (data_note_id span) id); [congruence|]. reflexivity.
Qed.

(** A note leaves the spans of the other notes as they are. *)
Lemma place_tagged (id : string) (ps : list NodePosition) (m : nat)
    (text : string) (span : Highlight) (st : list Collected) :
  data_note_id span <> id ->
  tagged id (layer_nodes (place ps m text span st)) = tagged id (layer_nodes st).
Proof.
  intros Hid. induction ps as [|pos ps IH]; cbn [place]; [reflexivity|].
  destruct ((normalizedStart pos <=? m) && (m <? normalizedEnd pos))%bool;
    [|exact IH].
  match goal with
  | |- context [surroundContents ?k ?a ?b span st] =>
      destruct (surroundContents k a b span st) as [st'|] eqn:S
  end; [|exact IH].
  eapply surroundContents_tagged; eauto.
Qed.

Lemma processNote_tagged (id : string) (st : list Collected) (note : Note) :
  note_id note <> id ->
  tagged id (layer_nodes (processNote st note)) = tagged id (layer_nodes st).
Proof.
  intros Hid. unfold processNote.
  destruct (note_selectedText note =? "")%string; [reflexivity|].
  destruct (collapse (trim (note_selectedText note)) =? "")%string;
    [reflexivity|].
  destruct (build_positions st 0 "" "") as [[f n] ps].
  destruct (indexOf _ n); [apply place_tagged; exact Hid|].
  destruct (fuzzy_search _); [|reflexivity].
  destruct (indexOf _ n); [apply place_tagged; exact Hid | reflexivity].
Qed.

Lemma later_notes_tagged (id : string) (later : list Note)
    (st : list Collected) :
  Forall (fun other => note_id other <> id) later ->
  tagged id (layer_nodes (fold_left processNote later st)) =
  tagged id (layer_nodes st).
Proof.
  intros H. revert st.
  induction H as [|note later Hn H IH]; intros st; cbn [fold_left].
  - reflexivity.
  - rewrite IH. apply processNote_tagged. exact Hn.
Qed.

(** *** Re-anchoring *)


Lemma processNote_nil (note : Note) : processNote [] note = [].
Proof.
  unfold processNote.
  destruct (note_selectedText note =? "")%string; [reflexivity|].
  destruct (collapse (trim (note_selectedText note)) =? "")%string;
    [reflexivity|].
  cbn [build_positions].
  repeat match goal with
         | |- context [match ?x with Some _ => _ | None => _ end] =>
             destruct x
         end; reflexivity.
Qed.

Lemma notes_on_no_nodes (notes : list Note) : fold_left processNote notes [] = [].
Proof.
  induction notes as [|note notes IH]; cbn [fold_left]; [reflexivity|].
  rewrite processNote_nil. exact IH.
Qed.

(** The layer of the page is the one the pass selects. *)
Lemma layer_of_page_selected (pageNum : Z) (doc : list TextLayer)
    (textLayer : TextLayer) :
  layer_of_page pageNum doc = Some textLayer ->
  find_text_layer pageNum doc = Some textLayer
  /\ data_page_number textLayer = Some pageNum.
Proof.
  unfold layer_of_page, find_text_layer. intros H. rewrite H.
  split; [reflexivity|].
  apply find_some in H. destruct H as [_ H].
  destruct (data_page_number textLayer) as [p|]; [|discriminate].
  apply Z.eqb_eq in H. congruence.
Qed.

(** The first note of a pass reads the page's normalized text. *)
Lemma first_note_reads_the_page (layer : TextLayer) :
  text_read_after [] layer = normalized_page_text layer.
Proof.
  unfold text_read_after, normalized_page_text, normalized_text, collect.
  cbn [fold_left]. rewrite map_map. reflexivity.
Qed.



(** Both notes of that page get their span. *)
Example notes_in_two_nodes :
  highlightNotesOnPage 3 [note_alpha; note_gamma] [page_2; page_3] =
  Rendered
    {| data_page_number := Some 3%Z;
       text_nodes :=
         [{| textContent := ""; wrapper := None |};
          {| textContent := "alpha";
             wrapper := Some {| data_note_id := "a"; found_exact := true |} |};
          {| textContent := " beta "; wrapper := None |};
          {| textContent := ""; wrapper := None |};
          {| textContent := "gamma";
             wrapper := Some {| data_note_id := "g"; found_exact := true |} |};
          {| textContent := " delta"; wrapper := None |}] |}.
Proof. reflexivity. Qed.

(** What the pass does on the scenario, in full: the span holds the raw
    text with its line break. *)
Example end_to_end_scenario :
  highlightNotesOnPage 2 [note_n1] [page_2] =
  Rendered
    {| data_page_number := Some 2%Z;
       text_nodes :=
         [{| textContent := "say "; wrapper := None |};
          {| textContent := "hello" ++ String (ascii_of_nat 10) "world";
             wrapper := Some {| data_note_id := "n1"; found_exact := true |} |};
          {| textContent := " now"; wrapper := None |}] |}.
Proof. reflexivity. Qed.

(** A span cuts the node it is put in: the nodes that the pass holds
    then read "say " only, and a later note of the same pass whose text
    stands after the span is not found. *)
Example later_note_after_a_span_is_missed :
  occurs_in "now" (normalized_page_text page_2)
  /\ exists layer,
       highlightNotesOnPage 2 [note_n1; note_now] [page_2] = Rendered layer
       /\ decorations "n2" layer = [].
Proof.
  split.
  - exists ("say hello world "), "". reflexivity.
  - eexists. split; reflexivity.
Qed.

End NotesProperties.

(** ** Further properties of the note re-anchoring *)

Section NotesExtras.

Import Js NotesBridge NotesObs.

Local Open Scope nat_scope.

(** *** What [indexOf] does not find *)

Lemma prefix_occurs (sub s : string) :
  substring 0 (String.length sub) s = sub -> exists after, s = (sub ++ after)%string.
Proof.
  revert s. induction sub as [|c sub IH]; intros s H.
  - exists s. reflexivity.
  - destruct s as [|d s]; cbn in H; [discriminate|].
    injection H as -> H. destruct (IH s H) as (after & ->).
    exists after. reflexivity.
Qed.

Lemma substring_occurs (sub s : string) (n : nat) :
  substring n (String.length sub) s = sub -> occurs_in sub s.
Proof.
  revert n. induction s as [|c s IH]; intros n H.
  - exists "", "". destruct n, sub; cbn in H; try discriminate; reflexivity.
  - destruct n as [|n].
    + destruct (prefix_occurs sub (String c s) H) as (after & E).
      exists "", after. exact E.
    + assert (H' : substring n (String.length sub) s = sub).
      { destruct sub; exact H. }
      destruct (IH n H') as (before & after & ->).
      exists (String c before), after. reflexivity.
Qed.

Lemma indexOf_misses (sub s : string) :
  ~ occurs_in sub s -> indexOf sub s = None.
Proof.
  intros H. unfold indexOf. destruct (String.index 0 sub s) as [i|] eqn:E;
    [|reflexivity].
  exfalso. apply H. apply String.index_correct1 in E.
  apply substring_occurs with (n := i). exact E.
Qed.

(** A note that finds no place is passed over. *)
Lemma processNote_unplaced (st : list Collected) (note : Note) :
  finds_no_place (normalized_text st) note -> processNote st note = st.
Proof.
  unfold finds_no_place, processNote. cbv zeta. intros H.
  destruct (String.eqb (note_selectedText note) ""); [reflexivity|].
  destruct (String.eqb_spec (collapse (trim (note_selectedText note))) "")
    as [E|E]; [reflexivity|].
  destruct H as [H|(H1 & H2)]; [congruence|].
  pose proof (build_positions_text st 0 "" "") as Ht.
  destruct (build_positions st 0 "" "") as [[f n] ps]. cbn in Ht. subst n.
  rewrite (indexOf_misses _ _ H1).
  destruct (fuzzy_search _) as [fz|]; [|reflexivity].
  rewrite (indexOf_misses _ _ H2). reflexivity.
Qed.

(** X13.  A pass in which no note of the page finds a place leaves the
    text nodes of the layer as they were, each without a highlight: the
    notes stay unanchored, the old highlights are gone, nothing fails. *)
Theorem unplaced_notes_leave_the_text (pageNum : Z) (bookNotes : list Note)
    (doc : list TextLayer) (textLayer : TextLayer) :
  filter (fun n => Z.eqb (note_page n) pageNum) bookNotes <> [] ->
  find_text_layer pageNum doc = Some textLayer ->
  text_nodes textLayer <> [] ->
  Forall (finds_no_place (normalized_page_text textLayer))
    (filter (fun n => Z.eqb (note_page n) pageNum) bookNotes) ->
  highlightNotesOnPage pageNum bookNotes doc =
  Rendered
    {| data_page_number := data_page_number textLayer;
       text_nodes :=
         map (fun n => {| textContent := textContent n; wrapper := None |})
           (text_nodes textLayer) |}.
Proof.
  intros Hn Hl Ht Hf. unfold highlightNotesOnPage. rewrite Hl.
  destruct (filter (fun n => Z.eqb (note_page n) pageNum) bookNotes)
    as [|n0 ns] eqn:N; [congruence|]. rewrite <- N in *. clear N n0 ns.
  unfold normalized_page_text in Hf.
  destruct (text_nodes textLayer) as [|t0 ts]; [congruence|].
  f_equal. f_equal.
  assert (Hfold : forall notes st,
             Forall (finds_no_place (normalized_text st)) notes ->
             fold_left processNote notes st = st).
  { induction notes as [|note notes IH]; intros st H; [reflexivity|].
    inversion H as [|? ? H1 H2]; subst. cbn [fold_left].
    rewrite (processNote_unplaced st note H1). apply IH. exact H2. }
  rewrite Hfold.
  - unfold layer_nodes, collect. generalize (t0 :: ts).
    induction l as [|x l IH]; cbn; [reflexivity|]. rewrite IH. reflexivity.
  - unfold normalized_text, collect. rewrite map_map. exact Hf.
Qed.

Lemma not_found_does_not_occur (sub s : string) :
  sub <> "" -> indexOf sub s = None -> ~ occurs_in sub s.
Proof.
  intros Hne Hi Hocc. destruct (indexOf_finds sub s Hne Hocc) as (i & E & _).
  congruence.
Qed.

(** The note about zebras on the page of the scenario, which has a
    highlight from an earlier pass. *)
Lemma unplaced_notes_leave_the_text_witness :
  let highlighted :=
    {| data_page_number := Some 2%Z;
       text_nodes :=
         [{| textContent := "say "; wrapper := None |};
          {| textContent := "hello world";
             wrapper := Some {| data_note_id := "n1"; found_exact := true |} |};
          {| textContent := " now"; wrapper := None |}] |} in
  highlightNotesOnPage 2 [note_zebra] [highlighted] =
  Rendered
    {| data_page_number := Some 2%Z;
       text_nodes :=
         [{| textContent := "say "; wrapper := None |};
          {| textContent := "hello world"; wrapper := None |};
          {| textContent := " now"; wrapper := None |}] |}.
Proof.
  intros highlighted.
  apply (unplaced_notes_leave_the_text 2 [note_zebra] [highlighted] highlighted).
  - discriminate.
  - reflexivity.
  - discriminate.
  - constructor; [|constructor]. right. split.
    + apply not_found_does_not_occur; [discriminate | reflexivity].
    + apply not_found_does_not_occur; [discriminate | reflexivity].
Defined.

(** *** The degraded search *)

Lemma concat_nonempty (sep w : string) (ws : list string) :
  w <> "" -> String.concat sep (w :: ws) <> "".
Proof.
  intros H. destruct ws as [|w' ws]; cbn; [exact H|].
  destruct w; [congruence | discriminate].
Qed.

Lemma fuzzy_search_nonempty (searchText fuzzySearch : string) :
  fuzzy_search searchText = Some fuzzySearch -> fuzzySearch <> "".
Proof.
  unfold fuzzy_search.
  destruct (filter (fun w => 3 <? String.length w) (split_space searchText))
    as [|w ws] eqn:F; [discriminate|].
  intros H. injection H as H. rewrite <- H.
  apply (concat_nonempty " " w (firstn 2 ws)).
  assert (Hin : In w (filter (fun w => 3 <? String.length w)
                        (split_space searchText)))
    by (rewrite F; left; reflexivity).
  apply filter_In in Hin. destruct Hin as (_ & Hw).
  apply Nat.ltb_lt in Hw. destruct w; [cbn in Hw; lia | discriminate].
Qed.

(** A note whose text does not occur, but whose first long words do,
    gets a span around a non-empty part of one node, marked as not
    found by the exact search. *)
Lemma processNote_fuzzy (st : list Collected) (note : Note)
    (fuzzySearch : string) :
  collapse (trim (note_selectedText note)) <> "" ->
  ~ occurs_in (collapse (trim (note_selectedText note))) (normalized_text st) ->
  fuzzy_search (collapse (trim (note_selectedText note))) = Some fuzzySearch ->
  occurs_in fuzzySearch (normalized_text st) ->
  exists j c a b,
    nth_error st j = Some c /\ a < b <= String.length (node c)
    /\ processNote st note =
         update_nth j
           (wrapped c a b {| data_note_id := note_id note; found_exact := false |})
           st.
Proof.
  intros Hne Hno Hfz Hocc. unfold processNote.
  destruct (String.eqb_spec (note_selectedText note) "") as [E|E].
  { rewrite E in Hne. cbn in Hne. congruence. }
  destruct (String.eqb_spec (collapse (trim (note_selectedText note))) "")
    as [E'|_]; [congruence|].
  pose proof (build_positions_text st 0 "" "") as Ht.
  destruct (build_positions st 0 "" "") as [[f n] ps] eqn:B.
  cbn in Ht. subst n.
  rewrite (indexOf_misses _ _ Hno), Hfz.
  pose proof (fuzzy_search_nonempty _ _ Hfz) as Hfne.
  destruct (indexOf_finds _ _ Hfne Hocc) as (i & Hi & Hlt).
  rewrite Hi.
  destruct (place_wraps st [] "" "" i fuzzySearch
              {| data_note_id := note_id note; found_exact := false |} Hfne)
    as (j & c & a & b & Hj & Hab & Hp).
  - cbn. lia.
  - cbn in Hp, Hj. rewrite B in Hp. cbn in Hp.
    exists j, c, a, b. auto.
Qed.

(** A pass in which the note gets its span ends with that span as the
    only one with the note's id. *)
Lemma pass_with_span (pageNum : Z) (bookNotes : list Note)
    (doc : list TextLayer) (textLayer : TextLayer)
    (earlier later : list Note) (note : Note) (span : Highlight) :
  filter (fun n => Z.eqb (note_page n) pageNum) bookNotes
  = (earlier ++ note :: later)%list ->
  find_text_layer pageNum doc = Some textLayer ->
  fold_left processNote earlier (collect (text_nodes textLayer))
  = collect (text_nodes textLayer) ->
  Forall (fun other => note_id other <> note_id note) later ->
  data_note_id span = note_id note ->
  (exists j c a b,
      nth_error (collect (text_nodes textLayer)) j = Some c
      /\ a < b <= String.length (node c)
      /\ processNote (collect (text_nodes textLayer)) note =
           update_nth j (wrapped c a b span) (collect (text_nodes textLayer))) ->
  exists layer text,
    highlightNotesOnPage pageNum bookNotes doc = Rendered layer
    /\ text <> ""
    /\ decorations (note_id note) layer =
         [{| textContent := text; wrapper := Some span |}].
Proof.
  intros Hnotes Hlayer Hearlier Hlater Hid (j & c & a & b & Hj & Hab & Hp).
  unfold highlightNotesOnPage. rewrite Hnotes, Hlayer.
  assert (Hl : exists h t, (earlier ++ note :: later)%list = h :: t).
  { destruct earlier; cbn; eauto. }
  destruct Hl as (h & t & Hl).
  destruct (text_nodes textLayer) as [|n0 ns] eqn:N.
  { destruct j; discriminate. }
  destruct (tagged_wrapped (note_id note) _ j c a b span Hj)
    as (before & after & H1 & H2).
  rewrite tagged_collect in H1.
  symmetry in H1. apply app_eq_nil in H1. destruct H1 as [-> ->].
  exists {| data_page_number := data_page_number textLayer;
            text_nodes :=
              layer_nodes
                (fold_left processNote (earlier ++ note :: later)%list
                   (collect (n0 :: ns))) |},
    (substring a (b - a) (node c)).
  split; [rewrite Hl; reflexivity|]. split.
  - intros H0. apply (f_equal String.length) in H0.
    rewrite length_substring in H0. cbn in H0. lia.
  - unfold decorations. cbn [text_nodes].
    rewrite fold_left_app, Hearlier. cbn [fold_left].
    fold (tagged (note_id note)
            (layer_nodes (fold_left processNote later
               (processNote (collect (n0 :: ns)) note)))).
    rewrite later_notes_tagged by exact Hlater.
    rewrite Hp, H2. cbn. rewrite Hid, String.eqb_refl. reflexivity.
Qed.



(** *** What a pass keeps *)

Lemma surroundContents_cases (k a b : nat) (span : Highlight)
    (st : list Collected) :
  match surroundContents k a b span st with
  | Some st' =>
      exists c a',
        nth_error st k = Some c /\ a' <= b <= String.length (node c)
        /\ st' = update_nth k (wrapped c a' b span) st
  | None => True
  end.
Proof.
  unfold surroundContents.
  destruct (nth_error st k) as [c|]; [|exact I].
  destruct (a <=? String.length (node c)) eqn:A; cbn; [|exact I].
  destruct (b <=? String.length (node c)) eqn:B; cbn; [|exact I].
  apply Nat.leb_le in A, B.
  exists c, (Nat.min a b). repeat split; try lia.
Qed.

(** A note changes the layer by one span around a part of one node, or
    not at all. *)
Lemma place_cases (ps : list NodePosition) (m : nat) (text : string)
    (span : Highlight) (st : list Collected) :
  place ps m text span st = st
  \/ exists k c a b,
       nth_error st k = Some c /\ a <= b <= String.length (node c)
       /\ place ps m text span st = update_nth k (wrapped c a b span) st.
Proof.
  induction ps as [|pos ps IH]; cbn [place]; [left; reflexivity|].
  destruct ((normalizedStart pos <=? m) && (m <? normalizedEnd pos))%bool;
    [|exact IH].
  match goal with
  | |- context [surroundContents ?k ?a ?b span st] =>
      pose proof (surroundContents_cases k a b span st) as Hs;
      destruct (surroundContents k a b span st) as [st'|]
  end; [|exact IH].
  destruct Hs as (c & a' & Hk & Hab & ->). right. eauto 8.
Qed.

Lemma processNote_cases (st : list Collected) (note : Note) :
  processNote st note = st
  \/ exists k c a b exact,
       nth_error st k = Some c /\ a <= b <= String.length (node c)
       /\ processNote st note =
            update_nth k
              (wrapped c a b {| data_note_id := note_id note;
                                found_exact := exact |}) st.
Proof.
  unfold processNote.
  destruct (String.eqb (note_selectedText note) ""); [left; reflexivity|].
  destruct (String.eqb (collapse (trim (note_selectedText note))) "");
    [left; reflexivity|].
  destruct (build_positions st 0 "" "") as [[f n] ps].
  destruct (indexOf _ n) as [i|].
  - destruct (place_cases ps i (collapse (trim (note_selectedText note)))
                {| data_note_id := note_id note; found_exact := true |} st)
      as [H|(k & c & a & b & H)]; [left; exact H|].
    right. exists k, c, a, b, true. exact H.
  - destruct (fuzzy_search _) as [fz|]; [|left; reflexivity].
    destruct (indexOf fz n) as [i|]; [|left; reflexivity].
    destruct (place_cases ps i fz
                {| data_note_id := note_id note; found_exact := false |} st)
      as [H|(k & c & a & b & H)]; [left; exact H|].
    right. exists k, c, a, b, false. exact H.
Qed.

Lemma substring_cut (s : string) (n k m : nat) :
  k <= m ->
  substring n m s = (substring n k s ++ substring (n + k) (m - k) s)%string.
Proof.
  revert n k m. induction s as [|c s IH]; intros n k m Hk.
  - destruct n, k, m; reflexivity.
  - destruct n as [|n].
    + destruct k as [|k].
      * cbn [Nat.add]. rewrite Nat.sub_0_r. destruct m; reflexivity.
      * destruct m as [|m]; [lia|]. cbn. f_equal.
        apply (IH 0 k m). lia.
    + cbn. apply IH. exact Hk.
Qed.

Lemma substring_all (s : string) : substring 0 (String.length s) s = s.
Proof. induction s as [|c s IH]; cbn; congruence. Qed.

Lemma wrapped_text (s : string) (a b : nat) :
  a <= b <= String.length s ->
  (substring 0 a s ++ substring a (b - a) s
   ++ substring b (String.length s - b) s)%string = s.
Proof.
  intros H. etransitivity; [|apply (substring_all s)].
  rewrite (substring_cut s 0 a (String.length s)) by lia.
  f_equal. cbn [Nat.add].
  rewrite (substring_cut s a (b - a) (String.length s - a)) by lia.
  replace (a + (b - a)) with b by lia.
  replace (String.length s - a - (b - a)) with (String.length s - b) by lia.
  reflexivity.
Qed.

Lemma raw_text_app (l l' : list TextNode) :
  raw_text (l ++ l')%list = (raw_text l ++ raw_text l')%string.
Proof.
  unfold raw_text. induction l as [|x l IH]; cbn [map app].
  - reflexivity.
  - rewrite !concat_cons, IH, append_assoc. reflexivity.
Qed.

Lemma raw_text_cons (x : TextNode) (l : list TextNode) :
  raw_text (x :: l) = (textContent x ++ raw_text l)%string.
Proof. unfold raw_text. cbn [map]. apply concat_cons. Qed.

Lemma wrapped_keeps_raw_text (st : list Collected) (k : nat) (c : Collected)
    (a b : nat) (span : Highlight) :
  nth_error st k = Some c -> a <= b <= String.length (node c) ->
  raw_text (layer_nodes (update_nth k (wrapped c a b span) st))
  = raw_text (layer_nodes st).
Proof.
  intros Hk Hab.
  destruct (nth_error_decompose st k c Hk) as (pre & post & -> & <-).
  rewrite update_nth_app, !layer_nodes_app, !raw_text_app. f_equal.
  unfold layer_nodes. cbn [flat_map]. rewrite !raw_text_app. f_equal.
  cbn [wrapped node inserted]. rewrite !raw_text_cons. cbn [textContent].
  pose proof (wrapped_text (node c) a b Hab) as W.
  remember (substring 0 a (node c)) as x.
  remember (substring a (b - a) (node c)) as y.
  remember (substring b (String.length (node c) - b) (node c)) as z.
  rewrite <- W. rewrite !append_assoc. reflexivity.
Qed.

Lemma processNote_keeps_raw_text (st : list Collected) (note : Note) :
  raw_text (layer_nodes (processNote st note)) = raw_text (layer_nodes st).
Proof.
  destruct (processNote_cases st note)
    as [->|(k & c & a & b & exact & Hk & Hab & ->)]; [reflexivity|].
  apply wrapped_keeps_raw_text; assumption.
Qed.

(** X15.  A pass that runs through changes no text: the text nodes of
    the layer, joined, read after the pass as they did before, whatever
    the notes and wherever the spans were put. *)
Theorem pass_keeps_the_text (pageNum : Z) (bookNotes : list Note)
    (doc : list TextLayer) :
  match highlightNotesOnPage pageNum bookNotes doc with
  | Rendered layer =>
      exists textLayer,
        find_text_layer pageNum doc = Some textLayer
        /\ data_page_number layer = data_page_number textLayer
        /\ raw_text (text_nodes layer) = raw_text (text_nodes textLayer)
  | NoNotes | RetryAfter _ => True
  end.
Proof.
  unfold highlightNotesOnPage.
  destruct (filter (fun note => Z.eqb (note_page note) pageNum) bookNotes)
    as [|n0 ns]; [exact I|].
  destruct (find_text_layer pageNum doc) as [textLayer|]; [|exact I].
  destruct (text_nodes textLayer) as [|t0 ts] eqn:N; [exact I|].
  exists textLayer. split; [reflexivity|]. split; [reflexivity|].
  cbn [text_nodes]. rewrite N.
  assert (Hfold : forall notes st,
             raw_text (layer_nodes (fold_left processNote notes st))
             = raw_text (layer_nodes st)).
  { induction notes as [|note notes IH]; intros st; [reflexivity|].
    cbn [fold_left]. rewrite IH. apply processNote_keeps_raw_text. }
  rewrite Hfold. unfold layer_nodes, collect, raw_text.
  generalize (t0 :: ts). induction l as [|x l IH]; [reflexivity|].
  cbn [map flat_map app]. rewrite !concat_cons. cbn [textContent node].
  f_equal. exact IH.
Qed.

Lemma processNote_tagged_bound (id : string) (st : list Collected)
    (note : Note) :
  List.length (tagged id (layer_nodes (processNote st note)))
  <= List.length (tagged id (layer_nodes st))
     + (if String.eqb (note_id note) id then 1 else 0).
Proof.
  destruct (processNote_cases st note)
    as [->|(k & c & a & b & exact & Hk & Hab & ->)]; [lia|].
  destruct (tagged_wrapped id st k c a b
              {| data_note_id := note_id note; found_exact := exact |} Hk)
    as (before & after & H1 & H2).
  rewrite H2, H1, !length_app. cbn.
  destruct (String.eqb (note_id note) id); cbn; lia.
Qed.

(** X16.  After a pass that runs through, the layer has for every id at
    most as many spans with that id as the cached list has notes with
    it on the page: none for an id that no note of the page has, and at
    most one for each note, however often the pass is repeated. *)
Theorem at_most_one_span_per_note (pageNum : Z) (bookNotes : list Note)
    (doc : list TextLayer) (id : string) :
  match highlightNotesOnPage pageNum bookNotes doc with
  | Rendered layer =>
      List.length (decorations id layer)
      <= List.length (notes_with_id id pageNum bookNotes)
  | NoNotes | RetryAfter _ => True
  end.
Proof.
  unfold highlightNotesOnPage, notes_with_id.
  destruct (filter (fun note => Z.eqb (note_page note) pageNum) bookNotes)
    as [|n0 ns] eqn:N; [exact I|]. rewrite <- N. clear N n0 ns.
  destruct (find_text_layer pageNum doc) as [textLayer|]; [|exact I].
  destruct (text_nodes textLayer) as [|t0 ts]; [exact I|].
  unfold decorations. cbn [text_nodes].
  fold (tagged id
          (layer_nodes
             (fold_left processNote
                (filter (fun note => Z.eqb (note_page note) pageNum) bookNotes)
                (collect (t0 :: ts))))).
  assert (Hfold : forall notes st,
             List.length (tagged id (layer_nodes (fold_left processNote notes st)))
             <= List.length (tagged id (layer_nodes st))
                + List.length
                    (filter (fun note => String.eqb (note_id note) id) notes)).
  { induction notes as [|note notes IH]; intros st; cbn [fold_left filter].
    - lia.
    - specialize (IH (processNote st note)).
      pose proof (processNote_tagged_bound id st note) as Hb.
      destruct (String.eqb (note_id note) id); cbn [List.length]; lia. }
  specialize (Hfold
                (filter (fun note => Z.eqb (note_page note) pageNum) bookNotes)
                (collect (t0 :: ts))).
  rewrite tagged_collect in Hfold. cbn in Hfold. exact Hfold.
Qed.

End NotesExtras.

(** ** Tooltips of the note highlights *)

Section TooltipExtras.

Import Js NotesBridge NotesTooltip.

Lemma lacks_app (c : ascii) (s t : string) :
  lacks c s -> lacks c t -> lacks c (s ++ t)%string.
Proof.
  induction s as [|d s IH]; cbn; [tauto|].
  intros [Hd Hs] Ht. split; [exact Hd|]. apply IH; assumption.
Qed.

Lemma lacks_substring (c : ascii) (n m : nat) (s : string) :
  lacks c s -> lacks c (substring n m s).
Proof.
  revert n m. induction s as [|d s IH]; intros n m H.
  - destruct n, m; exact I.
  - destruct H as [Hd Hs]. destruct n as [|n]; cbn.
    + destruct m as [|m]; cbn; [exact I|]. split; [exact Hd|]. apply IH, Hs.
    + apply IH, Hs.
Qed.

(** A global replacement removes the character if the replacement does
    not bring it back. *)
Lemma replace_char_removes (c : ascii) (by_ s : string) :
  lacks c by_ -> lacks c (replace_char c by_ s).
Proof.
  intros Hby. induction s as [|d s IH]; cbn; [exact I|].
  destruct (Ascii.eqb d c) eqn:E.
  - apply lacks_app; assumption.
  - cbn. split; [|exact IH]. apply Ascii.eqb_neq. exact E.
Qed.

Lemma replace_char_keeps (c d : ascii) (by_ s : string) :
  lacks d by_ -> lacks d s -> lacks d (replace_char c by_ s).
Proof.
  intros Hby. induction s as [|e s IH]; cbn; [tauto|].
  intros [He Hs]. destruct (Ascii.eqb e c).
  - apply lacks_app; [exact Hby|]. apply IH, Hs.
  - cbn. split; [exact He|]. apply IH, Hs.
Qed.

Lemma escape_no_angle (s : string) : no_angle (escape s).
Proof.
  unfold no_angle, escape. split.
  - apply replace_char_keeps.
    + cbn. repeat split; discriminate.
    + apply replace_char_removes. cbn. repeat split; discriminate.
  - apply replace_char_removes. cbn. repeat split; discriminate.
Qed.

Lemma tooltip_of_no_angle (note : Note) (element : SpanRect) :
  no_angle (tip_title (tooltip_of note element))
  /\ no_angle (tip_content (tooltip_of note element)).
Proof.
  cbn [tooltip_of tip_title tip_content]. split.
  - apply escape_no_angle.
  - unfold tooltip_content.
    destruct (escape_no_angle (substring 0 100 (note_content note))) as [A B].
    split; (apply lacks_app; [assumption|]);
      destruct (100 <? String.length (note_content note))%nat; cbn;
      repeat split; discriminate.
Qed.

(** X17.  Whatever the titles and contents of the notes, and whatever
    the mouse does, no text that a tooltip shows has a [<] or a [>]:
    both texts go through the two replacements before they are put into
    the markup of the tooltip. *)
Theorem tooltips_have_no_angle_brackets (evs : list (Z * Hover)) :
  Forall (fun t => no_angle (tip_title t) /\ no_angle (tip_content t))
         (tooltips (run nothing_shown evs)).
Proof.
  unfold run.
  assert (H : Forall (fun t => no_angle (tip_title t) /\ no_angle (tip_content t))
                     (tooltips nothing_shown)) by constructor.
  revert H. generalize nothing_shown.
  induction evs as [|[now e] evs IH]; intros s H; cbn [fold_left]; [exact H|].
  apply IH. unfold step. cbn [fst snd].
  assert (Ha : Forall (fun t => no_angle (tip_title t) /\ no_angle (tip_content t))
                      (tooltips (advance now s))).
  { unfold advance. destruct (tooltipTimeout s) as [[[d note] el]|]; [|exact H].
    destruct (d <=? now); [|exact H].
    cbn [tooltipCallback tooltips]. apply Forall_app. split; [exact H|].
    constructor; [|constructor]. apply (tooltip_of_no_angle note el). }
  destruct e as [note el|]; cbn [showNoteTooltip hideNoteTooltip tooltips].
  - exact Ha.
  - destruct (tooltips (advance now s)) as [|t ts]; [constructor|].
    cbn [tl]. inversion Ha; assumption.
Qed.

Lemma hover_and_leave (t t' : Z) (note : Note) (element : SpanRect) :
  step (step nothing_shown (t, MouseEnter note element)) (t', MouseLeave)
  = nothing_shown.
Proof.
  unfold step, advance. cbn.
  destruct (t + 500 <=? t'); reflexivity.
Qed.

Lemma paired_run (n : nat) (evs : list (Z * Hover)) :
  (List.length evs <= n)%nat -> paired evs ->
  run nothing_shown evs = nothing_shown.
Proof.
  revert evs. induction n as [|n IH]; intros evs Hn Hp.
  - destruct evs; [reflexivity|]. cbn in Hn. lia.
  - destruct evs as [|[t [note el|]] [|[t' [note' el'|]] evs]];
      cbn in Hp; try contradiction; [reflexivity|].
    unfold run. cbn [fold_left]. rewrite hover_and_leave.
    apply IH; [cbn in Hn; lia|exact Hp].
Qed.

(** X18.  When every [mouseenter] has been followed by its
    [mouseleave], no tooltip is in the document and no timer is pending,
    however long each hover lasted.  The next hover then shows its
    tooltip, and only that one, once the mouse has stayed for 500 ms;
    before that, nothing is shown. *)
Theorem tooltip_shows_after_500_ms (evs : list (Z * Hover)) (t t' : Z)
    (note : Note) (element : SpanRect) :
  paired evs ->
  run nothing_shown evs = nothing_shown
  /\ tooltips (advance t' (run nothing_shown (evs ++ [(t, MouseEnter note element)])))
     = if t + 500 <=? t' then [tooltip_of note element] else [].
Proof.
  intros Hp.
  assert (H : run nothing_shown evs = nothing_shown)
    by (apply (paired_run (List.length evs)); [lia|exact Hp]).
  split; [exact H|].
  unfold run in *. rewrite fold_left_app, H. cbn.
  unfold advance. cbn. destruct (t + 500 <=? t'); reflexivity.
Qed.

Lemma tooltip_shows_after_500_ms_witness :
  paired [(0, MouseEnter note_n1 {| span_right := 90; span_top := 40 |});
          (200, MouseLeave)]
  /\ tooltips
       (advance 1500
          (run nothing_shown
             ([(0, MouseEnter note_n1 {| span_right := 90; span_top := 40 |});
               (200, MouseLeave)]
              ++ [(1000, MouseEnter note_n1
                           {| span_right := 90; span_top := 40 |})])))
     = [tooltip_of note_n1 {| span_right := 90; span_top := 40 |}].
Proof.
  split; [exact I|].
  exact (proj2 (tooltip_shows_after_500_ms
                  [(0, MouseEnter note_n1 {| span_right := 90; span_top := 40 |});
                   (200, MouseLeave)] 1000 1500 note_n1
                  {| span_right := 90; span_top := 40 |} I)).
Defined.

End TooltipExtras.

(** ** The session of the note-anchoring revision *)

Section SessionExtras.

Import Js Bridge NotesBridge NotesSession.

#[local] Arguments sendToFlutter : simpl never.

Create Rewrite HintDb sends.

#[local] Hint Rewrite sendToFlutter_logged sendToFlutter_posted
  sendToFlutter_currentPage
  sendToFlutter_pageStartTime
  sendToFlutter_totalTimeSpent
  sendToFlutter_activeTimeSpent
  sendToFlutter_idleTimeout
  sendToFlutter_isIdle
  sendToFlutter_selectedText
  sendToFlutter_selectedTextPosition
  sendToFlutter_parent
  sendToFlutter_PDFViewerApplication
  sendToFlutter_highlightModeClass
  sendToFlutter_selection : sends.

Lemma send_sent (P : Js.object -> Prop) type data now (g : Bridge.State) :
  P (message_of type data now) ->
  sent P g -> sent P (sendToFlutter type data now g).
Proof.
  intros Hm [A B]. unfold sent. autorewrite with sends. split.
  - constructor; assumption.
  - destruct (parent_reachable (parent g)); [constructor|]; assumption.
Qed.

Lemma resetIdleTimer_traces (now : Z) (g : Bridge.State) :
  logged (resetIdleTimer now g) = logged g
  /\ posted (resetIdleTimer now g) = posted g
  /\ activeTimeSpent (resetIdleTimer now g) = activeTimeSpent g
  /\ totalTimeSpent (resetIdleTimer now g) = totalTimeSpent g
  /\ PDFViewerApplication (resetIdleTimer now g) = PDFViewerApplication g
  /\ currentPage (resetIdleTimer now g) = currentPage g.
Proof. unfold resetIdleTimer. destruct (idleTimeout g); repeat split. Qed.

Lemma resetIdleTimer_sent (P : Js.object -> Prop) (now : Z)
    (g : Bridge.State) :
  sent P g -> sent P (resetIdleTimer now g).
Proof.
  destruct (resetIdleTimer_traces now g) as (A & B & _).
  unfold sent. rewrite A, B. tauto.
Qed.

(** *** What the handlers other than the page change send *)

Section Traces.

Variable P : Js.object -> Prop.

Hypothesis bookmarkAdded_ok :
  forall page now,
    P (message_of "bookmarkAdded"
         [("page", VNum page); ("timestamp", VNum now)] now).
Hypothesis highlightModeChanged_ok :
  forall enabled now,
    P (message_of "highlightModeChanged" [("enabled", VBool enabled)] now).
Hypothesis textSelection_ok :
  forall text page position now,
    P (message_of "textSelection"
         [("text", VStr text); ("page", VNum page); ("position", position)] now).
Hypothesis highlight_ok :
  forall text page color position now,
    P (message_of "highlight"
         [("text", VStr text); ("page", VNum page); ("color", VStr color);
          ("position", position); ("timestamp", VNum now)] now).
Hypothesis pdfReady_ok :
  forall totalPages page now,
    P (message_of "pdfReady"
         [("totalPages", VNum totalPages); ("currentPage", VNum page)] now).
Hypothesis idleStateChange_ok :
  forall now, P (message_of "idleStateChange" [("isIdle", VBool true)] now).

Lemma bridge_onMessage_sent (m : Bridge.Command) (now : Z) (g : Bridge.State) :
  sent P g -> sent P (Bridge.onMessage m now g).
Proof.
  intros H. unfold Bridge.onMessage.
  repeat match goal with
         | |- context [if ?b then _ else _] => destruct b
         | |- context [match ?x with Some _ => _ | None => _ end] => destruct x
         end; auto; apply send_sent; auto.
Qed.

Lemma onTextSelection_sent (now : Z) (g : Bridge.State) :
  sent P g -> sent P (onTextSelection now g).
Proof.
  intros H. unfold onTextSelection. cbv zeta.
  remember (trim (selection_toString (selection g))) as txt.
  cbn. destruct (negb (txt =? "")%string).
  - destruct (selection g); cbn; [exact H|]. apply send_sent; auto.
  - cbn. apply send_sent; auto.
Qed.

Lemma createHighlight_sent (text : string) (color : option string) (now : Z)
    (g : Bridge.State) :
  sent P g -> sent P (createHighlight text color now g).
Proof.
  intros H. unfold createHighlight.
  destruct (negb (truthy (VStr (selectedText g)))
            || negb (truthy (position_value (selectedTextPosition g))))%bool;
    [exact H|].
  apply send_sent; auto.
Qed.

Lemma initializeFlutterBridge_sent (now : Z) (s : State) :
  sent P (globals s) -> sent P (globals (initializeFlutterBridge now s)).
Proof.
  intros H. unfold initializeFlutterBridge. cbv zeta.
  cbn [globals set_globals]. apply send_sent; [apply pdfReady_ok|].
  apply resetIdleTimer_sent.
  destruct (ready (globals s) && negb (pdfEventListenersSetup s))%bool;
    [exact H|].
  destruct (negb (pdfEventListenersSetup s)); exact H.
Qed.

(** Every event but a page change keeps what has been sent as [P] says. *)
Lemma handle_sent (e : Event) (now : Z) (s : State) :
  (forall p r, e <> EvPageChanging p r) ->
  sent P (globals s) -> sent P (globals (handle e now s)).
Proof.
  intros He H.
  destruct e as [app|m|p r| | |sel|text color| | | | ]; cbn [handle];
    cbn [globals set_globals].
  - exact H.
  - unfold onMessage.
    destruct (cmd_type (cmd_base m) =? "loadPDF")%string; [exact H|].
    destruct (cmd_type (cmd_base m) =? "displayNotes")%string.
    + destruct (cmd_notes m); exact H.
    + cbn [globals set_globals]. apply bridge_onMessage_sent, H.
  - destruct (He p r). reflexivity.
  - apply resetIdleTimer_sent, H.
  - apply onTextSelection_sent, H.
  - apply onTextSelection_sent. exact H.
  - apply createHighlight_sent, H.
  - apply initializeFlutterBridge_sent, H.
  - destruct (idleTimeout (globals s)) as [d|]; [|exact H].
    destruct (d <=? now); [|exact H].
    cbn [globals set_globals]. unfold idleCallback.
    apply send_sent; [apply idleStateChange_ok|exact H].
  - destruct (highlightTimeout s) as [[d held]|]; [|exact H].
    destruct (d <=? now); exact H.
  - destruct (retryTimers s) as [|d rest]; [exact H|].
    destruct (d <=? now); [|exact H].
    apply initializeFlutterBridge_sent. exact H.
Qed.

End Traces.

(** Every event but a page change leaves the two accumulated times. *)
Lemma handle_keeps_times (e : Event) (now : Z) (s : State) :
  (forall p r, e <> EvPageChanging p r) ->
  activeTimeSpent (globals (handle e now s)) = activeTimeSpent (globals s)
  /\ totalTimeSpent (globals (handle e now s)) = totalTimeSpent (globals s).
Proof.
  intros He.
  assert (Hi : forall now s,
             activeTimeSpent (globals (initializeFlutterBridge now s))
             = activeTimeSpent (globals s)
             /\ totalTimeSpent (globals (initializeFlutterBridge now s))
                = totalTimeSpent (globals s)).
  { clear. intros now s. unfold initializeFlutterBridge. cbv zeta.
    cbn [globals set_globals]. autorewrite with sends.
    match goal with
    | |- context [resetIdleTimer now ?g] =>
        destruct (resetIdleTimer_traces now g) as (_ & _ & -> & -> & _)
    end.
    destruct (ready (globals s) && negb (pdfEventListenersSetup s))%bool;
      [split; reflexivity|].
    destruct (negb (pdfEventListenersSetup s)); split; reflexivity. }
  destruct e as [app|m|p r| | |sel|text color| | | | ]; cbn [handle];
    cbn [globals set_globals].
  - split; reflexivity.
  - unfold onMessage.
    destruct (cmd_type (cmd_base m) =? "loadPDF")%string; [split; reflexivity|].
    destruct (cmd_type (cmd_base m) =? "displayNotes")%string.
    + destruct (cmd_notes m); split; reflexivity.
    + cbn [globals set_globals]. unfold Bridge.onMessage.
      repeat match goal with
             | |- context [if ?b then _ else _] => destruct b
             | |- context [match ?x with Some _ => _ | None => _ end] =>
                 destruct x
             end; autorewrite with sends; split; reflexivity.
  - destruct (He p r). reflexivity.
  - destruct (resetIdleTimer_traces now (globals s)) as (_ & _ & -> & -> & _).
    split; reflexivity.
  - unfold onTextSelection. cbv zeta.
    remember (trim (selection_toString (selection (globals s)))) as txt.
    cbn. destruct (negb (txt =? "")%string).
    + destruct (selection (globals s)); cbn; autorewrite with sends;
        split; reflexivity.
    + cbn. autorewrite with sends. split; reflexivity.
  - unfold onTextSelection. cbv zeta.
    remember (trim (selection_toString
                      (selection (set_selection sel (globals s))))) as txt.
    cbn. destruct (negb (txt =? "")%string).
    + destruct sel; cbn; autorewrite with sends; split; reflexivity.
    + cbn. autorewrite with sends. split; reflexivity.
  - unfold createHighlight.
    destruct (negb (truthy (VStr (selectedText (globals s))))
              || negb (truthy (position_value
                                 (selectedTextPosition (globals s)))))%bool;
      autorewrite with sends; split; reflexivity.
  - apply Hi.
  - destruct (idleTimeout (globals s)) as [d|]; [|split; reflexivity].
    destruct (d <=? now); [|split; reflexivity].
    cbn [globals set_globals]. unfold idleCallback.
    autorewrite with sends. split; reflexivity.
  - destruct (highlightTimeout s) as [[d held]|]; [|split; reflexivity].
    destruct (d <=? now); split; reflexivity.
  - destruct (retryTimers s) as [|d rest]; [split; reflexivity|].
    destruct (d <=? now); [|split; reflexivity].
    apply (Hi now (set_retryTimers rest s)).
Qed.

(** *** The page change *)

Lemma onPageChange_globals (pageNum now sent entered : Z) (s : State) :
  let g := globals s in
  let dwell := now - pageStartTime g in
  globals (onPageChange pageNum now sent entered s)
  = set_pageStartTime entered
      (set_currentPage pageNum
         (sendToFlutter "pageChange"
            [("previousPage", VNum (currentPage g));
             ("newPage", VNum pageNum);
             ("timeSpent", VNum (round_div1000 dwell));
             ("totalTimeSpent", VNum (round_div1000 (totalTimeSpent g + dwell)));
             ("activeTimeSpent", VNum (round_div1000 (activeTimeSpent g + dwell)))]
            sent
            (set_activeTimeSpent (activeTimeSpent g + dwell)
               (set_totalTimeSpent (totalTimeSpent g + dwell) g)))).
Proof.
  unfold onPageChange. cbv zeta.
  match goal with
  | |- context [if (0 <? ?n)%nat then _ else _] => destruct (0 <? n)%nat
  end; cbn [globals set_globals set_highlightTimeout];
    cbn [isIdle set_totalTimeSpent activeTimeSpent totalTimeSpent currentPage
         set_activeTimeSpent];
    destruct (isIdle (globals s)); reflexivity.
Qed.

Lemma onPageChange_registrations (pageNum now sent entered : Z) (s : State) :
  pageChangingListeners (onPageChange pageNum now sent entered s)
  = pageChangingListeners s
  /\ pdfEventListenersSetup (onPageChange pageNum now sent entered s)
     = pdfEventListenersSetup s
  /\ retryTimers (onPageChange pageNum now sent entered s) = retryTimers s.
Proof.
  unfold onPageChange. cbv zeta.
  match goal with
  | |- context [if (0 <? ?n)%nat then _ else _] => destruct (0 <? n)%nat
  end; repeat split.
Qed.

Lemma onPageChange_agrees (pageNum now stamp entered : Z) (s : State) :
  activeTimeSpent (globals s) = totalTimeSpent (globals s) ->
  sent times_agree (globals s) ->
  activeTimeSpent (globals (onPageChange pageNum now stamp entered s))
  = totalTimeSpent (globals (onPageChange pageNum now stamp entered s))
  /\ sent times_agree
       (globals (onPageChange pageNum now stamp entered s)).
Proof.
  intros Ht [A B]. rewrite onPageChange_globals. cbv zeta.
  unfold sent. cbn. autorewrite with sends. cbn.
  assert (Hm : forall x y z previous,
             times_agree
               (message_of "pageChange"
                  [("previousPage", VNum previous); ("newPage", VNum pageNum);
                   ("timeSpent", VNum x);
                   ("totalTimeSpent", VNum y);
                   ("activeTimeSpent", VNum z)] stamp) <-> z = y).
  { intros x y z previous. unfold times_agree. cbn.
    split; [intros H; injection H; auto|intros ->; reflexivity]. }
  split; [lia|]. split.
  - constructor; [|exact A]. apply Hm. rewrite Ht. reflexivity.
  - destruct (parent_reachable (parent (globals s))); [|exact B].
    constructor; [|exact B]. apply Hm. rewrite Ht. reflexivity.
Qed.

Lemma onPageChange_sent_idle (pageNum now stamp entered : Z) (s : State) :
  sent reports_idle (globals s) ->
  sent reports_idle
    (globals (onPageChange pageNum now stamp entered s)).
Proof.
  intros [A B]. rewrite onPageChange_globals. cbv zeta.
  unfold sent. cbn. autorewrite with sends. cbn. split.
  - constructor; [exact I|exact A].
  - destruct (parent_reachable (parent (globals s))); [|exact B].
    constructor; [exact I|exact B].
Qed.

Lemma step_agrees (s : State) (te : Z * Event) :
  activeTimeSpent (globals s) = totalTimeSpent (globals s)
  /\ sent times_agree (globals s) ->
  activeTimeSpent (globals (step s te)) = totalTimeSpent (globals (step s te))
  /\ sent times_agree (globals (step s te)).
Proof.
  destruct te as [now e]. unfold step. cbn [fst snd]. intros [Ht Hs].
  destruct e as [app|m|p r| | |sel|text color| | | | ].
  3: { cbn [handle]. generalize (pageChangingListeners s).
       induction n as [|n [IH1 IH2]]; [split; assumption|].
       rewrite seq_S, fold_left_app. cbn [fold_left].
       apply onPageChange_agrees; assumption. }
  all: match goal with
       | |- context [handle ?e ?t ?s0] =>
           destruct (handle_keeps_times e t s0) as [-> ->];
             [intros p r; discriminate|];
             split; [exact Ht|];
             apply handle_sent; try reflexivity;
               [intros p r; discriminate|exact Hs]
       end.
Qed.

(** X19.  In the revision that anchors notes the idle state has no part
    in the times: whatever happens after the script is loaded, the
    accumulated active time equals the accumulated total time, and every
    [pageChange] message, as logged and as posted, reports the same
    [activeTimeSpent] as [totalTimeSpent]. *)
Theorem active_time_equals_total_time (t0 : Z) (par : ParentWindow)
    (app : option Application) (hl : bool) (sel : Selection)
    (evs : list (Z * Event)) :
  let g := globals (run (loaded t0 par app hl sel) evs) in
  activeTimeSpent g = totalTimeSpent g
  /\ Forall times_agree (logged g)
  /\ Forall times_agree (posted g).
Proof.
  cbv zeta. unfold run.
  assert (H0 : activeTimeSpent (globals (loaded t0 par app hl sel))
               = totalTimeSpent (globals (loaded t0 par app hl sel))
               /\ sent times_agree (globals (loaded t0 par app hl sel))).
  { unfold loaded.
    match goal with
    | |- context [initializeFlutterBridge t0 ?s0] =>
        destruct (handle_keeps_times EvInitialize t0 s0) as [A B];
          [intros p r; discriminate|];
          cbn [handle] in A, B; rewrite A, B; split; [reflexivity|];
          apply (handle_sent times_agree) with (e := EvInitialize);
          try reflexivity; [intros p r; discriminate|]
    end.
    split; constructor. }
  revert H0. generalize (loaded t0 par app hl sel).
  induction evs as [|te evs IH]; intros s H; cbn [fold_left].
  - unfold sent in H. tauto.
  - apply IH, step_agrees, H.
Qed.

Lemma step_reports_idle (s : State) (te : Z * Event) :
  sent reports_idle (globals s) -> sent reports_idle (globals (step s te)).
Proof.
  destruct te as [now e]. unfold step. cbn [fst snd]. intros Hs.
  destruct e as [app|m|p r| | |sel|text color| | | | ].
  3: { cbn [handle]. generalize (pageChangingListeners s).
       induction n as [|n IH]; [assumption|].
       rewrite seq_S, fold_left_app. cbn [fold_left].
       apply onPageChange_sent_idle; assumption. }
  all: apply handle_sent; try reflexivity; try exact Hs;
    try (intros; exact I); intros p r; discriminate.
Qed.

(** X20.  In the revision that anchors notes the host hears of the idle
    state only when it begins: whatever happens after the script is
    loaded, every [idleStateChange] message, as logged and as posted,
    carries [isIdle: true]; the return of the reader is never
    reported. *)
Theorem idle_is_reported_only_when_it_begins (t0 : Z) (par : ParentWindow)
    (app : option Application) (hl : bool) (sel : Selection)
    (evs : list (Z * Event)) :
  let g := globals (run (loaded t0 par app hl sel) evs) in
  Forall reports_idle (logged g) /\ Forall reports_idle (posted g).
Proof.
  cbv zeta. unfold run.
  assert (H0 : sent reports_idle (globals (loaded t0 par app hl sel))).
  { unfold loaded.
    apply (handle_sent reports_idle) with (e := EvInitialize);
      try reflexivity; try (intros; exact I); [intros p r; discriminate|].
    split; constructor. }
  revert H0. generalize (loaded t0 par app hl sel).
  induction evs as [|te evs IH]; intros s H; cbn [fold_left].
  - exact H.
  - apply IH, step_reports_idle, H.
Qed.

(** *** The highlight *)

Lemma createHighlight_sends (text : string) (color : option string) (now : Z)
    (g : Bridge.State) :
  selectedText g <> "" -> selectedTextPosition g <> None ->
  createHighlight text color now g
  = set_logged (highlight_message color now g :: logged g)
      (if parent_reachable (parent g)
       then set_posted (highlight_message color now g :: posted g) g
       else g).
Proof.
  intros Ht Hp. unfold createHighlight.
  destruct (selectedTextPosition g) as [o|] eqn:Ep; [|congruence].
  destruct (String.eqb (selectedText g) "") eqn:Et;
    [apply String.eqb_eq in Et; congruence|].
  cbn [truthy position_value negb orb]. rewrite Et. cbn [negb orb].
  unfold sendToFlutter, highlight_message. rewrite Ep.
  destruct (parent_reachable (parent g)); reflexivity.
Qed.

(** X21.  In the revision that anchors notes [createHighlight] leaves
    the stored selection: with a text and a position stored, every call
    logs one more [highlight] message for the same text and position,
    and the stored selection is afterwards as it was. *)
Theorem createHighlight_sends_every_time (text : string)
    (color : option string) (now : Z) (g : Bridge.State) (n : nat) :
  selectedText g <> "" -> selectedTextPosition g <> None ->
  let g' := Nat.iter n (createHighlight text color now) g in
  logged g' = (repeat (highlight_message color now g) n ++ logged g)%list
  /\ selectedText g' = selectedText g
  /\ selectedTextPosition g' = selectedTextPosition g
  /\ selection g' = selection g.
Proof.
  intros Ht Hp. cbv zeta.
  assert (H : logged (Nat.iter n (createHighlight text color now) g)
              = (repeat (highlight_message color now g) n ++ logged g)%list
              /\ selectedText (Nat.iter n (createHighlight text color now) g)
                 = selectedText g
              /\ selectedTextPosition
                   (Nat.iter n (createHighlight text color now) g)
                 = selectedTextPosition g
              /\ selection (Nat.iter n (createHighlight text color now) g)
                 = selection g
              /\ currentPage (Nat.iter n (createHighlight text color now) g)
                 = currentPage g).
  { induction n as [|n (A & B & C & D & E)]; [repeat split|].
    rewrite Nat.iter_succ.
    rewrite createHighlight_sends by congruence.
    unfold highlight_message at 1 2. rewrite A, B, C, E.
    fold (highlight_message color now g).
    destruct (parent_reachable
                (parent (Nat.iter n (createHighlight text color now) g)));
      cbn; repeat split; assumption. }
  tauto.
Qed.

(** The words "Dwell time" selected on page 1, and three calls. *)
Lemma createHighlight_sends_every_time_witness :
  let range := {| range_text := " Dwell time ";
                  range_rect := {| rect_left := 10; rect_top := 20;
                                   rect_width := 80; rect_height := 12 |} |} in
  let g := onTextSelection 1 (set_selection [range] viewer_on_page_1) in
  List.length (logged (Nat.iter 3 (createHighlight "" None 2) g)) = 4%nat
  /\ selectedText (Nat.iter 3 (createHighlight "" None 2) g) = "Dwell time".
Proof.
  intros range g.
  destruct (createHighlight_sends_every_time "" None 2 g 3)
    as (A & B & _).
  - cbn. discriminate.
  - cbn. discriminate.
  - split; [rewrite A; reflexivity | rewrite B; reflexivity].
Defined.

(** *** The start *)

Lemma initializeFlutterBridge_registrations (now : Z) (s : State) :
  pageChangingListeners s
  = (if pdfEventListenersSetup s then 1%nat else 0%nat) ->
  pageChangingListeners (initializeFlutterBridge now s)
  = (if pdfEventListenersSetup (initializeFlutterBridge now s)
     then 1%nat else 0%nat).
Proof.
  intros H. unfold initializeFlutterBridge. cbv zeta.
  destruct (pdfEventListenersSetup s) eqn:E.
  - rewrite Bool.andb_false_r. cbn. rewrite E. exact H.
  - rewrite Bool.andb_true_r. destruct (ready (globals s)); cbn.
    + rewrite H. reflexivity.
    + rewrite E. exact H.
Qed.

Lemma listeners_registrations (n : nat) (pageNum : Z)
    (readings : nat -> Startup.Readings) (s : State) :
  let all :=
    fold_left
      (fun s i =>
         onPageChange pageNum (Startup.read_now (readings i))
           (Startup.read_sent (readings i))
           (Startup.read_entered (readings i)) s)
      (seq 0 n) s in
  pageChangingListeners all = pageChangingListeners s
  /\ pdfEventListenersSetup all = pdfEventListenersSetup s
  /\ retryTimers all = retryTimers s.
Proof.
  cbv zeta. induction n as [|n (A & B & C)]; [repeat split|].
  rewrite seq_S, fold_left_app. cbn [fold_left].
  match goal with
  | |- context [onPageChange pageNum ?t1 ?t2 ?t3 ?x] =>
      destruct (onPageChange_registrations pageNum t1 t2 t3 x)
        as (-> & -> & ->)
  end.
  repeat split; assumption.
Qed.

Lemma step_registrations (s : State) (te : Z * Event) :
  pageChangingListeners s
  = (if pdfEventListenersSetup s then 1%nat else 0%nat) ->
  pageChangingListeners (step s te)
  = (if pdfEventListenersSetup (step s te) then 1%nat else 0%nat).
Proof.
  destruct te as [now e]. unfold step. cbn [fst snd]. intros H.
  destruct e as [app|m|p r| | |sel|text color| | | | ]; cbn [handle];
    try exact H.
  - unfold onMessage.
    destruct (cmd_type (cmd_base m) =? "loadPDF")%string; [exact H|].
    destruct (cmd_type (cmd_base m) =? "displayNotes")%string.
    + destruct (cmd_notes m); exact H.
    + exact H.
  - destruct (listeners_registrations (pageChangingListeners s) p r s)
      as (-> & -> & _). exact H.
  - apply initializeFlutterBridge_registrations, H.
  - destruct (idleTimeout (globals s)) as [d|]; [|exact H].
    destruct (d <=? now); exact H.
  - destruct (highlightTimeout s) as [[d held]|]; [|exact H].
    destruct (d <=? now); exact H.
  - destruct (retryTimers s) as [|d rest]; [exact H|].
    destruct (d <=? now); [|exact H].
    apply initializeFlutterBridge_registrations. exact H.
Qed.

Lemma onPageChange_logged (pageNum now sent entered : Z) (s : State) :
  List.length (logged (globals (onPageChange pageNum now sent entered s)))
  = S (List.length (logged (globals s))).
Proof.
  rewrite onPageChange_globals. cbv zeta. cbn. autorewrite with sends.
  reflexivity.
Qed.

(** X22.  In the revision that anchors notes the page change is heard
    once: whatever happens after the script is loaded, and however often
    the initialization runs again, the event bus holds one listener when
    the set-up is marked as done and none before, so that a page change
    of the viewer logs one [pageChange] message, or none before the
    set-up. *)
Theorem page_change_is_heard_once (t0 : Z) (par : ParentWindow)
    (app : option Application) (hl : bool) (sel : Selection)
    (evs : list (Z * Event)) (pageNumber now : Z)
    (readings : nat -> Startup.Readings) :
  let s := run (loaded t0 par app hl sel) evs in
  pageChangingListeners s
  = (if pdfEventListenersSetup s then 1%nat else 0%nat)
  /\ List.length
       (logged (globals (handle (EvPageChanging pageNumber readings) now s)))
     = ((if pdfEventListenersSetup s then 1%nat else 0%nat)
        + List.length (logged (globals s)))%nat.
Proof.
  cbv zeta.
  assert (H : pageChangingListeners (run (loaded t0 par app hl sel) evs)
              = (if pdfEventListenersSetup (run (loaded t0 par app hl sel) evs)
                 then 1%nat else 0%nat)).
  { unfold run.
    assert (H0 : pageChangingListeners (loaded t0 par app hl sel)
                 = (if pdfEventListenersSetup (loaded t0 par app hl sel)
                    then 1%nat else 0%nat))
      by (apply initializeFlutterBridge_registrations; reflexivity).
    revert H0. generalize (loaded t0 par app hl sel).
    induction evs as [|te evs IH]; intros s H; cbn [fold_left]; [exact H|].
    apply IH, step_registrations, H. }
  split; [exact H|]. cbn [handle]. rewrite H.
  destruct (pdfEventListenersSetup (run (loaded t0 par app hl sel) evs)).
  - cbn [seq fold_left]. apply onPageChange_logged.
  - reflexivity.
Qed.

Lemma retries_next (n : nat) (t0 : Z) :
  retries (S n) t0
  = (retries n t0 ++ [(t0 + 500 * Z.of_nat (S n), EvRetryTimer)])%list.
Proof. unfold retries. rewrite seq_S, map_app. reflexivity. Qed.

(** X23.  In the revision that anchors notes the wait for the viewer has
    no end: while there is no viewer, every retry announces [pdfReady]
    again and arms the next retry, so that after [n] retries [n + 1]
    announcements are logged, one retry is pending, and no listener is
    on the event bus. *)
Theorem retry_has_no_limit (n : nat) (t0 : Z) (par : ParentWindow)
    (hl : bool) (sel : Selection) :
  let s := run (loaded t0 par None hl sel) (retries n t0) in
  retryTimers s = [t0 + 500 * Z.of_nat (S n)]
  /\ List.length (of_type "pdfReady" (logged (globals s))) = S n
  /\ pageChangingListeners s = 0%nat.
Proof.
  cbv zeta.
  assert (H : let s := run (loaded t0 par None hl sel) (retries n t0) in
              retryTimers s = [t0 + 500 * Z.of_nat (S n)]
              /\ List.length (of_type "pdfReady" (logged (globals s))) = S n
              /\ pageChangingListeners s = 0%nat
              /\ pdfEventListenersSetup s = false
              /\ PDFViewerApplication (globals s) = None).
  { induction n as [|n IH]; cbv zeta.
    - cbn. destruct par; cbn; repeat split; f_equal; lia.
    - rewrite retries_next. unfold run in *. rewrite fold_left_app.
      cbv zeta in IH. destruct IH as (A & B & C & D & E).
      remember (fold_left step (retries n t0) (loaded t0 par None hl sel)) as s.
      cbn [fold_left]. unfold step. cbn [fst snd handle]. rewrite A.
      rewrite Z.leb_refl. unfold initializeFlutterBridge. cbv zeta.
      cbn [globals set_retryTimers pdfEventListenersSetup retryTimers
           pageChangingListeners set_globals].
      unfold ready. rewrite E, D. cbn [andb negb app].
      cbn [globals set_retryTimers pdfEventListenersSetup retryTimers
           pageChangingListeners set_globals].
      autorewrite with sends.
      destruct (resetIdleTimer_traces (t0 + 500 * Z.of_nat (S n)) (globals s))
        as (L & _ & _ & _ & V & _).
      rewrite L, V, E. unfold of_type in *. cbn [filter].
      replace (has_type "pdfReady" _) with true by reflexivity.
      cbn [List.length]. rewrite B. repeat split; try assumption.
      f_equal. lia. }
  cbv zeta in H. tauto.
Qed.

End SessionExtras.
